(** * Secret-Manager: the encrypted vault engine

    A shallow embedding of the two encrypted variants of the vault:

    - [step_2_add_encryption.py], the document form: one JSON record on disk
      holding the KDF parameters and a single Fernet token for the whole
      dictionary of secrets;
    - [step_3_database_connection.py], the tabular form: an SQLite database
      with a [meta] table (salt, iterations) and a [secrets] table with one
      Fernet token per service, and the master password rotation.

    Python exceptions are values of [exn] carried by the [result] monad.
    The third-party and built-in primitives the programs call (PBKDF2,
    Fernet, base64, json, utf-8, int/str conversion) are the operations of
    the interface [PyLib]; what the proofs need to know about them is the
    contract [PyLibLaws]. *)

From Stdlib Require Import ZArith Lia.
From Stdlib Require Import Strings.Byte Strings.String Strings.Ascii.
From Stdlib Require Import DecimalString DecimalPos DecimalZ.
From stdpp Require Import base option list strings gmap fin_maps sorting.

Set Warnings "-register-all".

Local Open Scope string_scope.
Local Open Scope Z_scope.

(** ** Python values, exceptions and results *)

Module Py.

(** [bytes] objects. *)
Abbreviation bytes := (list byte).

#[global] Instance byte_eq_dec : EqDecision byte.
Proof.
  intros x y. destruct (Byte.eqb x y) eqn:E.
  - left. apply Byte.byte_dec_bl, E.
  - right. intros ->. rewrite Byte.byte_dec_lb in E; [discriminate | reflexivity].
Defined.

(** The exceptions the two programs can meet.  [ValueError] carries its
    message; the library subclasses of [ValueError] are separate
    constructors.  [WrongPasswordOrCorrupted] is the [InvalidToken] that
    [load_or_init_vault] raises itself, [MalformedVault e] the
    [ValueError] it raises from a caught [e]. *)
Inductive exn : Type :=
| InvalidToken
| WrongPasswordOrCorrupted
| ValueError (msg : string)
| MalformedVault (cause : exn)
| JSONDecodeError
| BinasciiError
| UnicodeDecodeError
| KeyError (key : string)
| TypeError
| FileNotFoundError
| OverflowError
| OperationalError.

(** [isinstance(e, InvalidToken)]. *)
Definition is_InvalidToken (e : exn) : bool :=
  match e with
  | InvalidToken | WrongPasswordOrCorrupted => true
  | _ => false
  end.

(** [isinstance(e, ValueError)]: [json.JSONDecodeError], [binascii.Error]
    and [UnicodeDecodeError] derive from [ValueError]. *)
Definition is_ValueError (e : exn) : bool :=
  match e with
  | ValueError _ | MalformedVault _
  | JSONDecodeError | BinasciiError | UnicodeDecodeError => true
  | _ => false
  end.

Definition is_JSONDecodeError (e : exn) : bool :=
  match e with
  | JSONDecodeError => true
  | _ => false
  end.

Definition is_KeyError (e : exn) : bool :=
  match e with
  | KeyError _ => true
  | _ => false
  end.

(** The outcome of a call: a value or a raised exception. *)
Inductive result (A : Type) : Type :=
| Ok (a : A)
| Raise (e : exn).
Arguments Ok {A} a.
Arguments Raise {A} e.

(** [result] is a monad; stdpp's [x ← r; k] sequences two calls and
    stops at the first exception. *)
#[global] Instance result_ret : MRet result := fun A a => Ok a.
#[global] Instance result_bind : MBind result := fun A B k r =>
  match r with
  | Ok a => k a
  | Raise e => Raise e
  end.

(** Lift a partial library function, naming the exception it raises. *)
Definition orraise {A} (o : option A) (e : exn) : result A :=
  match o with
  | Some a => Ok a
  | None => Raise e
  end.

(** The values [json.load] can return.  Floating-point numbers are not
    represented. *)
Inductive json : Type :=
| JNull
| JBool (b : bool)
| JInt (z : Z)
| JStr (s : string)
| JList (l : list json)
| JDict (m : gmap string json).

(** [doc[key]] for a string key. *)
Definition getitem (doc : json) (key : string) : result json :=
  match doc with
  | JDict m => orraise (m !! key) (KeyError key)
  | _ => Raise TypeError
  end.

(** A [Dict[str, str]] as a JSON value. *)
Definition vault_json (vault : gmap string string) : json :=
  JDict (JStr <$> vault).

(** The library primitives.  [str] values are [string]s; the entropy a
    call draws ([os.urandom], the IV and timestamp of [Fernet.encrypt]) is
    an explicit argument. *)
Class PyLib : Type := {
  (** [s.strip()] *)
  str_strip : string -> string;
  (** [s.encode("utf-8")] *)
  str_encode : string -> bytes;
  (** [b.decode("utf-8")]; [None] is [UnicodeDecodeError] *)
  bytes_decode : bytes -> option string;
  (** [str(n)] *)
  str_of_int : Z -> string;
  (** [int(s)] on a string; [None] is [ValueError] *)
  int_of_str : string -> option Z;
  (** [base64.b64encode(b).decode("ascii")] *)
  b64encode : bytes -> string;
  (** [base64.b64decode(s)] on a string; [None] is [binascii.Error] *)
  b64decode : string -> option bytes;
  (** [base64.urlsafe_b64encode(b)] *)
  urlsafe_b64encode : bytes -> bytes;
  (** [PBKDF2HMAC(SHA256(), 32, salt, iterations).derive(password)] *)
  pbkdf2_hmac_sha256 : bytes -> Z -> bytes -> result bytes;
  (** [Fernet(key).encrypt(data)], with the entropy it draws *)
  fernet_encrypt : bytes -> bytes -> bytes -> bytes;
  (** [Fernet(key).decrypt(token)]; [None] is [InvalidToken] *)
  fernet_decrypt : bytes -> bytes -> option bytes;
  (** [json.dumps(v)] *)
  json_dumps : json -> string;
  (** the text [json.dump(v, f, indent=2)] writes *)
  json_dump_indent : json -> string;
  (** [json.loads(s)]; [None] is [json.JSONDecodeError] *)
  json_loads : string -> option json;
}.

(** A JSON object all of whose members are strings or integers. *)
Definition flat_member (v : json) : Prop :=
  match v with
  | JStr _ | JInt _ => True
  | _ => False
  end.

(** The documented behaviour of the primitives that the proofs rely on. *)
Class PyLibLaws (L : PyLib) : Prop := {
  decode_encode : forall s, bytes_decode (str_encode s) = Some s;
  int_of_str_of_int : forall z, int_of_str (str_of_int z) = Some z;
  b64decode_b64encode : forall b, b64decode (b64encode b) = Some b;
  pbkdf2_succeeds : forall salt iterations password,
    0 < iterations ->
    exists key, pbkdf2_hmac_sha256 salt iterations password = Ok key;
  fernet_decrypt_encrypt : forall key entropy data,
    fernet_decrypt key (fernet_encrypt key entropy data) = Some data;
  json_loads_dumps : forall m : gmap string json,
    map_Forall (fun _ v => flat_member v) m ->
    json_loads (json_dumps (JDict m)) = Some (JDict m);
  json_loads_dump_indent : forall m : gmap string json,
    map_Forall (fun _ v => flat_member v) m ->
    json_loads (json_dump_indent (JDict m)) = Some (JDict m);
}.

End Py.

Import Py.

(** ** The document form: [step_2_add_encryption.py] *)

Module Document.

Section Program.
Context {L : PyLib}.

Definition KDF_ITERATIONS : Z := 200000.
Definition SALT_BYTES : nat := 16.

(** The file system as the program sees it: the content of
    [vault.enc.json], or [None] when [os.path.exists(FILE)] is false. *)
Definition filesystem : Type := option bytes.

(** [derive_fernet_key]: the two guards, then PBKDF2 and the url-safe
    base64 of the raw key.  [password] is a [str] and [salt] a [bytes] by
    their types, so the [isinstance] tests hold. *)
Definition derive_fernet_key (password : string) (salt : bytes)
    (iterations : Z) : result bytes :=
  if (password =? "")%string then
    Raise (ValueError "Password must be a non-empty string.")
  else if (length salt <? 8)%nat then
    Raise (ValueError "Salt must be bytes and at least 8 bytes long.")
  else
    key_raw ← pbkdf2_hmac_sha256 salt iterations (str_encode password);
    Ok (urlsafe_b64encode key_raw).

(** [new_vault_doc]: the dictionary saved on disk.  [int(iterations)] is
    the identity on an [int]. *)
Definition new_vault_doc (ciphertext salt : bytes) (iterations : Z) : json :=
  JDict (<["version" := JInt 1]>
         (<["kdf" := JStr "PBKDF2HMAC-SHA256"]>
         (<["iterations" := JInt iterations]>
         (<["salt" := JStr (b64encode salt)]>
         (<["ciphertext" := JStr (b64encode ciphertext)]> ∅))))).

(** [read_vault_doc]: open the file as utf-8 text and [json.load] it. *)
Definition read_vault_doc (fs : filesystem) : result json :=
  match fs with
  | None => Raise FileNotFoundError
  | Some content =>
      text ← orraise (bytes_decode content) UnicodeDecodeError;
      orraise (json_loads text) JSONDecodeError
  end.

(** [write_vault_doc]: replace the file by [json.dump(doc, f, indent=2)]. *)
Definition write_vault_doc (doc : json) : filesystem :=
  Some (str_encode (json_dump_indent doc)).

(** [base64.b64decode(v)] on a value read from the record: only a string
    (or a bytes-like object, which JSON cannot produce) is accepted. *)
Definition py_b64decode (v : json) : result bytes :=
  match v with
  | JStr s => orraise (b64decode s) BinasciiError
  | _ => Raise TypeError
  end.

(** [int(v)] on a value read from the record. *)
Definition py_int (v : json) : result Z :=
  match v with
  | JInt z => Ok z
  | JBool b => Ok (if b then 1 else 0)
  | JStr s => orraise (int_of_str s) (ValueError "invalid literal for int()")
  | _ => Raise TypeError
  end.

(** [get_salt_and_iterations]. *)
Definition get_salt_and_iterations (doc : json) : result (bytes * Z) :=
  s ← getitem doc "salt";
  salt ← py_b64decode s;
  i ← getitem doc "iterations";
  iterations ← py_int i;
  Ok (salt, iterations).

(** [encrypt_vault_dict]; [entropy] is what [Fernet.encrypt] draws. *)
Definition encrypt_vault_dict (vault : gmap string string) (password : string)
    (salt : bytes) (iterations : Z) (entropy : bytes) : result json :=
  key_b64 ← derive_fernet_key password salt iterations;
  let plaintext := str_encode (json_dumps (vault_json vault)) in
  let token := fernet_encrypt key_b64 entropy plaintext in
  Ok (new_vault_doc token salt iterations).

(** [decrypt_vault_dict]. *)
Definition decrypt_vault_dict (doc : json) (password : string) : result json :=
  '(salt, iterations) ← get_salt_and_iterations doc;
  key_b64 ← derive_fernet_key password salt iterations;
  c ← getitem doc "ciphertext";
  token ← py_b64decode c;
  plaintext ← orraise (fernet_decrypt key_b64 token) InvalidToken;
  text ← orraise (bytes_decode plaintext) UnicodeDecodeError;
  orraise (json_loads text) JSONDecodeError.

(** The body of the [try] block of [load_or_init_vault]. *)
Definition open_existing (fs : filesystem) (password : string) : result json :=
  doc ← read_vault_doc fs; decrypt_vault_dict doc password.

(** The [except] clauses of [load_or_init_vault], in their order. *)
Definition handle_load_error (e : exn) : exn :=
  if is_InvalidToken e then WrongPasswordOrCorrupted
  else if is_JSONDecodeError e || is_KeyError e || is_ValueError e
  then MalformedVault e
  else e.

(** An exception is reported as a malformed vault, unless it is a
    [TypeError]. *)
Definition malformed_or_type_error (e : exn) : Prop :=
  e = TypeError \/ handle_load_error e = MalformedVault e.

(** [load_or_init_vault]; [urandom] is the result of
    [os.urandom(SALT_BYTES)] and [entropy] what [Fernet.encrypt] draws,
    both used on the first open only.  Console output is not modelled. *)
Definition load_or_init_vault (password : string) (fs : filesystem)
    (urandom entropy : bytes) : result json * filesystem :=
  match fs with
  | None =>
      let salt := urandom in
      match encrypt_vault_dict ∅ password salt KDF_ITERATIONS entropy with
      | Ok empty_doc => (Ok (vault_json ∅), write_vault_doc empty_doc)
      | Raise e => (Raise e, fs)
      end
  | Some _ =>
      match open_existing fs password with
      | Ok vault => (Ok vault, fs)
      | Raise e => (Raise (handle_load_error e), fs)
      end
  end.

(** [save_vault]. *)
Definition save_vault (vault : gmap string string) (password : string)
    (fs : filesystem) (entropy : bytes) : result unit * filesystem :=
  match
    doc ← read_vault_doc fs;
    '(salt, iterations) ← get_salt_and_iterations doc;
    encrypt_vault_dict vault password salt iterations entropy
  with
  | Ok new_doc => (Ok tt, write_vault_doc new_doc)
  | Raise e => (Raise e, fs)
  end.

(** The operations of a session that may write the vault file. *)
Inductive operation : Type :=
| OpOpen (password : string) (urandom entropy : bytes)
| OpSave (vault : gmap string string) (password : string) (entropy : bytes).

Definition run_operation (fs : filesystem) (op : operation) : filesystem :=
  match op with
  | OpOpen password urandom entropy =>
      snd (load_or_init_vault password fs urandom entropy)
  | OpSave vault password entropy =>
      snd (save_vault vault password fs entropy)
  end.

Definition run_operations (fs : filesystem) (ops : list operation) : filesystem :=
  foldl run_operation fs ops.

(** What the file stores, decoded: the KDF parameters and the token. *)
Definition stored_params (fs : filesystem) : result (bytes * Z) :=
  doc ← read_vault_doc fs; get_salt_and_iterations doc.

Definition stored_ciphertext (fs : filesystem) : result bytes :=
  doc ← read_vault_doc fs; c ← getitem doc "ciphertext"; py_b64decode c.

(** The three fields of the stored record that an open reads, decoded:
    salt, iteration count and token. *)
Definition record_fields (fs : filesystem) : result (bytes * Z * bytes) :=
  doc ← read_vault_doc fs;
  '(salt, iterations) ← get_salt_and_iterations doc;
  c ← getitem doc "ciphertext";
  token ← py_b64decode c;
  Ok (salt, iterations, token).

(** The last line of [decrypt_vault_dict]:
    [json.loads(plaintext.decode("utf-8"))]. *)
Definition decode_payload (plaintext : bytes) : result json :=
  text ← orraise (bytes_decode plaintext) UnicodeDecodeError;
  orraise (json_loads text) JSONDecodeError.

(** The shape of a record: version 1, the KDF name, and salt and
    ciphertext as base64 text. *)
Definition record_shape (doc : json) : Prop :=
  exists (m : gmap string json) (salt ciphertext : bytes),
    doc = JDict m /\
    m !! "version" = Some (JInt 1) /\
    m !! "kdf" = Some (JStr "PBKDF2HMAC-SHA256") /\
    m !! "salt" = Some (JStr (b64encode salt)) /\
    m !! "ciphertext" = Some (JStr (b64encode ciphertext)).

(** The file, when it exists, is the dump of a record of that shape. *)
Definition file_shape (fs : filesystem) : Prop :=
  match fs with
  | None => True
  | Some content =>
      exists doc, content = str_encode (json_dump_indent doc) /\ record_shape doc
  end.

End Program.

End Document.

(** ** The document form with its effects threaded

    The functions of [step_2_add_encryption.py] once more, this time as
    calls in a world, so that what a call reads besides its arguments and
    what it changes can be stated.  The calls that only compute are those
    of [Document]. *)

Module Effects.

(** What a call can read or change beyond its arguments: the vault file,
    the entropy of the operating system (its successive draws, and how many
    have been made) and the lines printed. *)
Record world : Type := World {
  disk : Document.filesystem;
  os_entropy : nat -> bytes;
  drawn : nat;
  console : list string;
}.

(** A call in a world: its outcome and the world it leaves. *)
Definition io (A : Type) : Type := world -> result A * world.

#[global] Instance io_ret : MRet io := fun A a w => (Ok a, w).
#[global] Instance io_bind : MBind io := fun A B k m w =>
  match m w with
  | (Ok a, w1) => k a w1
  | (Raise e, w1) => (Raise e, w1)
  end.

(** [raise e]. *)
Definition io_raise {A} (e : exn) : io A := fun w => (Raise e, w).

(** A call that computes on its arguments only. *)
Definition io_pure {A} (r : result A) : io A := fun w => (r, w).

(** [try: body except Exception as e: handler]. *)
Definition io_try {A} (body : io A) (handler : exn -> io A) : io A := fun w =>
  match body w with
  | (Ok a, w1) => (Ok a, w1)
  | (Raise e, w1) => handler e w1
  end.

(** The next draw of entropy. *)
Definition draw : io bytes := fun w =>
  (Ok (os_entropy w (drawn w)),
   {| disk := disk w; os_entropy := os_entropy w; drawn := S (drawn w);
      console := console w |}).

(** [os.path.exists(FILE)]. *)
Definition path_exists : io bool := fun w =>
  (Ok (match disk w with Some _ => true | None => false end), w).

(** [print(line)]. *)
Definition py_print (line : string) : io unit := fun w =>
  (Ok tt,
   {| disk := disk w; os_entropy := os_entropy w; drawn := drawn w;
      console := console w ++ [line] |}).

Section Program.
Context {L : PyLib}.

(** [os.urandom(n)]: [n] bytes of the next draw. *)
Definition os_urandom (n : nat) : io bytes :=
  entropy ← draw; mret (resize n x00 entropy).

(** [Fernet(key).encrypt(data)], which draws its IV and reads the clock. *)
Definition encrypt (key data : bytes) : io bytes :=
  entropy ← draw; mret (fernet_encrypt key entropy data).

(** [derive_fernet_key], lines 32-45: two guards, the construction of the
    KDF object, its [derive] and the base64 coding.  None of the calls it
    makes reads or changes the world. *)
Definition derive_fernet_key (password : string) (salt : bytes)
    (iterations : Z) : io bytes :=
  if (password =? "")%string then
    io_raise (ValueError "Password must be a non-empty string.")
  else if (length salt <? 8)%nat then
    io_raise (ValueError "Salt must be bytes and at least 8 bytes long.")
  else
    key_raw ← io_pure (pbkdf2_hmac_sha256 salt iterations (str_encode password));
    mret (urlsafe_b64encode key_raw).

(** [read_vault_doc]. *)
Definition read_vault_doc : io json := fun w =>
  (Document.read_vault_doc (disk w), w).

(** [write_vault_doc]. *)
Definition write_vault_doc (doc : json) : io unit := fun w =>
  (Ok tt,
   {| disk := Document.write_vault_doc doc; os_entropy := os_entropy w;
      drawn := drawn w; console := console w |}).

(** [encrypt_vault_dict], lines 78-83. *)
Definition encrypt_vault_dict (vault : gmap string string) (password : string)
    (salt : bytes) (iterations : Z) : io json :=
  key_b64 ← derive_fernet_key password salt iterations;
  let plaintext := str_encode (json_dumps (vault_json vault)) in
  token ← encrypt key_b64 plaintext;
  mret (Document.new_vault_doc token salt iterations).

(** [decrypt_vault_dict], lines 86-92. *)
Definition decrypt_vault_dict (doc : json) (password : string) : io json :=
  '(salt, iterations) ← io_pure (Document.get_salt_and_iterations doc);
  key_b64 ← derive_fernet_key password salt iterations;
  io_pure (c ← getitem doc "ciphertext";
           token ← Document.py_b64decode c;
           plaintext ← orraise (fernet_decrypt key_b64 token) InvalidToken;
           Document.decode_payload plaintext).

(** [load_or_init_vault], lines 97-112. *)
Definition load_or_init_vault (password : string) : io json :=
  present ← path_exists;
  if negb present then
    salt ← os_urandom Document.SALT_BYTES;
    empty_doc ← encrypt_vault_dict ∅ password salt Document.KDF_ITERATIONS;
    _ ← write_vault_doc empty_doc;
    _ ← py_print "[init] Created new encrypted vault at vault.enc.json.";
    mret (vault_json ∅)
  else
    io_try (doc ← read_vault_doc; decrypt_vault_dict doc password)
           (fun e => io_raise (Document.handle_load_error e)).

(** [save_vault], lines 115-119. *)
Definition save_vault (vault : gmap string string) (password : string)
    : io unit :=
  doc ← read_vault_doc;
  '(salt, iterations) ← io_pure (Document.get_salt_and_iterations doc);
  new_doc ← encrypt_vault_dict vault password salt iterations;
  write_vault_doc new_doc.

End Program.

End Effects.

(** ** The tabular form: [step_3_database_connection.py] *)

Module Tabular.

(** The two tables.  [meta(key TEXT PRIMARY KEY, value TEXT)] and
    [secrets(service TEXT PRIMARY KEY, ciphertext BLOB)] are maps from
    their primary key. *)
Record database : Type := Database {
  meta : gmap string string;
  secrets : gmap string bytes;
}.

(** An open [sqlite3.Connection]: what has been committed to the file, and
    the view of the connection, which also holds the changes of the open
    transaction.  Data-modifying statements change [current] only. *)
Record connection : Type := Connection {
  durable : database;
  current : database;
}.

Definition commit (conn : connection) : connection :=
  {| durable := current conn; current := current conn |}.

Definition rollback (conn : connection) : connection :=
  {| durable := durable conn; current := durable conn |}.

(** [UPDATE meta SET value=? WHERE key=k]: no row is added when [k] is
    absent. *)
Definition update_meta (key value : string) (conn : connection) : connection :=
  {| durable := durable conn;
     current := {| meta := alter (fun _ => value) key (meta (current conn));
                   secrets := secrets (current conn) |} |}.

(** [UPDATE secrets SET ciphertext=? WHERE service=?]. *)
Definition update_secret (service : string) (token : bytes)
    (conn : connection) : connection :=
  {| durable := durable conn;
     current := {| meta := meta (current conn);
                   secrets := alter (fun _ => token) service
                                (secrets (current conn)) |} |}.

(** [INSERT INTO secrets ... ON CONFLICT(service) DO UPDATE ...]. *)
Definition upsert_secret (service : string) (token : bytes)
    (conn : connection) : connection :=
  {| durable := durable conn;
     current := {| meta := meta (current conn);
                   secrets := <[service := token]> (secrets (current conn)) |} |}.

(** [DELETE FROM secrets WHERE service=?], with [cur.rowcount]. *)
Definition delete_secret (service : string) (conn : connection)
    : connection * nat :=
  ({| durable := durable conn;
      current := {| meta := meta (current conn);
                    secrets := delete service (secrets (current conn)) |} |},
   match secrets (current conn) !! service with
   | Some _ => 1%nat
   | None => 0%nat
   end).

(** The storage statements of a rotation at which an error can be
    injected; [AtUpdateRow n] is the [n]-th execution of the row update. *)
Inductive fault_point : Type :=
| AtSelect
| AtUpdateSalt
| AtUpdateIterations
| AtCommitMeta
| AtUpdateRow (n : nat)
| AtCommitRows.

#[global] Instance fault_point_eq_dec : EqDecision fault_point.
Proof. solve_decision. Defined.

(** What the program prints. *)
Inductive message : Type :=
| MsgCouldNotDecrypt (service : string)
    (* ERROR: Could not decrypt '{service}'. Aborting password change. *)
| MsgPasswordsEmptyOrMismatch  (* Passwords empty or did not match. *)
| MsgPasswordUpdated
    (* Master password updated and all secrets re-encrypted. *)
| MsgReencryptError (e : exn)  (* ERROR re-encrypting rows: {e} *)
| MsgServiceEmpty              (* Service cannot be empty. *)
| MsgKeysEmptyOrMismatch       (* Keys empty or did not match. *)
| MsgStored (service : string) (* Stored (encrypted) API key for '{service}'. *)
| MsgNotFoundUpper             (* NOT FOUND *)
| MsgApiKey (api_key : string) (* API key: {api_key} *)
| MsgWrongPassword             (* ERROR: Wrong password or corrupted data. *)
| MsgDeleted                   (* Deleted. *)
| MsgNotFound                  (* Not found. *)
| MsgCancelled.                (* Cancelled. *)

(** What a rotation reads from its environment: the two password prompts,
    the fresh salt, the entropy of the [n]-th [Fernet.encrypt], the storage
    fault, if any, and the rowid that SQLite has given the row of each
    service, which decides the order of a scan of the table. *)
Record rotation_input : Type := RotationInput {
  getpass_1 : string;
  getpass_2 : string;
  urandom : bytes;
  entropy : nat -> bytes;
  fault : option fault_point;
  rowid : string -> nat;
}.

(** The order of two rows in a scan of [secrets]. *)
Definition rowid_le (inp : rotation_input) (row1 row2 : string * bytes) : Prop :=
  (rowid inp row1.1 <= rowid inp row2.1)%nat.

#[global] Instance rowid_le_dec (inp : rotation_input) : RelDecision (rowid_le inp).
Proof. intros row1 row2. unfold rowid_le. apply _. Defined.

(** [SELECT service, ciphertext FROM secrets]: the statement has no
    [ORDER BY]; SQLite scans the table and returns its rows by ascending
    rowid, not by service name. *)
Definition select_secrets (inp : rotation_input) (table : gmap string bytes)
    : list (string * bytes) :=
  merge_sort (rowid_le inp) (map_to_list table).

(** The result of [change_master_password]: the connection, the returned
    [Fernet] (its key) or the exception that escapes, and the output. *)
Record outcome : Type := Outcome {
  conn_after : connection;
  returned : result bytes;
  printed : list message;
}.

(** The first loop of [change_master_password]. *)
Inductive collected : Type :=
| Collected (secrets_plain : list (string * string))
| CouldNotDecrypt (service : string)
| Escaped (e : exn).

Section Program.
Context {L : PyLib}.

Definition KDF_ITERATIONS : Z := 200000.
Definition SALT_BYTES : nat := 16.

(** [derive_fernet_key] is the same function, line for line, as in the
    document form. *)
Definition derive_fernet_key : string -> bytes -> Z -> result bytes :=
  Document.derive_fernet_key.

(** [get_params]. *)
Definition get_params (conn : connection) : result (bytes * Z) :=
  v ← orraise (meta (current conn) !! "salt") (ValueError "Vault missing salt.");
  salt ← orraise (b64decode v) BinasciiError;
  v ← orraise (meta (current conn) !! "iterations")
        (ValueError "Vault missing iterations.");
  iterations ← orraise (int_of_str v) (ValueError "invalid literal for int()");
  Ok (salt, iterations).

(** Lines 105-112: decrypt every row with the old key.  An [InvalidToken]
    ends the rotation; the [UnicodeDecodeError] of [.decode("utf-8")] is
    not caught. *)
Fixpoint collect_plain (fernet_old : bytes) (rows : list (string * bytes))
    (secrets_plain : list (string * string)) : collected :=
  match rows with
  | [] => Collected secrets_plain
  | (service, token) :: rows' =>
      match fernet_decrypt fernet_old token with
      | None => CouldNotDecrypt service
      | Some data =>
          match bytes_decode data with
          | None => Escaped UnicodeDecodeError
          | Some api_key =>
              collect_plain fernet_old rows' (secrets_plain ++ [(service, api_key)])
          end
      end
  end.

(** A storage statement: it raises when the fault is injected at it. *)
Definition execute (inp : rotation_input) (here : fault_point)
    (stmt : connection -> connection) (conn : connection)
    : result unit * connection :=
  if decide (fault inp = Some here) then (Raise OperationalError, conn)
  else (Ok tt, stmt conn).

(** Lines 121-126: the new salt and iteration count, and their commit. *)
Definition write_params (inp : rotation_input) (new_salt : bytes)
    (conn : connection) : result unit * connection :=
  match execute inp AtUpdateSalt (update_meta "salt" (b64encode new_salt)) conn with
  | (Raise e, conn1) => (Raise e, conn1)
  | (Ok _, conn1) =>
      match execute inp AtUpdateIterations
              (update_meta "iterations" (str_of_int KDF_ITERATIONS)) conn1 with
      | (Raise e, conn2) => (Raise e, conn2)
      | (Ok _, conn2) => execute inp AtCommitMeta commit conn2
      end
  end.

(** Lines 135-138: the body of the [with conn:] block; [n] counts the
    updates done so far. *)
Fixpoint reencrypt_rows (inp : rotation_input) (fernet_new : bytes)
    (secrets_plain : list (string * string)) (n : nat) (conn : connection)
    : result unit * connection :=
  match secrets_plain with
  | [] => (Ok tt, conn)
  | (service, api_key) :: rest =>
      let token := fernet_encrypt fernet_new (entropy inp n) (str_encode api_key) in
      match execute inp (AtUpdateRow n) (update_secret service token) conn with
      | (Raise e, conn1) => (Raise e, conn1)
      | (Ok _, conn1) => reencrypt_rows inp fernet_new rest (S n) conn1
      end
  end.

(** [with conn:] around a block: commit when the block ends normally,
    roll back when it raises or when the commit itself fails. *)
Definition with_transaction (inp : rotation_input)
    (block : result unit * connection) : result unit * connection :=
  match block with
  | (Ok _, conn1) =>
      match execute inp AtCommitRows commit conn1 with
      | (Ok _, conn2) => (Ok tt, conn2)
      | (Raise e, conn2) => (Raise e, rollback conn2)
      end
  | (Raise e, conn1) => (Raise e, rollback conn1)
  end.

(** [change_master_password]. *)
Definition change_master_password (conn : connection) (fernet_old : bytes)
    (inp : rotation_input) : outcome :=
  match execute inp AtSelect (fun c => c) conn with
  | (Raise e, conn0) => Outcome conn0 (Raise e) []
  | (Ok _, conn0) =>
  let rows := select_secrets inp (secrets (current conn0)) in
  match collect_plain fernet_old rows [] with
  | CouldNotDecrypt service =>
      Outcome conn0 (Ok fernet_old) [MsgCouldNotDecrypt service]
  | Escaped e => Outcome conn0 (Raise e) []
  | Collected secrets_plain =>
  let new_pw_1 := str_strip (getpass_1 inp) in
  let new_pw_2 := str_strip (getpass_2 inp) in
  if (new_pw_1 =? "")%string || negb (new_pw_1 =? new_pw_2)%string then
    Outcome conn0 (Ok fernet_old) [MsgPasswordsEmptyOrMismatch]
  else
  let new_salt := urandom inp in
  match write_params inp new_salt conn0 with
  | (Raise e, conn1) => Outcome conn1 (Raise e) []
  | (Ok _, conn1) =>
  match derive_fernet_key new_pw_1 new_salt KDF_ITERATIONS with
  | Raise e => Outcome conn1 (Raise e) []
  | Ok new_key =>
  let fernet_new := new_key in
  match with_transaction inp
          (reencrypt_rows inp fernet_new secrets_plain 0 conn1) with
  | (Ok _, conn2) => Outcome conn2 (Ok fernet_new) [MsgPasswordUpdated]
  | (Raise e, conn2) => Outcome conn2 (Ok fernet_old) [MsgReencryptError e]
  end end end end end.

(** Menu option 1 of [main]: store a key; the three prompts and the
    entropy of [Fernet.encrypt].  No storage error is injected here. *)
Definition main_store (conn : connection) (fernet : bytes)
    (input getpass_a getpass_b : string) (iv : bytes) : connection * message :=
  let service := str_strip input in
  if (service =? "")%string then (conn, MsgServiceEmpty)
  else
    let api_key_1 := str_strip getpass_a in
    let api_key_2 := str_strip getpass_b in
    if (api_key_1 =? "")%string || negb (api_key_1 =? api_key_2)%string then
      (conn, MsgKeysEmptyOrMismatch)
    else
      let token := fernet_encrypt fernet iv (str_encode api_key_1) in
      (commit (upsert_secret service token conn), MsgStored service).

(** Menu option 2 of [main]: retrieve the key of a service. *)
Definition main_retrieve (conn : connection) (fernet : bytes) (input : string)
    : result message :=
  let service := str_strip input in
  match secrets (current conn) !! service with
  | None => Ok MsgNotFoundUpper
  | Some token =>
      match fernet_decrypt fernet token with
      | None => Ok MsgWrongPassword
      | Some data =>
          api_key ← orraise (bytes_decode data) UnicodeDecodeError;
          Ok (MsgApiKey api_key)
      end
  end.

(** Menu option 4 of [main]: delete a service; [confirmed] is the answer
    of [confirm]. *)
Definition main_delete (conn : connection) (input : string) (confirmed : bool)
    : connection * message :=
  let svc := str_strip input in
  if (svc =? "")%string then (conn, MsgServiceEmpty)
  else if confirmed then
    let '(conn1, rowcount) := delete_secret svc conn in
    let conn2 := commit conn1 in
    if (rowcount =? 0)%nat then (conn2, MsgNotFound) else (conn2, MsgDeleted)
  else (conn, MsgCancelled).

End Program.

End Tabular.

(** ** An executable instance of the library interface

    A small implementation of [PyLib] that meets [PyLibLaws], on which the
    programs above can be run.  It stands for the real libraries only up
    to the contract: base64 is the identity coding, the key is a digest-free
    mix of password, salt and iteration count, a token is the IV followed
    by the key and the data, and JSON text is a field list. *)

Module Reference.

Definition is_space (a : ascii) : bool :=
  match a with
  | " " | "009" | "010" | "011" | "012" | "013" => true
  | _ => false
  end%char.

Fixpoint lstrip (s : string) : string :=
  match s with
  | String a s' => if is_space a then lstrip s' else s
  | EmptyString => EmptyString
  end.

Definition strip (s : string) : string :=
  String.rev (lstrip (String.rev (lstrip s))).

Definition decode (b : bytes) : option string := Some (string_of_list_byte b).

Definition decimal (z : Z) : string := NilZero.string_of_int (Z.to_int z).

Definition parse_decimal (s : string) : option Z :=
  Z.of_int <$> NilZero.int_of_string s.

Definition text_of_bytes (b : bytes) : string := string_of_list_byte b.

Definition bytes_of_text (s : string) : option bytes := Some (list_byte_of_string s).

(** Thirty-two bytes made of the password, the salt and the count. *)
Definition stretch (salt : bytes) (iterations : Z) (password : bytes)
    : result bytes :=
  if 0 <? iterations then
    Ok (take 32 (password ++ salt ++ list_byte_of_string (decimal iterations)
                 ++ replicate 32 x00))
  else Raise OverflowError.

Definition iv_of (entropy : bytes) : bytes := take 16 (entropy ++ replicate 16 x00).

Definition seal (key entropy data : bytes) : bytes :=
  iv_of entropy ++ key ++ data.

Definition unseal (key token : bytes) : option bytes :=
  let body := drop 16 token in
  if decide (take (length key) body = key /\ (16 + length key <= length token)%nat)
  then Some (drop (length key) body)
  else None.

(** A field is written with a 1 before each of its characters and a 0
    after the last one. *)
Fixpoint stuff (s : string) : string :=
  match s with
  | EmptyString => "0"
  | String c s' => String "1" (String c (stuff s'))
  end.

Fixpoint stuff_all (fields : list string) : string :=
  match fields with
  | [] => EmptyString
  | f :: fields' => stuff f +:+ stuff_all fields'
  end.

Fixpoint fields_of (s : string) : option (list string) :=
  match s with
  | EmptyString => Some []
  | String "0" s' => cons EmptyString <$> fields_of s'
  | String "1" (String c s') =>
      match fields_of s' with
      | Some (f :: fields) => Some (String c f :: fields)
      | _ => None
      end
  | _ => None
  end.

Definition member_fields (kv : string * json) : list string :=
  match kv with
  | (k, JStr s) => [k; "s"; s]
  | (k, JInt z) => [k; "i"; decimal z]
  | (k, _) => [k; "x"; ""]
  end.

Definition member_of (tag payload : string) : option json :=
  if (tag =? "s")%string then Some (JStr payload)
  else if (tag =? "i")%string then JInt <$> parse_decimal payload
  else None.

Fixpoint members_of (fields : list string) : option (list (string * json)) :=
  match fields with
  | [] => Some []
  | k :: tag :: payload :: fields' =>
      match member_of tag payload, members_of fields' with
      | Some v, Some kvs => Some ((k, v) :: kvs)
      | _, _ => None
      end
  | _ => None
  end.

Definition dumps (v : json) : string :=
  match v with
  | JDict m => stuff_all (map_to_list m ≫= member_fields)
  | _ => "x"
  end.

Definition loads (s : string) : option json :=
  fields ← fields_of s;
  kvs ← members_of fields;
  Some (JDict (list_to_map kvs)).

#[global] Instance lib : PyLib := {|
  str_strip := strip;
  str_encode := list_byte_of_string;
  bytes_decode := decode;
  str_of_int := decimal;
  int_of_str := parse_decimal;
  b64encode := text_of_bytes;
  b64decode := bytes_of_text;
  urlsafe_b64encode := fun b => b;
  pbkdf2_hmac_sha256 := stretch;
  fernet_encrypt := seal;
  fernet_decrypt := unseal;
  json_dumps := dumps;
  json_dump_indent := dumps;
  json_loads := loads;
|}.

End Reference.

(** ** Concrete vaults

    Vaults and inputs on which the programs are run with the instance
    [Reference.lib]. *)

Module Examples.
Import Reference.

Definition salt16 : bytes := list_byte_of_string "0123456789abcdef".
Definition salt_new : bytes := list_byte_of_string "fedcba9876543210".
Definition iv : bytes := list_byte_of_string "iv".

(** The key of a password under a salt and 200000 iterations. *)
Definition key_of (password : string) (salt : bytes) : bytes :=
  match Document.derive_fernet_key password salt 200000 with
  | Ok key => key
  | Raise _ => []
  end.

(** *** Document form *)

Definition vault1 : gmap string string := {["github" := "ghp_abc123"]}.

(** The file a first open with the password hunter2 creates. *)
Definition fresh_file : Document.filesystem :=
  (Document.load_or_init_vault "hunter2" None salt16 iv).2.

Definition fresh_content : bytes := default [] fresh_file.

(** A file whose record is well formed and whose token is a genuine token
    under the key of hunter2, but of a payload that is not JSON. *)
Definition foreign_file : Document.filesystem :=
  Document.write_vault_doc
    (Document.new_vault_doc
       (seal (key_of "hunter2" salt16) iv (list_byte_of_string "[1, 2"))
       salt16 200000).

Definition foreign_content : bytes := default [] foreign_file.

Definition session : list Document.operation :=
  [Document.OpOpen "hunter2" salt16 iv;
   Document.OpSave vault1 "hunter2" iv;
   Document.OpOpen "hunter2" salt_new iv].

(** *** Tabular form *)

Definition old_key : bytes := key_of "old" salt16.

(** A database with one secret under the key of the password old. *)
Definition db0 : Tabular.database :=
  {| Tabular.meta :=
       <["salt" := text_of_bytes salt16]> (<["iterations" := "200000"]> ∅);
     Tabular.secrets :=
       {["github" := seal old_key iv (list_byte_of_string "ghp_abc123")]} |}.

Definition conn0 : Tabular.connection := Tabular.Connection db0 db0.

(** The same with a second row that is not a token of that key. *)
Definition db_bad : Tabular.database :=
  {| Tabular.meta := Tabular.meta db0;
     Tabular.secrets :=
       <["aws" := list_byte_of_string "garbage"]> (Tabular.secrets db0) |}.

Definition conn_bad : Tabular.connection := Tabular.Connection db_bad db_bad.

(** A rotation to the password new, with a fault or none; the row of
    github was inserted first. *)
Definition rotation (fault : option Tabular.fault_point) : Tabular.rotation_input :=
  {| Tabular.getpass_1 := "new";
     Tabular.getpass_2 := "new";
     Tabular.urandom := salt_new;
     Tabular.entropy := fun _ => iv;
     Tabular.fault := fault;
     Tabular.rowid := fun service =>
       if (service =? "github")%string then 1%nat else 2%nat |}.

(** The rotation of [conn0] in which the first row update fails. *)
Definition failed_rotation : Tabular.outcome :=
  Tabular.change_master_password conn0 old_key
    (rotation (Some (Tabular.AtUpdateRow 0))).

(** A database whose metadata store the iteration count 1000, with one
    secret under the key of the password old at that count. *)
Definition legacy_key : bytes :=
  match Document.derive_fernet_key "old" salt16 1000 with
  | Ok key => key
  | Raise _ => []
  end.

Definition db_legacy : Tabular.database :=
  {| Tabular.meta :=
       <["salt" := text_of_bytes salt16]> (<["iterations" := "1000"]> ∅);
     Tabular.secrets :=
       {["github" := seal legacy_key iv (list_byte_of_string "ghp_abc123")]} |}.

Definition conn_legacy : Tabular.connection :=
  Tabular.Connection db_legacy db_legacy.

End Examples.

(** ** The menu loops

    The branches of the two [main] functions that the sections above do
    not cover, and the start of a session. *)

Module Listing.

Section Program.
Context {L : PyLib}.

(** The order of [sorted] on [str] and of [ORDER BY service ASC] on the
    TEXT column: byte by byte on the utf-8 encoding (SQLite's BINARY
    collation; on [str] the order of the code points, which utf-8
    preserves). *)
Definition text_le (s1 s2 : string) : Prop :=
  String.le (string_of_list_byte (str_encode s1))
            (string_of_list_byte (str_encode s2)).

#[global] Instance text_le_dec : RelDecision text_le.
Proof. intros s1 s2. unfold text_le. apply _. Defined.

(** The keys of a table or dictionary in ascending order. *)
Definition sorted_names {A : Type} (m : gmap string A) : list string :=
  merge_sort text_le (map_to_list m).*1.

End Program.

End Listing.

(** *** [main] of [step_2_add_encryption.py] *)

Module DocumentMain.
Import Document.

(** What one round of the menu reads: the option chosen and its prompts;
    [EvStore] also carries the entropy of [Fernet.encrypt]. *)
Inductive event : Type :=
| EvStore (input getpass : string) (entropy : bytes)
| EvRetrieve (input : string)
| EvList.

(** What the round prints. *)
Inductive output : Type :=
| OutServiceEmpty               (* Service cannot be empty field *)
| OutStored (service : string)  (* Stored (encrypted) API key for '{service}'. *)
| OutApiKey (api_key : string)  (* API key: {vault[service]} *)
| OutNoKey (service : string)   (* No key stored for '{service}'. *)
| OutServices (names : list string)  (* Services: and one line per name *)
| OutNoServices.                (* No services stored yet. *)

Section Program.
Context {L : PyLib}.

(** The record [encrypt_vault_dict] builds once the key is derived. *)
Definition sealed_doc (vault : gmap string string) (key salt : bytes)
    (iterations : Z) (entropy : bytes) : json :=
  new_vault_doc
    (fernet_encrypt key entropy (str_encode (json_dumps (vault_json vault))))
    salt iterations.

(** Option 1: both prompts are read and stripped, an empty service name
    is refused, an empty key is not; the dictionary is updated and saved.
    An exception of [save_vault] is not caught. *)
Definition main_store (vault : gmap string string) (password : string)
    (fs : filesystem) (input getpass : string) (entropy : bytes)
    : result (gmap string string * output) * filesystem :=
  let service := str_strip input in
  let api_key := str_strip getpass in
  if (service =? "")%string then (Ok (vault, OutServiceEmpty), fs)
  else
    let vault' := <[service := api_key]> vault in
    match save_vault vault' password fs entropy with
    | (Ok _, fs') => (Ok (vault', OutStored service), fs')
    | (Raise e, fs') => (Raise e, fs')
    end.

(** Option 2: look the stripped name up in the dictionary in memory. *)
Definition main_retrieve (vault : gmap string string) (input : string) : output :=
  let service := str_strip input in
  match vault !! service with
  | Some api_key => OutApiKey api_key
  | None => OutNoKey service
  end.

(** Option 3: [sorted(vault.keys())], or a notice when the dictionary is
    empty. *)
Definition main_list (vault : gmap string string) : output :=
  if decide (vault = ∅) then OutNoServices
  else OutServices (Listing.sorted_names vault).

(** One round of the loop. *)
Definition main_step (vault : gmap string string) (password : string)
    (fs : filesystem) (ev : event)
    : result (gmap string string * output) * filesystem :=
  match ev with
  | EvStore input getpass entropy =>
      main_store vault password fs input getpass entropy
  | EvRetrieve input => (Ok (vault, main_retrieve vault input), fs)
  | EvList => (Ok (vault, main_list vault), fs)
  end.

(** The loop over the rounds of a session, until an exception escapes:
    the dictionary in memory at the end, or the exception, and the file. *)
Fixpoint main_loop (vault : gmap string string) (password : string)
    (fs : filesystem) (events : list event)
    : result (gmap string string) * filesystem :=
  match events with
  | [] => (Ok vault, fs)
  | ev :: events' =>
      match main_step vault password fs ev with
      | (Ok (vault', _), fs') => main_loop vault' password fs' events'
      | (Raise e, fs') => (Raise e, fs')
      end
  end.

(** The dictionary the rounds build in memory when none fails. *)
Definition store_event (vault : gmap string string) (ev : event)
    : gmap string string :=
  match ev with
  | EvStore input getpass _ =>
      if (str_strip input =? "")%string then vault
      else <[str_strip input := str_strip getpass]> vault
  | _ => vault
  end.

End Program.

End DocumentMain.

(** *** [open_db] and [main] of [step_3_database_connection.py] *)

Module TabularMain.
Import Tabular.

(** What one round of the menu reads. *)
Inductive event : Type :=
| EvStore (input getpass_a getpass_b : string) (iv : bytes)
| EvRetrieve (input : string)
| EvList
| EvDelete (input : string) (confirmed : bool)
| EvRotate (inp : rotation_input).

Section Program.
Context {L : PyLib}.

(** [INSERT INTO meta(key,value) VALUES(?,?)], as [open_db] uses it: on
    the table of a database that has just been created, where no key can
    conflict. *)
Definition insert_meta (key value : string) (conn : connection) : connection :=
  {| durable := durable conn;
     current := {| meta := <[key := value]> (meta (current conn));
                   secrets := secrets (current conn) |} |}.

(** The database of a file that [sqlite3.connect] has just created, with
    its two empty tables. *)
Definition empty_database : database := {| meta := ∅; secrets := ∅ |}.

(** [open_db]; [file] is the database of [vault.sqlite], or [None] when
    the file does not exist, and [urandom] the result of
    [os.urandom(SALT_BYTES)], used for a new file only.  The two PRAGMAs
    and the [CREATE TABLE IF NOT EXISTS] statements change no row. *)
Definition open_db (file : option database) (urandom : bytes) : connection :=
  match file with
  | Some db => {| durable := db; current := db |}
  | None =>
      let conn := {| durable := empty_database; current := empty_database |} in
      let salt := urandom in
      commit (insert_meta "iterations" (str_of_int KDF_ITERATIONS)
                (insert_meta "salt" (b64encode salt) conn))
  end.

(** The first lines of [main]: open the database, read the parameters,
    derive the key.  The connection, and with it the file, stays as
    [open_db] left it when one of the two calls raises. *)
Definition main_start (file : option database) (master_password : string)
    (urandom : bytes) : connection * result bytes :=
  let conn := open_db file urandom in
  (conn,
   '(salt, iterations) ← get_params conn;
   derive_fernet_key master_password salt iterations).

(** Option 3: [SELECT service FROM secrets ORDER BY service ASC]; the
    empty list stands for the notice that nothing is stored. *)
Definition main_list (conn : connection) : list string :=
  Listing.sorted_names (secrets (current conn)).

(** One round of the loop: the connection it leaves, and the [Fernet] of
    the next round or the exception that escapes. *)
Definition main_step (conn : connection) (fernet : bytes) (ev : event)
    : connection * result bytes :=
  match ev with
  | EvStore input getpass_a getpass_b iv =>
      ((main_store conn fernet input getpass_a getpass_b iv).1, Ok fernet)
  | EvRetrieve input =>
      (conn, _ ← main_retrieve conn fernet input; Ok fernet)
  | EvList => (conn, Ok fernet)
  | EvDelete input confirmed => ((main_delete conn input confirmed).1, Ok fernet)
  | EvRotate inp =>
      let out := change_master_password conn fernet inp in
      (conn_after out, returned out)
  end.

(** The loop: the connection after each round, up to the round at which
    an exception escapes. *)
Fixpoint main_loop (conn : connection) (fernet : bytes) (events : list event)
    : list connection :=
  match events with
  | [] => []
  | ev :: events' =>
      match main_step conn fernet ev with
      | (conn', Ok fernet') => conn' :: main_loop conn' fernet' events'
      | (conn', Raise _) => [conn']
      end
  end.

(** The parameters a database created by the program holds: a salt in
    base64 and the iteration count 200000. *)
Definition program_params (db : database) : Prop :=
  exists salt,
    meta db !! "salt" = Some (b64encode salt) /\
    meta db !! "iterations" = Some (str_of_int KDF_ITERATIONS).

(** A row and the entry the first loop makes of it. *)
Definition decrypts_to (fernet_old : bytes) (row : string * bytes)
    (entry : string * string) : Prop :=
  row.1 = entry.1 /\
  exists data,
    fernet_decrypt fernet_old row.2 = Some data /\
    bytes_decode data = Some entry.2.

(** The parameters of a connection, committed and current. *)
Definition conn_params (conn : connection) : Prop :=
  program_params (durable conn) /\ program_params (current conn).

End Program.

End TabularMain.

(** *** Concrete sessions *)

Module SessionExamples.
Import Reference Examples.

(** The instance, with a parser that also reads the empty JSON list. *)
Definition loads_with_list (s : string) : option json :=
  if (s =? "[]")%string then Some (JList []) else loads s.

Definition lib_with_list : PyLib := {|
  str_strip := strip;
  str_encode := list_byte_of_string;
  bytes_decode := decode;
  str_of_int := decimal;
  int_of_str := parse_decimal;
  b64encode := text_of_bytes;
  b64decode := bytes_of_text;
  urlsafe_b64encode := fun b => b;
  pbkdf2_hmac_sha256 := stretch;
  fernet_encrypt := seal;
  fernet_decrypt := unseal;
  json_dumps := dumps;
  json_dump_indent := dumps;
  json_loads := loads_with_list;
|}.

(** A vault file that holds a list. *)
Definition list_content : bytes := list_byte_of_string "[]".

(** A vault file whose record has a version and nothing else. *)
Definition headless_record : gmap string json := {["version" := JInt 1]}.

Definition headless_content : bytes :=
  list_byte_of_string (dumps (JDict headless_record)).

(** Rounds of the document menu: two stores, one of them under an empty
    name, a listing and a retrieval. *)
Definition document_rounds : list DocumentMain.event :=
  [DocumentMain.EvStore "github" "ghp_abc123" iv;
   DocumentMain.EvList;
   DocumentMain.EvStore "  " "ignored" iv;
   DocumentMain.EvRetrieve "github";
   DocumentMain.EvStore "github" "ghp_new" iv].

(** Rounds of the tabular menu, with a rotation that fails at its first
    row update. *)
Definition tabular_rounds : list TabularMain.event :=
  [TabularMain.EvStore "aws" "AKIA" "AKIA" iv;
   TabularMain.EvRotate (rotation (Some (Tabular.AtUpdateRow 0)));
   TabularMain.EvDelete "aws" true;
   TabularMain.EvList].

(** A table of two rows that are no tokens: the row of zz was inserted
    first and has rowid 1, the row of a has rowid 2. *)
Definition db_two_bad : Tabular.database :=
  {| Tabular.meta := Tabular.meta db0;
     Tabular.secrets :=
       <["zz" := list_byte_of_string "garbage"]>
         (<["a" := list_byte_of_string "rubbish"]> ∅) |}.

Definition conn_two_bad : Tabular.connection :=
  Tabular.Connection db_two_bad db_two_bad.

Definition rotation_zz_first : Tabular.rotation_input :=
  {| Tabular.getpass_1 := "new";
     Tabular.getpass_2 := "new";
     Tabular.urandom := salt_new;
     Tabular.entropy := fun _ => iv;
     Tabular.fault := None;
     Tabular.rowid := fun service =>
       if (service =? "zz")%string then 1%nat else 2%nat |}.

End SessionExamples.

(** *** Worlds *)

Module EffectExamples.
Import Reference Examples.

(** A world without a vault file, whose first draw of entropy is
    [salt16]. *)
Definition world_new : Effects.world :=
  {| Effects.disk := None;
     Effects.os_entropy := fun n => match n with O => salt16 | _ => iv end;
     Effects.drawn := 0;
     Effects.console := [] |}.

(** Two worlds with the vault file of [fresh_file], which differ in their
    entropy, in the draws made and in what has been printed. *)
Definition world_a : Effects.world :=
  {| Effects.disk := fresh_file;
     Effects.os_entropy := fun _ => iv;
     Effects.drawn := 0;
     Effects.console := [] |}.

Definition world_b : Effects.world :=
  {| Effects.disk := fresh_file;
     Effects.os_entropy := fun _ => salt_new;
     Effects.drawn := 7;
     Effects.console := ["Encrypted file mode selected (recommended)."] |}.

End EffectExamples.

(** ** The instance meets the contract *)

Module ReferenceFacts.
Import Reference.

Lemma to_int_not_nil (z : Z) :
  Z.to_int z <> Decimal.Pos Decimal.Nil /\ Z.to_int z <> Decimal.Neg Decimal.Nil.
Proof.
  destruct z as [|p|p]; simpl; split; try discriminate;
    intros [= H]; pose proof (DecimalPos.Unsigned.to_uint_nonnil p); congruence.
Qed.

Lemma parse_decimal_decimal (z : Z) : parse_decimal (decimal z) = Some z.
Proof.
  unfold parse_decimal, decimal.
  destruct (to_int_not_nil z) as [Hp Hn].
  rewrite NilZero.isi by assumption. simpl. f_equal. apply DecimalZ.of_to.
Qed.

Lemma unseal_seal (key entropy data : bytes) :
  unseal key (seal key entropy data) = Some data.
Proof.
  assert (Hiv : length (iv_of entropy) = 16%nat).
  { unfold iv_of. rewrite length_take, length_app, length_replicate. lia. }
  unfold unseal, seal.
  rewrite drop_app_length' by (symmetry; exact Hiv).
  rewrite take_app_length, drop_app_length.
  rewrite decide_True; [reflexivity |].
  split; [reflexivity |]. rewrite !length_app. lia.
Qed.

Lemma fields_of_stuff (f : string) (rest : string) (fields : list string) :
  fields_of rest = Some fields ->
  fields_of (stuff f +:+ rest) = Some (f :: fields).
Proof.
  intros Hrest. induction f as [|c f IH].
  - change (fields_of (String "0" rest) = Some ("" :: fields)).
    simpl. rewrite Hrest. reflexivity.
  - change (fields_of (String "1" (String c (stuff f +:+ rest)))
            = Some (String c f :: fields)).
    simpl. rewrite IH. reflexivity.
Qed.

Lemma fields_of_stuff_all (fields : list string) :
  fields_of (stuff_all fields) = Some fields.
Proof.
  induction fields as [|f fields IH]; cbn [stuff_all]; [reflexivity |].
  apply fields_of_stuff, IH.
Qed.

Lemma members_of_member_fields (kvs : list (string * json)) :
  Forall (fun kv => flat_member kv.2) kvs ->
  members_of (kvs ≫= member_fields) = Some kvs.
Proof.
  induction 1 as [|[k v] kvs Hv _ IH]; [reflexivity |].
  rewrite bind_cons.
  destruct v; simpl in Hv; try contradiction;
    cbn [member_fields app members_of]; rewrite IH.
  - unfold member_of. simpl. rewrite parse_decimal_decimal. reflexivity.
  - reflexivity.
Qed.

Lemma loads_dumps (m : gmap string json) :
  map_Forall (fun _ v => flat_member v) m ->
  loads (dumps (JDict m)) = Some (JDict m).
Proof.
  intros Hm. unfold loads, dumps.
  rewrite fields_of_stuff_all. simpl.
  rewrite members_of_member_fields.
  - simpl. rewrite list_to_map_to_list. reflexivity.
  - apply Forall_forall. intros [k v] Hkv. simpl.
    apply elem_of_map_to_list in Hkv. exact (Hm k v Hkv).
Qed.

#[global] Instance laws : PyLibLaws lib.
Proof.
  split.
  - intros s. simpl. unfold decode. f_equal. apply string_of_list_byte_of_string.
  - exact parse_decimal_decimal.
  - intros b. simpl. unfold bytes_of_text, text_of_bytes. f_equal.
    apply list_byte_of_string_of_list_byte.
  - intros salt iterations password Hpos. simpl. unfold stretch.
    destruct (Z.ltb_spec 0 iterations); [eauto | lia].
  - exact unseal_seal.
  - exact loads_dumps.
  - exact loads_dumps.
Qed.

End ReferenceFacts.

(** ** The document form: key derivation and the vault record *)

Module DocumentFacts.
Import Document.

Section KeyDerivation.
Context {L : PyLib}.

#[local] Arguments new_vault_doc : simpl never.
#[local] Arguments vault_json : simpl never.
#[local] Arguments derive_fernet_key : simpl never.

Lemma derive_fernet_key_empty_password (salt : bytes) (iterations : Z) :
  derive_fernet_key "" salt iterations
  = Raise (ValueError "Password must be a non-empty string.").
Proof. reflexivity. Qed.

Lemma derive_fernet_key_short_salt (password : string) (salt : bytes)
    (iterations : Z) :
  password <> "" -> (length salt < 8)%nat ->
  derive_fernet_key password salt iterations
  = Raise (ValueError "Salt must be bytes and at least 8 bytes long.").
Proof.
  intros Hpw Hsalt. unfold derive_fernet_key.
  destruct (String.eqb_spec password "") as [->|_]; [contradiction |].
  destruct (Nat.ltb_spec (length salt) 8); [reflexivity | lia].
Qed.

Lemma derive_fernet_key_guards_pass (password : string) (salt : bytes)
    (iterations : Z) :
  password <> "" -> (8 <= length salt)%nat ->
  derive_fernet_key password salt iterations
  = (key_raw ← pbkdf2_hmac_sha256 salt iterations (str_encode password);
     Ok (urlsafe_b64encode key_raw)).
Proof.
  intros Hpw Hsalt. unfold derive_fernet_key.
  destruct (String.eqb_spec password "") as [->|_]; [contradiction |].
  destruct (Nat.ltb_spec (length salt) 8); [lia | reflexivity].
Qed.

Lemma derive_fernet_key_ok `{!PyLibLaws L} (password : string) (salt : bytes)
    (iterations : Z) :
  password <> "" -> (8 <= length salt)%nat -> 0 < iterations ->
  exists key, derive_fernet_key password salt iterations = Ok key.
Proof.
  intros Hpw Hsalt Hit. rewrite derive_fernet_key_guards_pass by assumption.
  destruct (pbkdf2_succeeds salt iterations (str_encode password) Hit) as [k ->].
  eexists. reflexivity.
Qed.

(** C4.  For a positive iteration count, [derive_fernet_key] raises the
    [ValueError] of an invalid input exactly when the password is empty or
    the salt has fewer than 8 bytes, and it returns a key for every
    non-empty password and every salt of at least 8 bytes: whether the
    password is the right one plays no part. *)
Theorem derive_fernet_key_invalid_input `{!PyLibLaws L} (password : string)
    (salt : bytes) (iterations : Z) :
  0 < iterations ->
  ((exists msg, derive_fernet_key password salt iterations = Raise (ValueError msg))
   <-> password = "" \/ (length salt < 8)%nat) /\
  (password <> "" -> (8 <= length salt)%nat ->
   exists key, derive_fernet_key password salt iterations = Ok key).
Proof.
  intros Hit. split; [split |].
  - intros [msg Hraise].
    destruct (decide (password = "")) as [|Hpw]; [left; assumption |].
    destruct (le_lt_dec 8 (length salt)) as [Hsalt|]; [| right; assumption].
    destruct (derive_fernet_key_ok password salt iterations Hpw Hsalt Hit)
      as [key Hkey].
    congruence.
  - intros [->|Hsalt].
    + eexists. apply derive_fernet_key_empty_password.
    + destruct (decide (password = "")) as [->|Hpw].
      * eexists. apply derive_fernet_key_empty_password.
      * eexists. apply derive_fernet_key_short_salt; assumption.
  - intros Hpw Hsalt. apply derive_fernet_key_ok; assumption.
Qed.

(** The members of a record written by [new_vault_doc]. *)
Lemma new_vault_doc_flat (ciphertext salt : bytes) (iterations : Z) :
  exists m, new_vault_doc ciphertext salt iterations = JDict m /\
    map_Forall (fun _ v => flat_member v) m /\
    m !! "version" = Some (JInt 1) /\
    m !! "kdf" = Some (JStr "PBKDF2HMAC-SHA256") /\
    m !! "iterations" = Some (JInt iterations) /\
    m !! "salt" = Some (JStr (b64encode salt)) /\
    m !! "ciphertext" = Some (JStr (b64encode ciphertext)).
Proof.
  eexists. split; [reflexivity |]. split.
  - repeat (apply map_Forall_insert_2; [exact I |]). apply map_Forall_empty.
  - repeat split; by simplify_map_eq.
Qed.

Lemma new_vault_doc_shape (ciphertext salt : bytes) (iterations : Z) :
  record_shape (new_vault_doc ciphertext salt iterations).
Proof.
  destruct (new_vault_doc_flat ciphertext salt iterations)
    as (m & Hm & _ & Hv & Hk & _ & Hs & Hc).
  exists m, salt, ciphertext. auto.
Qed.

Lemma vault_json_flat (vault : gmap string string) :
  map_Forall (fun _ v => flat_member v) (JStr <$> vault).
Proof.
  intros k v Hkv. apply lookup_fmap_Some in Hkv as (s & <- & _). exact I.
Qed.

Lemma get_salt_and_iterations_new_vault_doc `{!PyLibLaws L}
    (ciphertext salt : bytes) (iterations : Z) :
  get_salt_and_iterations (new_vault_doc ciphertext salt iterations)
  = Ok (salt, iterations).
Proof.
  destruct (new_vault_doc_flat ciphertext salt iterations)
    as (m & -> & _ & _ & _ & Hi & Hs & _).
  unfold get_salt_and_iterations, getitem. rewrite Hs, Hi. simpl.
  rewrite b64decode_b64encode. reflexivity.
Qed.

Lemma ciphertext_new_vault_doc `{!PyLibLaws L}
    (ciphertext salt : bytes) (iterations : Z) :
  (c ← getitem (new_vault_doc ciphertext salt iterations) "ciphertext";
   py_b64decode c) = Ok ciphertext.
Proof.
  destruct (new_vault_doc_flat ciphertext salt iterations)
    as (m & -> & _ & _ & _ & _ & _ & Hc).
  unfold getitem. rewrite Hc. simpl.
  rewrite b64decode_b64encode. reflexivity.
Qed.

Lemma read_write_vault_doc `{!PyLibLaws L}
    (ciphertext salt : bytes) (iterations : Z) :
  read_vault_doc (write_vault_doc (new_vault_doc ciphertext salt iterations))
  = Ok (new_vault_doc ciphertext salt iterations).
Proof.
  destruct (new_vault_doc_flat ciphertext salt iterations)
    as (m & Hm & Hflat & _).
  unfold read_vault_doc, write_vault_doc. rewrite decode_encode. simpl.
  rewrite Hm, json_loads_dump_indent by assumption. reflexivity.
Qed.

Lemma decrypt_new_vault_doc `{!PyLibLaws L} (token salt : bytes)
    (iterations : Z) (password : string) :
  decrypt_vault_dict (new_vault_doc token salt iterations) password
  = (key_b64 ← derive_fernet_key password salt iterations;
     plaintext ← orraise (fernet_decrypt key_b64 token) InvalidToken;
     text ← orraise (bytes_decode plaintext) UnicodeDecodeError;
     orraise (json_loads text) JSONDecodeError).
Proof.
  unfold decrypt_vault_dict.
  rewrite get_salt_and_iterations_new_vault_doc.
  destruct (new_vault_doc_flat token salt iterations)
    as (m & -> & _ & _ & _ & _ & _ & Hc).
  unfold getitem. rewrite Hc. simpl.
  destruct (derive_fernet_key password salt iterations); [| reflexivity].
  simpl. rewrite b64decode_b64encode. reflexivity.
Qed.

(** C3.  Encrypting a dictionary of strings under a non-empty password, a
    salt of at least 8 bytes and a positive iteration count gives a record
    that decrypts, under the same password, to the same dictionary. *)
Theorem decrypt_encrypt_vault_dict `{!PyLibLaws L} (vault : gmap string string)
    (password : string) (salt : bytes) (iterations : Z) (entropy : bytes) :
  password <> "" -> (8 <= length salt)%nat -> 0 < iterations ->
  exists doc,
    encrypt_vault_dict vault password salt iterations entropy = Ok doc /\
    decrypt_vault_dict doc password = Ok (vault_json vault).
Proof.
  intros Hpw Hsalt Hit.
  destruct (derive_fernet_key_ok password salt iterations Hpw Hsalt Hit)
    as [key Hkey].
  exists (new_vault_doc
            (fernet_encrypt key entropy (str_encode (json_dumps (vault_json vault))))
            salt iterations).
  split.
  - unfold encrypt_vault_dict. rewrite Hkey. reflexivity.
  - rewrite decrypt_new_vault_doc, Hkey. simpl.
    rewrite fernet_decrypt_encrypt. simpl.
    rewrite decode_encode. simpl.
    unfold vault_json. rewrite json_loads_dumps by apply vault_json_flat.
    reflexivity.
Qed.

End KeyDerivation.
(** *** Saving, and the shape of the record *)

Section Store.
Context {L : PyLib}.

#[local] Arguments new_vault_doc : simpl never.
#[local] Arguments vault_json : simpl never.
#[local] Arguments derive_fernet_key : simpl never.
#[local] Arguments write_vault_doc : simpl never.
#[local] Arguments read_vault_doc : simpl never.
#[local] Arguments get_salt_and_iterations : simpl never.

Lemma stored_params_write `{!PyLibLaws L} (token salt : bytes) (iterations : Z) :
  stored_params (write_vault_doc (new_vault_doc token salt iterations))
  = Ok (salt, iterations).
Proof.
  unfold stored_params. rewrite read_write_vault_doc.
  exact (get_salt_and_iterations_new_vault_doc token salt iterations).
Qed.

Lemma stored_ciphertext_write `{!PyLibLaws L} (token salt : bytes)
    (iterations : Z) :
  stored_ciphertext (write_vault_doc (new_vault_doc token salt iterations))
  = Ok token.
Proof.
  unfold stored_ciphertext. rewrite read_write_vault_doc.
  exact (ciphertext_new_vault_doc token salt iterations).
Qed.

(** The three ways [save_vault] can end. *)
Lemma save_vault_cases (vault : gmap string string) (password : string)
    (fs : filesystem) (entropy : bytes) :
  (exists e, save_vault vault password fs entropy = (Raise e, fs)) \/
  (exists salt iterations key,
     stored_params fs = Ok (salt, iterations) /\
     derive_fernet_key password salt iterations = Ok key /\
     save_vault vault password fs entropy
     = (Ok tt,
        write_vault_doc
          (new_vault_doc
             (fernet_encrypt key entropy
                (str_encode (json_dumps (vault_json vault))))
             salt iterations))).
Proof.
  unfold save_vault, stored_params.
  destruct (read_vault_doc fs) as [doc|e]; simpl; [| left; eauto].
  destruct (get_salt_and_iterations doc) as [[salt iterations]|e]; simpl;
    [| left; eauto].
  unfold encrypt_vault_dict.
  destruct (derive_fernet_key password salt iterations) as [key|e] eqn:Hkey;
    simpl; [| left; eauto].
  right. exists salt, iterations, key. auto.
Qed.

(** The record that [save_vault] writes opens, under the password, to
    the dictionary that was saved. *)
Lemma open_existing_write `{!PyLibLaws L} (vault : gmap string string)
    (password : string) (salt : bytes) (iterations : Z) (key entropy : bytes) :
  derive_fernet_key password salt iterations = Ok key ->
  open_existing
    (write_vault_doc
       (new_vault_doc
          (fernet_encrypt key entropy (str_encode (json_dumps (vault_json vault))))
          salt iterations))
    password
  = Ok (vault_json vault).
Proof.
  intros Hkey. unfold open_existing. rewrite read_write_vault_doc. simpl.
  rewrite decrypt_new_vault_doc, Hkey. simpl.
  rewrite fernet_decrypt_encrypt. simpl.
  rewrite decode_encode. simpl.
  unfold vault_json. rewrite json_loads_dumps by apply vault_json_flat.
  reflexivity.
Qed.

(** C7.  [save_vault] on an existing vault file.  It succeeds exactly
    when the stored salt and iteration count can be read and give a key
    with the password, as they do in every session, where the file was
    opened under that password.  It then overwrites the ciphertext: the
    file holds the token of the new dictionary under the key of the stored
    parameters, whatever token it held before, and opens under the
    password to the new dictionary.  The stored salt and iteration count
    are as they were, and when it raises the file is not written. *)
Theorem save_vault_keeps_kdf_parameters `{!PyLibLaws L}
    (vault : gmap string string) (password : string) (content : bytes)
    (entropy : bytes) :
  let fs := Some content in
  let out := save_vault vault password fs entropy in
  stored_params out.2 = stored_params fs /\
  (out.1 = Ok tt <->
   exists salt iterations key,
     stored_params fs = Ok (salt, iterations) /\
     derive_fernet_key password salt iterations = Ok key) /\
  (forall salt iterations key,
     stored_params fs = Ok (salt, iterations) ->
     derive_fernet_key password salt iterations = Ok key ->
     out.1 = Ok tt /\
     stored_ciphertext out.2
     = Ok (fernet_encrypt key entropy
             (str_encode (json_dumps (vault_json vault)))) /\
     open_existing out.2 password = Ok (vault_json vault)) /\
  (forall e, out.1 = Raise e -> out.2 = fs).
Proof.
  intros fs out. subst out.
  destruct (save_vault_cases vault password fs entropy)
    as [[e Hsave] | (salt & iterations & key & Hparams & Hkey & Hsave)].
  - assert (Hnokey : forall salt iterations key,
              stored_params fs = Ok (salt, iterations) ->
              derive_fernet_key password salt iterations = Ok key -> False).
    { intros salt iterations key Hparams Hkey.
      destruct (save_vault_cases vault password fs entropy)
        as [[e' Hsave'] | (salt' & iterations' & key' & _ & _ & Hsave')];
        [| congruence].
      revert Hsave'. unfold save_vault, stored_params in *.
      destruct (read_vault_doc fs) as [doc|]; simpl in *; [| discriminate].
      rewrite Hparams. simpl. unfold encrypt_vault_dict. rewrite Hkey. simpl.
      discriminate. }
    rewrite Hsave. simpl.
    split; [reflexivity |].
    split; [split; [discriminate | intros (salt & iterations & key & Hp & Hk);
                                    destruct (Hnokey _ _ _ Hp Hk)] |].
    split; [| reflexivity].
    intros salt iterations key Hp Hk. destruct (Hnokey _ _ _ Hp Hk).
  - rewrite Hsave. simpl.
    rewrite stored_params_write.
    split; [symmetry; exact Hparams |].
    split; [split; [intros _; exists salt, iterations, key; auto | reflexivity] |].
    split; [| discriminate].
    intros salt' iterations' key' Hparams' Hkey'.
    assert (salt' = salt /\ iterations' = iterations) as [-> ->]
      by (split; congruence).
    assert (key' = key) as -> by congruence.
    rewrite stored_ciphertext_write.
    split; [reflexivity |]. split; [reflexivity |].
    apply open_existing_write, Hkey.
Qed.

Lemma file_shape_write (token salt : bytes) (iterations : Z) :
  file_shape (write_vault_doc (new_vault_doc token salt iterations)).
Proof.
  unfold file_shape, write_vault_doc.
  eexists. split; [reflexivity |]. apply new_vault_doc_shape.
Qed.

(** An operation leaves the file alone or writes a record of the shape. *)
Lemma run_operation_shape (fs : filesystem) (op : operation) :
  run_operation fs op = fs \/ file_shape (run_operation fs op).
Proof.
  destruct op as [password urandom entropy | vault password entropy]; simpl.
  - unfold load_or_init_vault. destruct fs as [content|].
    + left. destruct (open_existing _ _); reflexivity.
    + unfold encrypt_vault_dict.
      destruct (derive_fernet_key password urandom KDF_ITERATIONS); simpl.
      * right. apply file_shape_write.
      * left. reflexivity.
  - destruct (save_vault_cases vault password fs entropy)
      as [[e ->] | (salt & iterations & key & _ & _ & ->)]; simpl.
    + left. reflexivity.
    + right. apply file_shape_write.
Qed.

(** C9.  The record shape is an invariant of the vault file: from a file
    that is absent or holds a record with version 1, the KDF name
    PBKDF2HMAC-SHA256 and base64 salt and ciphertext, every sequence of
    opens and saves leaves such a file. *)
Theorem record_shape_invariant (ops : list operation) (fs : filesystem) :
  file_shape fs -> file_shape (run_operations fs ops).
Proof.
  revert fs. induction ops as [|op ops IH]; intros fs Hfs; [exact Hfs |].
  simpl. apply IH.
  destruct (run_operation_shape fs op) as [-> | Hshape]; assumption.
Qed.

End Store.
(** *** Opening an existing vault *)

Section Open.
Context {L : PyLib}.

#[local] Arguments derive_fernet_key : simpl never.

Lemma load_existing (password : string) (content urandom entropy : bytes) :
  (load_or_init_vault password (Some content) urandom entropy).1
  = match open_existing (Some content) password with
    | Ok vault => Ok vault
    | Raise e => Raise (handle_load_error e)
    end.
Proof.
  unfold load_or_init_vault.
  destruct (open_existing (Some content) password); reflexivity.
Qed.

Lemma read_vault_doc_raise (content : bytes) (e : exn) :
  read_vault_doc (Some content) = Raise e ->
  handle_load_error e = MalformedVault e.
Proof.
  unfold read_vault_doc.
  destruct (bytes_decode content) as [text|]; simpl.
  - destruct (json_loads text); simpl; [discriminate |].
    intros [= <-]. reflexivity.
  - intros [= <-]. reflexivity.
Qed.

Lemma getitem_raise (doc : json) (key : string) (e : exn) :
  getitem doc key = Raise e -> malformed_or_type_error e.
Proof.
  unfold getitem. destruct doc; try (intros [= <-]; left; reflexivity).
  destruct (m !! key); simpl; [discriminate |].
  intros [= <-]. right. reflexivity.
Qed.

Lemma py_b64decode_raise (v : json) (e : exn) :
  py_b64decode v = Raise e -> malformed_or_type_error e.
Proof.
  unfold py_b64decode. destruct v; try (intros [= <-]; left; reflexivity).
  destruct (b64decode s); simpl; [discriminate |].
  intros [= <-]. right. reflexivity.
Qed.

Lemma py_int_raise (v : json) (e : exn) :
  py_int v = Raise e -> malformed_or_type_error e.
Proof.
  unfold py_int. destruct v; try discriminate;
    try (intros [= <-]; left; reflexivity).
  destruct (int_of_str s); simpl; [discriminate |].
  intros [= <-]. right. reflexivity.
Qed.

Lemma get_salt_and_iterations_raise (doc : json) (e : exn) :
  get_salt_and_iterations doc = Raise e -> malformed_or_type_error e.
Proof.
  unfold get_salt_and_iterations.
  destruct (getitem doc "salt") as [s|e1] eqn:H1; simpl;
    [| intros [= <-]; eapply getitem_raise, H1].
  destruct (py_b64decode s) as [salt|e2] eqn:H2; simpl;
    [| intros [= <-]; eapply py_b64decode_raise, H2].
  destruct (getitem doc "iterations") as [i|e3] eqn:H3; simpl;
    [| intros [= <-]; eapply getitem_raise, H3].
  destruct (py_int i) as [iterations|e4] eqn:H4; simpl;
    [discriminate | intros [= <-]; eapply py_int_raise, H4].
Qed.

Lemma decode_payload_raise (plaintext : bytes) (e : exn) :
  decode_payload plaintext = Raise e ->
  handle_load_error e = MalformedVault e.
Proof.
  unfold decode_payload.
  destruct (bytes_decode plaintext) as [text|]; simpl.
  - destruct (json_loads text); simpl; [discriminate |].
    intros [= <-]. reflexivity.
  - intros [= <-]. reflexivity.
Qed.

(** How the [try] block ends, for a non-empty password, fields of the
    expected JSON types and a positive stored iteration count: either a
    field cannot be read and an exception of the [ValueError] family or a
    [KeyError] is raised, or the fields are read and the salt is too
    short, or the key is derived and the token goes to [Fernet.decrypt]. *)
Lemma open_existing_cases `{!PyLibLaws L} (content : bytes) (password : string) :
  let fs := Some content in
  password <> "" ->
  record_fields fs <> Raise TypeError ->
  (forall salt iterations,
     stored_params fs = Ok (salt, iterations) -> 0 < iterations) ->
  ((exists cause, record_fields fs = Raise cause) /\
   exists cause', open_existing fs password = Raise cause' /\
     handle_load_error cause' = MalformedVault cause') \/
  (exists salt iterations token,
     record_fields fs = Ok (salt, iterations, token) /\
     (((length salt < 8)%nat /\
       exists cause', open_existing fs password = Raise cause' /\
         handle_load_error cause' = MalformedVault cause') \/
      ((8 <= length salt)%nat /\
       exists key,
         derive_fernet_key password salt iterations = Ok key /\
         open_existing fs password
         = (plaintext ← orraise (fernet_decrypt key token) InvalidToken;
            decode_payload plaintext)))).
Proof.
  intros fs Hpw Htyped Hpos. subst fs.
  unfold record_fields, stored_params, open_existing, decrypt_vault_dict in *.
  destruct (read_vault_doc (Some content)) as [doc|e] eqn:Hread; simpl in *.
  2:{ left. split; [eauto |]. exists e. split; [reflexivity |].
      eapply read_vault_doc_raise, Hread. }
  destruct (get_salt_and_iterations doc) as [[salt iterations]|e] eqn:Hgsi;
    simpl in *.
  2:{ left. split; [eauto |]. exists e. split; [reflexivity |].
      destruct (get_salt_and_iterations_raise _ _ Hgsi) as [-> | H];
        [contradiction | exact H]. }
  specialize (Hpos salt iterations eq_refl).
  assert (Hderive :
    ((length salt < 8)%nat /\
     derive_fernet_key password salt iterations
     = Raise (ValueError "Salt must be bytes and at least 8 bytes long.")) \/
    ((8 <= length salt)%nat /\
     exists key, derive_fernet_key password salt iterations = Ok key)).
  { destruct (le_lt_dec 8 (length salt)) as [Hsalt|Hsalt].
    - right. split; [assumption |]. apply derive_fernet_key_ok; assumption.
    - left. split; [assumption |].
      apply derive_fernet_key_short_salt; assumption. }
  destruct (getitem doc "ciphertext") as [c|e] eqn:Hc; simpl in *.
  2:{ left. split; [eauto |].
      assert (He : handle_load_error e = MalformedVault e).
      { destruct (getitem_raise _ _ _ Hc) as [-> | H];
          [contradiction | exact H]. }
      destruct Hderive as [[_ ->] | [_ [key ->]]]; simpl;
        eexists; (split; [reflexivity |]); [reflexivity | exact He]. }
  destruct (py_b64decode c) as [token|e] eqn:Htok; simpl in *.
  2:{ left. split; [eauto |].
      assert (He : handle_load_error e = MalformedVault e).
      { destruct (py_b64decode_raise _ _ Htok) as [-> | H];
          [contradiction | exact H]. }
      destruct Hderive as [[_ ->] | [_ [key ->]]]; simpl;
        eexists; (split; [reflexivity |]); [reflexivity | exact He]. }
  right. exists salt, iterations, token. split; [reflexivity |].
  destruct Hderive as [[Hsalt Hkey] | [Hsalt [key Hkey]]].
  - left. split; [assumption |]. rewrite Hkey. simpl.
    eexists. split; reflexivity.
  - right. split; [assumption |]. exists key. split; [assumption |].
    rewrite Hkey. reflexivity.
Qed.

(** C6, as amended.  For an existing vault file, a non-empty password,
    record fields of the JSON types the program expects and a positive
    stored iteration count: the open fails with [WrongPasswordOrCorrupted]
    exactly when the record is read, its salt has at least 8 bytes and
    [Fernet.decrypt] rejects the stored token; it fails with
    [MalformedVault] exactly when the record cannot be read (text that is
    not utf-8 JSON, a missing field, invalid base64 or integer text), or
    its salt has fewer than 8 bytes, or the token decrypts to a payload
    that is not utf-8 JSON; and the two failures are different. *)
Theorem load_existing_failure_kinds `{!PyLibLaws L} (password : string)
    (content urandom entropy : bytes) :
  let fs := Some content in
  let r := (load_or_init_vault password fs urandom entropy).1 in
  password <> "" ->
  record_fields fs <> Raise TypeError ->
  (forall salt iterations,
     stored_params fs = Ok (salt, iterations) -> 0 < iterations) ->
  (r = Raise WrongPasswordOrCorrupted <->
   exists salt iterations token key,
     record_fields fs = Ok (salt, iterations, token) /\
     derive_fernet_key password salt iterations = Ok key /\
     fernet_decrypt key token = None) /\
  ((exists cause, r = Raise (MalformedVault cause)) <->
   (exists cause, record_fields fs = Raise cause) \/
   (exists salt iterations token,
      record_fields fs = Ok (salt, iterations, token) /\
      ((length salt < 8)%nat \/
       exists key plaintext cause,
         derive_fernet_key password salt iterations = Ok key /\
         fernet_decrypt key token = Some plaintext /\
         decode_payload plaintext = Raise cause))) /\
  (forall cause, WrongPasswordOrCorrupted <> MalformedVault cause).
Proof.
  intros fs r Hpw Htyped Hpos. subst r fs.
  rewrite load_existing.
  split; [| split; [| discriminate]];
  destruct (open_existing_cases content password Hpw Htyped Hpos)
    as [[[cause Hfields] (cause' & -> & ->)]
       | (salt & iterations & token & Hfields &
          [[Hsalt (cause' & -> & ->)] | [Hsalt (key & Hkey & ->)]])].
  - (* unreadable record, wrong password *)
    split; [discriminate |].
    intros (s & i & t & k & Hf & _). congruence.
  - (* short salt, wrong password *)
    split; [discriminate |].
    intros (s & i & t & k & Hf & Hk & _).
    rewrite Hfields in Hf. injection Hf as <- <- <-.
    rewrite (derive_fernet_key_short_salt password salt iterations Hpw Hsalt)
      in Hk.
    discriminate.
  - (* key derived, wrong password *)
    destruct (fernet_decrypt key token) as [plaintext|] eqn:Hdec; simpl.
    + split.
      * destruct (decode_payload plaintext) as [vault|e] eqn:Hpay;
          [discriminate |].
        rewrite (decode_payload_raise _ _ Hpay). discriminate.
      * intros (s & i & t & k & Hf & Hk & Hd).
        rewrite Hfields in Hf. injection Hf as <- <- <-. congruence.
    + split; [| reflexivity].
      intros _. exists salt, iterations, token, key. auto.
  - (* unreadable record, malformed *)
    split; eauto.
  - (* short salt, malformed *)
    split; [| eauto]. intros _. right. exists salt, iterations, token. auto.
  - (* key derived, malformed *)
    destruct (fernet_decrypt key token) as [plaintext|] eqn:Hdec; simpl.
    + destruct (decode_payload plaintext) as [vault|e] eqn:Hpay.
      * split; [intros [cause Hcause]; discriminate |].
        intros [[cause Hcause] | (s & i & t & Hf & Hcase)]; [congruence |].
        rewrite Hfields in Hf. injection Hf as <- <- <-.
        destruct Hcase as [Hshort | (k & p & cause & Hk & Hd & Hp)];
          [lia | congruence].
      * rewrite (decode_payload_raise _ _ Hpay). split; [| eauto].
        intros _. right. exists salt, iterations, token.
        split; [assumption |]. right. exists key, plaintext, e. auto.
    + split; [intros [cause Hcause]; discriminate |].
      intros [[cause Hcause] | (s & i & t & Hf & Hcase)]; [congruence |].
      rewrite Hfields in Hf. injection Hf as <- <- <-.
      destruct Hcase as [Hshort | (k & p & cause & Hk & Hd & Hp)];
        [lia | congruence].
Qed.

End Open.

End DocumentFacts.

(** ** What the calls of the document form read and change *)

Module EffectFacts.
Import Effects.

Section Facts.
Context {L : PyLib}.

#[local] Arguments Document.derive_fernet_key : simpl never.
#[local] Arguments Document.new_vault_doc : simpl never.
#[local] Arguments Document.get_salt_and_iterations : simpl never.
#[local] Arguments Document.read_vault_doc : simpl never.
#[local] Arguments Document.write_vault_doc : simpl never.
#[local] Arguments vault_json : simpl never.

(** The worlds a call of [derive_fernet_key] is started in and leaves. *)
Lemma derive_fernet_key_run (password : string) (salt : bytes)
    (iterations : Z) (w : world) :
  derive_fernet_key password salt iterations w
  = (Document.derive_fernet_key password salt iterations, w).
Proof.
  unfold derive_fernet_key, Document.derive_fernet_key.
  destruct (password =? "")%string; [reflexivity |].
  destruct (length salt <? 8)%nat; [reflexivity |].
  unfold mbind, io_bind, io_pure.
  destruct (pbkdf2_hmac_sha256 salt iterations (str_encode password));
    reflexivity.
Qed.

(** C5.  Two calls of [derive_fernet_key] with the same password, salt
    and iteration count have the same outcome, the same key or the same
    exception, in whatever worlds they are made: the vault file, the
    entropy of the operating system and what has been printed play no
    part.  Each call leaves its world as it found it: it writes no file,
    draws no entropy and prints nothing. *)
Theorem derive_fernet_key_pure (password : string) (salt : bytes)
    (iterations : Z) (w1 w2 : world) :
  let call1 := derive_fernet_key password salt iterations w1 in
  let call2 := derive_fernet_key password salt iterations w2 in
  call1.1 = call2.1 /\ call1.2 = w1 /\ call2.2 = w2.
Proof.
  intros call1 call2. subst call1 call2.
  rewrite !derive_fernet_key_run. auto.
Qed.

(** [encrypt_vault_dict] is not such a call: when the key is derived it
    takes one draw of entropy, on which the token depends. *)
Lemma encrypt_vault_dict_run (vault : gmap string string) (password : string)
    (salt : bytes) (iterations : Z) (w : world) :
  encrypt_vault_dict vault password salt iterations w
  = match Document.encrypt_vault_dict vault password salt iterations
            (os_entropy w (drawn w)) with
    | Ok doc => (Ok doc, (draw w).2)
    | Raise e => (Raise e, w)
    end.
Proof.
  unfold encrypt_vault_dict, Document.encrypt_vault_dict.
  unfold mbind at 1. unfold io_bind at 1. rewrite derive_fernet_key_run.
  destruct (Document.derive_fernet_key password salt iterations);
    reflexivity.
Qed.

Lemma decrypt_vault_dict_run (doc : json) (password : string) (w : world) :
  decrypt_vault_dict doc password w
  = (Document.decrypt_vault_dict doc password, w).
Proof.
  unfold decrypt_vault_dict, Document.decrypt_vault_dict.
  unfold mbind at 1. unfold io_bind at 1. unfold io_pure at 1.
  destruct (Document.get_salt_and_iterations doc) as [[salt iterations]|e];
    [| reflexivity].
  unfold mbind at 1. unfold io_bind at 1. rewrite derive_fernet_key_run.
  change (Ok (salt, iterations) ≫= ?k) with (k (salt, iterations)). cbv beta iota.
  destruct (Document.derive_fernet_key password salt iterations);
    reflexivity.
Qed.

(** X25.  Opening a vault file that exists only reads: the call leaves
    its world as it found it, with no write, no draw of entropy and
    nothing printed, and two opens of the same file under the same
    password have the same outcome whatever else differs between their
    worlds. *)
Theorem load_or_init_vault_existing_reads_only (password : string)
    (w1 w2 : world) :
  is_Some (disk w1) -> disk w1 = disk w2 ->
  let call1 := load_or_init_vault password w1 in
  let call2 := load_or_init_vault password w2 in
  call1.1 = call2.1 /\ call1.2 = w1 /\ call2.2 = w2 /\
  forall urandom entropy,
    call1.1 = (Document.load_or_init_vault password (disk w1) urandom entropy).1.
Proof.
  intros [content Hdisk] Hsame call1 call2. subst call1 call2.
  assert (Hrun : forall w, disk w = Some content ->
            load_or_init_vault password w
            = ((Document.load_or_init_vault password (Some content) [] []).1, w)).
  { intros w Hw. unfold load_or_init_vault.
    unfold mbind at 1. unfold io_bind at 1. unfold path_exists. rewrite Hw.
    change (negb true) with false. cbv beta iota.
    unfold io_try. unfold mbind at 1. unfold io_bind at 1.
    unfold read_vault_doc. rewrite Hw.
    unfold Document.load_or_init_vault, Document.open_existing.
    destruct (Document.read_vault_doc (Some content)) as [doc|e];
      [| reflexivity].
    rewrite decrypt_vault_dict_run. simpl.
    destruct (Document.decrypt_vault_dict doc password); reflexivity. }
  rewrite (Hrun w1 Hdisk), (Hrun w2 (eq_trans (eq_sym Hsame) Hdisk)).
  rewrite Hdisk. auto.
Qed.

(** The run of the first open. *)
Lemma load_or_init_vault_first_run (password : string) (w : world) :
  disk w = None ->
  load_or_init_vault password w
  = match Document.encrypt_vault_dict ∅ password
            (resize 16 x00 (os_entropy w (drawn w))) Document.KDF_ITERATIONS
            (os_entropy w (S (drawn w))) with
    | Ok empty_doc =>
        (Ok (vault_json ∅),
         {| disk := Document.write_vault_doc empty_doc;
            os_entropy := os_entropy w;
            drawn := S (S (drawn w));
            console :=
              (console w
               ++ ["[init] Created new encrypted vault at vault.enc.json."])%list |})
    | Raise e =>
        (Raise e,
         {| disk := disk w; os_entropy := os_entropy w; drawn := S (drawn w);
            console := console w |})
    end.
Proof.
  intros Hdisk. unfold load_or_init_vault.
  unfold mbind at 1. unfold io_bind at 1. unfold path_exists. rewrite Hdisk.
  change (negb false) with true. cbv beta iota.
  unfold mbind at 1. unfold io_bind at 1.
  unfold os_urandom. unfold mbind at 1. unfold io_bind at 1.
  unfold draw at 1. cbv beta iota. unfold mret at 1. unfold io_ret at 1.
  cbv beta iota.
  unfold mbind at 1. unfold io_bind at 1.
  rewrite encrypt_vault_dict_run.
  simpl drawn. simpl os_entropy.
  change Document.SALT_BYTES with 16%nat.
  destruct (Document.encrypt_vault_dict ∅ password _ _ _);
    rewrite ?Hdisk; reflexivity.
Qed.

(** X26.  The first open, on a missing file.  With a non-empty password
    it returns the empty dictionary, takes two draws of entropy, the
    first for the 16 bytes of the salt and the second for the token, writes
    the file that [Document.load_or_init_vault] writes from them, and
    prints the line of the creation.  With the empty password it raises
    after the salt has been drawn, and neither writes nor prints. *)
Theorem load_or_init_vault_first_open_effects `{!PyLibLaws L}
    (password : string) (w : world) :
  disk w = None ->
  let out := load_or_init_vault password w in
  let salt := resize 16 x00 (os_entropy w (drawn w)) in
  os_entropy out.2 = os_entropy w /\
  (password <> "" ->
   out.1 = Ok (vault_json ∅) /\
   disk out.2
   = (Document.load_or_init_vault password None salt
        (os_entropy w (S (drawn w)))).2 /\
   is_Some (disk out.2) /\
   drawn out.2 = S (S (drawn w)) /\
   console out.2
   = (console w ++ ["[init] Created new encrypted vault at vault.enc.json."])%list) /\
  (password = "" ->
   out.1 = Raise (ValueError "Password must be a non-empty string.") /\
   disk out.2 = None /\
   drawn out.2 = S (drawn w) /\
   console out.2 = console w).
Proof.
  intros Hdisk out salt. subst out.
  rewrite (load_or_init_vault_first_run password w Hdisk).
  unfold Document.load_or_init_vault. fold salt.
  destruct (Document.encrypt_vault_dict ∅ password salt Document.KDF_ITERATIONS
              (os_entropy w (S (drawn w)))) as [empty_doc|e] eqn:Hdoc.
  - simpl. split; [reflexivity |]. split.
    + intros _. repeat split. eexists. reflexivity.
    + intros ->. discriminate Hdoc.
  - simpl. split; [reflexivity |]. split.
    + intros Hpw.
      destruct (DocumentFacts.derive_fernet_key_ok password salt
                  Document.KDF_ITERATIONS Hpw) as [key Hkey];
        [subst salt; rewrite length_resize; lia | reflexivity |].
      revert Hdoc. unfold Document.encrypt_vault_dict. rewrite Hkey.
      discriminate.
    + intros ->. rewrite Hdisk. revert Hdoc.
      unfold Document.encrypt_vault_dict.
      rewrite DocumentFacts.derive_fernet_key_empty_password.
      intros [= <-]. auto.
Qed.

(** The run of [save_vault]. *)
Lemma save_vault_run (vault : gmap string string) (password : string)
    (w : world) :
  save_vault vault password w
  = match
      doc ← Document.read_vault_doc (disk w);
      '(salt, iterations) ← Document.get_salt_and_iterations doc;
      Document.encrypt_vault_dict vault password salt iterations
        (os_entropy w (drawn w))
    with
    | Ok new_doc =>
        (Ok tt,
         {| disk := Document.write_vault_doc new_doc;
            os_entropy := os_entropy w;
            drawn := S (drawn w);
            console := console w |})
    | Raise e => (Raise e, w)
    end.
Proof.
  unfold save_vault.
  unfold mbind at 1. unfold io_bind at 1. unfold read_vault_doc.
  destruct (Document.read_vault_doc (disk w)) as [doc|e]; [| reflexivity].
  unfold mbind at 1. unfold io_bind at 1. unfold io_pure at 1.
  change (Ok doc ≫= ?k) with (k doc). cbv beta.
  destruct (Document.get_salt_and_iterations doc) as [[salt iterations]|e];
    [| reflexivity].
  change (Ok (salt, iterations) ≫= ?k) with (k (salt, iterations)).
  cbv beta iota.
  unfold mbind at 1. unfold io_bind at 1.
  rewrite encrypt_vault_dict_run.
  destruct (Document.encrypt_vault_dict vault password salt iterations
              (os_entropy w (drawn w))) as [new_doc|e]; reflexivity.
Qed.

(** X27.  [save_vault] as a call in a world: it returns and writes what
    [Document.save_vault] does from the file and the next draw of entropy,
    prints nothing, and takes that one draw exactly when it succeeds, the
    stored salt and iteration count having been read and giving a key. *)
Theorem save_vault_effects (vault : gmap string string) (password : string)
    (w : world) :
  let out := save_vault vault password w in
  let explicit :=
    Document.save_vault vault password (disk w) (os_entropy w (drawn w)) in
  out.1 = explicit.1 /\
  disk out.2 = explicit.2 /\
  console out.2 = console w /\
  os_entropy out.2 = os_entropy w /\
  drawn out.2 = match out.1 with
                | Ok _ => S (drawn w)
                | Raise _ => drawn w
                end.
Proof.
  intros out explicit. subst out explicit.
  rewrite save_vault_run. unfold Document.save_vault.
  destruct (_ ≫= _) as [new_doc|e]; simpl; auto.
Qed.

End Facts.
End EffectFacts.

(** ** The tabular form: rows, deletion and rotation *)

Module TabularFacts.
Import Tabular.

Section Facts.
Context {L : PyLib}.

(** C8.  Deleting a confirmed, non-empty service name: when the name has
    a row, the row is removed, the program reports Deleted and a retrieval
    of that name then reports NOT FOUND; when it has none, the program
    reports Not found, raises nothing, and the table is as before.  In
    both cases every other row and the metadata are unchanged. *)
Theorem main_delete_removes_row (conn : connection) (fernet : bytes)
    (input : string) :
  let svc := str_strip input in
  let out := main_delete conn input true in
  svc <> "" ->
  (forall token, secrets (current conn) !! svc = Some token ->
     out.2 = MsgDeleted /\
     secrets (current out.1) !! svc = None /\
     secrets (durable out.1) !! svc = None /\
     main_retrieve out.1 fernet input = Ok MsgNotFoundUpper) /\
  (secrets (current conn) !! svc = None ->
     out.2 = MsgNotFound /\
     secrets (current out.1) = secrets (current conn)) /\
  (forall other, other <> svc ->
     secrets (current out.1) !! other = secrets (current conn) !! other) /\
  meta (current out.1) = meta (current conn) /\
  durable out.1 = current out.1.
Proof.
  intros svc out Hsvc. subst out. unfold main_delete. fold svc.
  destruct (String.eqb_spec svc "") as [|_]; [contradiction |].
  unfold delete_secret, main_retrieve. fold svc.
  assert (Hother : forall other, other <> svc ->
            delete svc (secrets (current conn)) !! other
            = secrets (current conn) !! other).
  { intros other Hne. apply lookup_delete_ne. congruence. }
  destruct (secrets (current conn) !! svc) as [row|] eqn:Hrow; simpl.
  - split; [| split; [discriminate | auto]].
    intros token _. rewrite lookup_delete_eq. auto.
  - split; [discriminate |].
    split; [| auto].
    intros _. split; [reflexivity |]. apply delete_id, Hrow.
Qed.

Lemma execute_ok (inp : rotation_input) (here : fault_point)
    (stmt : connection -> connection) (conn conn' : connection) :
  execute inp here stmt conn = (Ok tt, conn') -> conn' = stmt conn.
Proof.
  unfold execute. destruct (decide (fault inp = Some here)); congruence.
Qed.

Lemma execute_raise (inp : rotation_input) (here : fault_point)
    (stmt : connection -> connection) (conn conn' : connection) (e : exn) :
  execute inp here stmt conn = (Raise e, conn') -> conn' = conn.
Proof.
  unfold execute. destruct (decide (fault inp = Some here)); congruence.
Qed.

Lemma execute_no_fault (inp : rotation_input) (here : fault_point)
    (stmt : connection -> connection) (conn : connection) :
  fault inp <> Some here -> execute inp here stmt conn = (Ok tt, stmt conn).
Proof. intros H. unfold execute. rewrite decide_False by exact H. reflexivity. Qed.

(** The first loop stops at the first row whose token is rejected. *)
Lemma collect_plain_abort (fernet_old : bytes) (rows : list (string * bytes))
    (secrets_plain : list (string * string)) :
  (exists service token,
     (service, token) ∈ rows /\ fernet_decrypt fernet_old token = None) ->
  (forall service token data,
     (service, token) ∈ rows ->
     fernet_decrypt fernet_old token = Some data ->
     is_Some (bytes_decode data)) ->
  exists service token,
    (service, token) ∈ rows /\ fernet_decrypt fernet_old token = None /\
    collect_plain fernet_old rows secrets_plain = CouldNotDecrypt service.
Proof.
  revert secrets_plain.
  induction rows as [|[service token] rows IH]; intros secrets_plain Hbad Htext.
  - destruct Hbad as (s & t & Hin & _). inversion Hin.
  - simpl. destruct (fernet_decrypt fernet_old token) as [data|] eqn:Hdec.
    + destruct (Htext service token data) as [api_key Hkey];
        [apply list_elem_of_here | assumption |].
      rewrite Hkey.
      destruct (IH (secrets_plain ++ [(service, api_key)])%list)
        as (s & t & Hin & Hnone & Hcollect).
      * destruct Hbad as (s & t & Hin & Hnone).
        apply elem_of_cons in Hin as [[= -> ->] | Hin]; [congruence |].
        eauto.
      * intros s t d Hin Hd.
        eapply Htext; [apply list_elem_of_further, Hin | exact Hd].
      * exists s, t. split; [apply list_elem_of_further; exact Hin |]. auto.
    + exists service, token. split; [apply list_elem_of_here |]. auto.
Qed.

(** With a rejected token among the rows the first loop never completes. *)
Lemma collect_plain_bad_row (fernet_old : bytes) (rows : list (string * bytes))
    (secrets_plain : list (string * string)) :
  (exists service token,
     (service, token) ∈ rows /\ fernet_decrypt fernet_old token = None) ->
  (exists service,
     collect_plain fernet_old rows secrets_plain = CouldNotDecrypt service) \/
  collect_plain fernet_old rows secrets_plain = Escaped UnicodeDecodeError.
Proof.
  revert secrets_plain.
  induction rows as [|[service token] rows IH]; intros secrets_plain Hbad.
  - destruct Hbad as (s & t & Hin & _). inversion Hin.
  - simpl. destruct (fernet_decrypt fernet_old token) as [data|] eqn:Hdec;
      [| eauto].
    destruct (bytes_decode data) as [api_key|]; [| auto].
    apply IH. destruct Hbad as (s & t & Hin & Hnone).
    apply elem_of_cons in Hin as [[= -> ->] | Hin]; [congruence | eauto].
Qed.

(** The scan returns the rows of the table, each once. *)
Lemma select_secrets_Permutation (inp : rotation_input)
    (table : gmap string bytes) :
  select_secrets inp table ≡ₚ map_to_list table.
Proof. apply merge_sort_Permutation. Qed.

Lemma elem_of_select_secrets (inp : rotation_input) (table : gmap string bytes)
    (service : string) (token : bytes) :
  (service, token) ∈ select_secrets inp table <-> table !! service = Some token.
Proof.
  rewrite select_secrets_Permutation. apply elem_of_map_to_list.
Qed.

(** The first loop completes exactly when every row decrypts to text. *)
Lemma collect_plain_Collected (fernet_old : bytes)
    (rows : list (string * bytes)) (acc : list (string * string)) :
  (exists secrets_plain,
     collect_plain fernet_old rows acc = Collected secrets_plain) <->
  Forall (fun row => exists data api_key,
            fernet_decrypt fernet_old row.2 = Some data /\
            bytes_decode data = Some api_key) rows.
Proof.
  revert acc. induction rows as [|[service token] rows IH]; intros acc; simpl.
  - split; [constructor | eauto].
  - rewrite Forall_cons. simpl.
    destruct (fernet_decrypt fernet_old token) as [data|] eqn:Hdec.
    + destruct (bytes_decode data) as [api_key|] eqn:Hkey.
      * rewrite IH.
        split; [intros H; split; [eauto | exact H] | intros [_ H]; exact H].
      * split; [intros [? H]; discriminate H |].
        intros [(data' & api_key' & Hdata & H) _]. congruence.
    + split; [intros [? H] | intros [(? & ? & H & _) _]]; discriminate H.
Qed.

Lemma collect_plain_length (fernet_old : bytes) (rows : list (string * bytes))
    (acc secrets_plain : list (string * string)) :
  collect_plain fernet_old rows acc = Collected secrets_plain ->
  length secrets_plain = (length acc + length rows)%nat.
Proof.
  revert acc. induction rows as [|[service token] rows IH]; intros acc; simpl.
  - intros [= <-]. lia.
  - destruct (fernet_decrypt fernet_old token) as [data|]; [| discriminate].
    destruct (bytes_decode data) as [api_key|]; [| discriminate].
    intros H. apply IH in H. rewrite length_app in H. simpl in H. lia.
Qed.

(** Whether the first loop completes, and with how many entries, does not
    depend on the order of the rows. *)
Lemma collect_plain_Permutation (fernet_old : bytes)
    (rows rows' : list (string * bytes)) (acc secrets_plain : list (string * string)) :
  rows ≡ₚ rows' ->
  collect_plain fernet_old rows acc = Collected secrets_plain ->
  exists secrets_plain',
    collect_plain fernet_old rows' acc = Collected secrets_plain' /\
    length secrets_plain' = length secrets_plain.
Proof.
  intros Hperm Hrows.
  destruct (proj2 (collect_plain_Collected fernet_old rows' acc))
    as [secrets_plain' Hrows'].
  { rewrite <- Hperm. apply (collect_plain_Collected fernet_old rows acc). eauto. }
  exists secrets_plain'. split; [exact Hrows' |].
  apply collect_plain_length in Hrows, Hrows'.
  rewrite Hrows, Hrows', Hperm. reflexivity.
Qed.

(** C2.  When the token of some stored credential is rejected under the
    old key, the rotation ends in its first loop and the connection, with
    every row and the metadata, is exactly as it was.  When moreover every
    token that is accepted holds utf-8 text, as the tokens the program
    stores do, the rotation reports a row it could not decrypt and returns
    the old [Fernet]. *)
Theorem change_master_password_aborts_on_bad_row (conn : connection)
    (fernet_old : bytes) (inp : rotation_input) :
  let out := change_master_password conn fernet_old inp in
  fault inp <> Some AtSelect ->
  (exists service token,
     secrets (current conn) !! service = Some token /\
     fernet_decrypt fernet_old token = None) ->
  conn_after out = conn /\
  ((forall service token data,
      secrets (current conn) !! service = Some token ->
      fernet_decrypt fernet_old token = Some data ->
      is_Some (bytes_decode data)) ->
   exists service token,
     secrets (current conn) !! service = Some token /\
     fernet_decrypt fernet_old token = None /\
     out = {| conn_after := conn;
              returned := Ok fernet_old;
              printed := [MsgCouldNotDecrypt service] |}).
Proof.
  intros out Hfault (s & t & Hrow & Hnone). subst out.
  assert (Hbad : exists service token,
            (service, token) ∈ select_secrets inp (secrets (current conn)) /\
            fernet_decrypt fernet_old token = None).
  { exists s, t. split; [apply elem_of_select_secrets; exact Hrow | exact Hnone]. }
  unfold change_master_password.
  rewrite execute_no_fault by exact Hfault.
  split.
  - destruct (collect_plain_bad_row fernet_old _ [] Hbad) as [[service ->] | ->];
      reflexivity.
  - intros Htext.
    destruct (collect_plain_abort fernet_old
                (select_secrets inp (secrets (current conn))) [] Hbad)
      as (service & token & Hin & Hreject & ->).
    + intros s' t' d Hin Hd.
      eapply Htext; [exact (proj1 (elem_of_select_secrets _ _ _ _) Hin) | exact Hd].
    + exists service, token.
      split; [exact (proj1 (elem_of_select_secrets _ _ _ _) Hin) |]. auto.
Qed.

(** The connection once the new parameters are committed. *)
Lemma write_params_ok (inp : rotation_input) (new_salt : bytes)
    (conn conn' : connection) :
  write_params inp new_salt conn = (Ok tt, conn') ->
  conn' = commit (update_meta "iterations" (str_of_int KDF_ITERATIONS)
                    (update_meta "salt" (b64encode new_salt) conn)).
Proof.
  unfold write_params.
  destruct (execute inp AtUpdateSalt _ conn) as [[[]|e1] c1] eqn:H1;
    [| discriminate].
  destruct (execute inp AtUpdateIterations _ c1) as [[[]|e2] c2] eqn:H2;
    [| discriminate].
  intros H3.
  apply execute_ok in H1, H2, H3. subst. reflexivity.
Qed.

(** The row updates touch neither the committed state nor the metadata. *)
Lemma reencrypt_rows_frame (inp : rotation_input) (fernet_new : bytes)
    (secrets_plain : list (string * string)) (n : nat)
    (conn conn' : connection) (r : result unit) :
  reencrypt_rows inp fernet_new secrets_plain n conn = (r, conn') ->
  durable conn' = durable conn /\ meta (current conn') = meta (current conn).
Proof.
  revert n conn.
  induction secrets_plain as [|[service api_key] rest IH]; intros n conn; simpl.
  - intros [= _ <-]. auto.
  - destruct (execute inp (AtUpdateRow n) _ conn) as [[[]|e] c1] eqn:Hexec.
    + intros Hrest. apply IH in Hrest as [-> ->].
      apply execute_ok in Hexec as ->. auto.
    + intros [= _ <-]. apply execute_raise in Hexec as ->. auto.
Qed.

(** A fault at one of the row updates stops the block there. *)
Lemma reencrypt_rows_fault (inp : rotation_input) (fernet_new : bytes)
    (secrets_plain : list (string * string)) (n k : nat) (conn : connection) :
  fault inp = Some (AtUpdateRow k) ->
  (n <= k < n + length secrets_plain)%nat ->
  exists conn',
    reencrypt_rows inp fernet_new secrets_plain n conn
    = (Raise OperationalError, conn').
Proof.
  intros Hfault. revert n conn.
  induction secrets_plain as [|[service api_key] rest IH]; intros n conn Hk;
    simpl in *; [lia |].
  unfold execute at 1. rewrite Hfault.
  destruct (decide (Some (AtUpdateRow k) = Some (AtUpdateRow n))) as [|Hne].
  - eauto.
  - apply IH. destruct (decide (k = n)) as [->|]; [contradiction | lia].
Qed.

(** C10.  A rotation that succeeds on a vault whose parameters can be
    read stores the fresh salt and the constant 200000 as iteration count,
    whatever count was stored before. *)
Theorem change_master_password_sets_iterations `{!PyLibLaws L}
    (conn : connection) (fernet_old : bytes) (inp : rotation_input)
    (salt0 : bytes) (iterations0 : Z) :
  let out := change_master_password conn fernet_old inp in
  get_params conn = Ok (salt0, iterations0) ->
  printed out = [MsgPasswordUpdated] ->
  meta (durable (conn_after out)) !! "iterations" = Some (str_of_int 200000) /\
  get_params (conn_after out) = Ok (urandom inp, 200000) /\
  returned out
  = derive_fernet_key (str_strip (getpass_1 inp)) (urandom inp) 200000 /\
  durable (conn_after out) = current (conn_after out).
Proof.
  intros out Hparams Hprinted. subst out.
  unfold change_master_password in *.
  destruct (execute inp AtSelect _ conn) as [[[]|e0] conn0] eqn:Hselect;
    [| discriminate].
  apply execute_ok in Hselect as ->.
  destruct (collect_plain _ _ _) as [secrets_plain | service | e];
    [| discriminate | discriminate].
  destruct (_ || _); [discriminate |].
  destruct (write_params inp (urandom inp) conn) as [[[]|e1] conn1] eqn:Hwrite;
    [| discriminate].
  apply write_params_ok in Hwrite as ->.
  change KDF_ITERATIONS with 200000 in *.
  destruct (derive_fernet_key _ _ 200000) as [new_key|e]; [| discriminate].
  destruct (reencrypt_rows _ _ _ _ _) as [r conn2] eqn:Hrows.
  apply reencrypt_rows_frame in Hrows as [Hdur Hmeta].
  unfold with_transaction in *.
  destruct r as [[]|e]; [| discriminate].
  destruct (execute inp AtCommitRows commit conn2) as [[[]|e] conn3] eqn:Hcommit;
    [| discriminate].
  apply execute_ok in Hcommit as ->. simpl.
  unfold get_params in *. simpl in *. rewrite Hmeta.
  destruct (meta (current conn) !! "salt") as [v1|] eqn:Hs; [| discriminate].
  simpl in Hparams.
  destruct (b64decode v1); [| discriminate]. simpl in Hparams.
  destruct (meta (current conn) !! "iterations") as [v2|] eqn:Hi;
    [| discriminate].
  rewrite lookup_alter_eq, lookup_alter_ne, Hi by discriminate.
  rewrite lookup_alter_ne, lookup_alter_eq, Hs by discriminate.
  simpl. rewrite b64decode_b64encode, int_of_str_of_int. auto.
Qed.

(** Without a fault at a row update, the block runs to its end. *)
Lemma reencrypt_rows_no_fault (inp : rotation_input) (fernet_new : bytes)
    (secrets_plain : list (string * string)) (n : nat) (conn : connection) :
  (forall k, fault inp <> Some (AtUpdateRow k)) ->
  exists conn',
    reencrypt_rows inp fernet_new secrets_plain n conn = (Ok tt, conn').
Proof.
  intros Hfault. revert n conn.
  induction secrets_plain as [|[service api_key] rest IH]; intros n conn; simpl.
  - eauto.
  - rewrite execute_no_fault by apply Hfault. apply IH.
Qed.

(** The [with conn:] block of a rotation ends in an error when the
    storage fails at a row update or at the commit of the rows. *)
Lemma with_transaction_fault (inp : rotation_input) (fernet_new : bytes)
    (secrets_plain : list (string * string)) (conn : connection) :
  (exists k, fault inp = Some (AtUpdateRow k) /\
             (k < length secrets_plain)%nat) \/
  fault inp = Some AtCommitRows ->
  with_transaction inp (reencrypt_rows inp fernet_new secrets_plain 0 conn)
  = (Raise OperationalError, rollback conn).
Proof.
  intros [(k & Hfault & Hk) | Hfault].
  - destruct (reencrypt_rows_fault inp fernet_new secrets_plain 0 k conn Hfault)
      as [conn' Hfail]; [lia |].
    rewrite Hfail. apply reencrypt_rows_frame in Hfail as [Hdur _].
    unfold with_transaction, rollback. rewrite Hdur. reflexivity.
  - destruct (reencrypt_rows_no_fault inp fernet_new secrets_plain 0 conn)
      as [conn' Hrun]; [intros k; rewrite Hfault; discriminate |].
    rewrite Hrun. apply reencrypt_rows_frame in Hrun as [Hdur _].
    unfold with_transaction, execute. rewrite decide_True by exact Hfault.
    unfold rollback. rewrite Hdur. reflexivity.
Qed.

(** C1, where the code departs from it.  When the storage raises at one
    of the row updates of a rotation, or at the commit that ends them, the
    rows all decrypting and the new password being accepted, the rotation
    returns the old [Fernet] with every row as before, but the new salt
    and iteration count are already committed. *)
Theorem change_master_password_write_failure `{!PyLibLaws L}
    (conn : connection) (fernet_old : bytes) (inp : rotation_input)
    (secrets_plain : list (string * string)) :
  let out := change_master_password conn fernet_old inp in
  collect_plain fernet_old (map_to_list (secrets (current conn))) []
    = Collected secrets_plain ->
  str_strip (getpass_1 inp) <> "" ->
  str_strip (getpass_1 inp) = str_strip (getpass_2 inp) ->
  length (urandom inp) = SALT_BYTES ->
  (exists k, fault inp = Some (AtUpdateRow k) /\
             (k < length secrets_plain)%nat) \/
  fault inp = Some AtCommitRows ->
  returned out = Ok fernet_old /\
  printed out = [MsgReencryptError OperationalError] /\
  secrets (durable (conn_after out)) = secrets (current conn) /\
  meta (durable (conn_after out))
  = alter (fun _ => str_of_int KDF_ITERATIONS) "iterations"
      (alter (fun _ => b64encode (urandom inp)) "salt" (meta (current conn))) /\
  current (conn_after out) = durable (conn_after out).
Proof.
  intros out Hrows Hpw1 Hpw2 Hsalt Hfault. subst out.
  assert (Hearly : forall here,
            here = AtSelect \/ here = AtUpdateSalt \/
            here = AtUpdateIterations \/ here = AtCommitMeta ->
            fault inp <> Some here).
  { intros here Hhere.
    destruct Hfault as [(k & -> & _) | ->];
      destruct Hhere as [-> | [-> | [-> | ->]]]; discriminate. }
  destruct (collect_plain_Permutation fernet_old
              (map_to_list (secrets (current conn)))
              (select_secrets inp (secrets (current conn))) [] secrets_plain)
    as (scanned & Hscan & Hlength);
    [symmetry; apply select_secrets_Permutation | exact Hrows |].
  rewrite <- Hlength in Hfault.
  unfold change_master_password.
  rewrite execute_no_fault by (apply Hearly; auto).
  rewrite Hscan, <- Hpw2.
  destruct (String.eqb_spec (str_strip (getpass_1 inp)) "") as [|_];
    [contradiction |].
  rewrite String.eqb_refl. simpl.
  unfold write_params.
  rewrite !execute_no_fault by (apply Hearly; auto).
  assert (Hlen : (8 <= length (urandom inp))%nat)
    by (rewrite Hsalt; unfold SALT_BYTES; lia).
  destruct (DocumentFacts.derive_fernet_key_ok (str_strip (getpass_1 inp))
              (urandom inp) KDF_ITERATIONS Hpw1 Hlen eq_refl) as [new_key Hkey].
  unfold derive_fernet_key. rewrite Hkey.
  rewrite with_transaction_fault by exact Hfault.
  simpl. auto.
Qed.

End Facts.
End TabularFacts.

(** ** The theorems on concrete vaults *)

Module ExampleFacts.
Import Reference ReferenceFacts Examples.

Lemma derive_fernet_key_invalid_input_witness :
  ((exists msg,
      Document.derive_fernet_key "hunter2" salt16 200000 = Raise (ValueError msg))
   <-> "hunter2" = "" \/ (length salt16 < 8)%nat) /\
  ("hunter2" <> "" -> (8 <= length salt16)%nat ->
   exists key, Document.derive_fernet_key "hunter2" salt16 200000 = Ok key).
Proof.
  apply (DocumentFacts.derive_fernet_key_invalid_input (L := lib)).
  lia.
Defined.

(** The key of hunter2 is the same in a world without a vault file and
    in one with a file, other entropy and a used console. *)
Lemma derive_fernet_key_pure_witness :
  let call1 :=
    Effects.derive_fernet_key "hunter2" salt16 200000 EffectExamples.world_new in
  let call2 :=
    Effects.derive_fernet_key "hunter2" salt16 200000 EffectExamples.world_b in
  call1.1 = call2.1 /\
  call1.2 = EffectExamples.world_new /\ call2.2 = EffectExamples.world_b.
Proof.
  apply (EffectFacts.derive_fernet_key_pure (L := lib)).
Defined.

Lemma decrypt_encrypt_vault_dict_witness :
  exists doc,
    Document.encrypt_vault_dict vault1 "hunter2" salt16 200000 iv = Ok doc /\
    Document.decrypt_vault_dict doc "hunter2" = Ok (vault_json vault1).
Proof.
  apply (DocumentFacts.decrypt_encrypt_vault_dict (L := lib)).
  - discriminate.
  - vm_compute. lia.
  - lia.
Defined.

Lemma save_vault_keeps_kdf_parameters_witness :
  let fs := Some fresh_content in
  let out := Document.save_vault vault1 "hunter2" fs iv in
  Document.stored_params fs = Ok (salt16, 200000) /\
  Document.derive_fernet_key "hunter2" salt16 200000
  = Ok (key_of "hunter2" salt16) /\
  out.1 = Ok tt /\
  Document.stored_params out.2 = Ok (salt16, 200000) /\
  Document.stored_ciphertext out.2
  = Ok (fernet_encrypt (key_of "hunter2" salt16) iv
          (str_encode (json_dumps (vault_json vault1)))) /\
  Document.stored_ciphertext out.2 <> Document.stored_ciphertext fs /\
  Document.open_existing out.2 "hunter2" = Ok (vault_json vault1).
Proof.
  intros fs out.
  assert (Hparams : Document.stored_params fs = Ok (salt16, 200000))
    by (vm_compute; reflexivity).
  assert (Hkey : Document.derive_fernet_key "hunter2" salt16 200000
                 = Ok (key_of "hunter2" salt16))
    by (vm_compute; reflexivity).
  destruct (DocumentFacts.save_vault_keeps_kdf_parameters (L := lib)
              vault1 "hunter2" fresh_content iv)
    as (Hkeep & _ & Hwrite & _).
  destruct (Hwrite salt16 200000 (key_of "hunter2" salt16) Hparams Hkey)
    as (Hok & Htoken & Hopen).
  split; [exact Hparams |]. split; [exact Hkey |]. split; [exact Hok |].
  split; [exact (eq_trans Hkeep Hparams) |].
  split; [exact Htoken |].
  split; [| exact Hopen].
  vm_compute. discriminate.
Defined.

Lemma record_shape_invariant_witness :
  Document.file_shape (Document.run_operations None session).
Proof.
  apply (DocumentFacts.record_shape_invariant (L := lib) session None).
  exact I.
Defined.

(** C6 as stated fails on [foreign_file]: the record is read, the salt
    has 16 bytes and the token is accepted under the password hunter2, yet
    the open fails with [MalformedVault], the payload not being JSON. *)
Lemma load_malformed_payload_counterexample :
  ~ ((exists cause,
        (Document.load_or_init_vault "hunter2" (Some foreign_content) [] []).1
        = Raise (MalformedVault cause))
     <-> (exists cause,
            Document.record_fields (Some foreign_content) = Raise cause)).
Proof.
  intros [Hmalformed _].
  destruct Hmalformed as [cause Hcause].
  - exists JSONDecodeError. vm_compute. reflexivity.
  - vm_compute in Hcause. discriminate Hcause.
Qed.

Lemma load_existing_failure_kinds_witness :
  let fs := Some fresh_content in
  let r := (Document.load_or_init_vault "wrong" fs [] []).1 in
  (r = Raise WrongPasswordOrCorrupted <->
   exists salt iterations token key,
     Document.record_fields fs = Ok (salt, iterations, token) /\
     Document.derive_fernet_key "wrong" salt iterations = Ok key /\
     fernet_decrypt key token = None) /\
  ((exists cause, r = Raise (MalformedVault cause)) <->
   (exists cause, Document.record_fields fs = Raise cause) \/
   (exists salt iterations token,
      Document.record_fields fs = Ok (salt, iterations, token) /\
      ((length salt < 8)%nat \/
       exists key plaintext cause,
         Document.derive_fernet_key "wrong" salt iterations = Ok key /\
         fernet_decrypt key token = Some plaintext /\
         Document.decode_payload plaintext = Raise cause))) /\
  (forall cause, WrongPasswordOrCorrupted <> MalformedVault cause).
Proof.
  apply (DocumentFacts.load_existing_failure_kinds (L := lib)
           "wrong" fresh_content [] []).
  - discriminate.
  - vm_compute. discriminate.
  - intros salt iterations Hparams. vm_compute in Hparams.
    injection Hparams as _ <-. reflexivity.
Defined.

Lemma main_delete_removes_row_witness :
  let svc := str_strip "github" in
  let out := Tabular.main_delete conn0 "github" true in
  (forall token, Tabular.secrets (Tabular.current conn0) !! svc = Some token ->
     out.2 = Tabular.MsgDeleted /\
     Tabular.secrets (Tabular.current out.1) !! svc = None /\
     Tabular.secrets (Tabular.durable out.1) !! svc = None /\
     Tabular.main_retrieve out.1 old_key "github" = Ok Tabular.MsgNotFoundUpper) /\
  (Tabular.secrets (Tabular.current conn0) !! svc = None ->
     out.2 = Tabular.MsgNotFound /\
     Tabular.secrets (Tabular.current out.1)
     = Tabular.secrets (Tabular.current conn0)) /\
  (forall other, other <> svc ->
     Tabular.secrets (Tabular.current out.1) !! other
     = Tabular.secrets (Tabular.current conn0) !! other) /\
  Tabular.meta (Tabular.current out.1) = Tabular.meta (Tabular.current conn0) /\
  Tabular.durable out.1 = Tabular.current out.1.
Proof.
  apply (TabularFacts.main_delete_removes_row (L := lib) conn0 old_key "github").
  vm_compute. discriminate.
Defined.

Lemma change_master_password_aborts_on_bad_row_witness :
  let out := Tabular.change_master_password conn_bad old_key (rotation None) in
  Tabular.conn_after out = conn_bad /\
  ((forall service token data,
      Tabular.secrets (Tabular.current conn_bad) !! service = Some token ->
      fernet_decrypt old_key token = Some data ->
      is_Some (bytes_decode data)) ->
   exists service token,
     Tabular.secrets (Tabular.current conn_bad) !! service = Some token /\
     fernet_decrypt old_key token = None /\
     out = {| Tabular.conn_after := conn_bad;
              Tabular.returned := Ok old_key;
              Tabular.printed := [Tabular.MsgCouldNotDecrypt service] |}).
Proof.
  apply (TabularFacts.change_master_password_aborts_on_bad_row (L := lib)).
  - discriminate.
  - exists "aws", (list_byte_of_string "garbage").
    split; vm_compute; reflexivity.
Defined.

(** The rotation of [conn_legacy], which stores 1000 iterations, leaves
    200000. *)
Lemma change_master_password_sets_iterations_witness :
  let out :=
    Tabular.change_master_password conn_legacy legacy_key (rotation None) in
  (Tabular.meta (Tabular.durable conn_legacy) !! "iterations" = Some "1000" /\
   Tabular.get_params conn_legacy = Ok (salt16, 1000) /\
   Tabular.printed out = [Tabular.MsgPasswordUpdated]) /\
  Tabular.meta (Tabular.durable (Tabular.conn_after out)) !! "iterations"
  = Some (str_of_int 200000) /\
  Tabular.get_params (Tabular.conn_after out) = Ok (salt_new, 200000) /\
  Tabular.returned out
  = Tabular.derive_fernet_key (str_strip "new") salt_new 200000 /\
  Tabular.durable (Tabular.conn_after out)
  = Tabular.current (Tabular.conn_after out).
Proof.
  intros out.
  assert (Hparams : Tabular.get_params conn_legacy = Ok (salt16, 1000))
    by (vm_compute; reflexivity).
  assert (Hprinted : Tabular.printed out = [Tabular.MsgPasswordUpdated])
    by (vm_compute; reflexivity).
  split.
  - split; [vm_compute; reflexivity |]. split; [exact Hparams | exact Hprinted].
  - exact (TabularFacts.change_master_password_sets_iterations (L := lib)
             conn_legacy legacy_key (rotation None) salt16 1000
             Hparams Hprinted).
Defined.

Lemma change_master_password_write_failure_witness :
  Tabular.returned failed_rotation = Ok old_key /\
  Tabular.printed failed_rotation
  = [Tabular.MsgReencryptError OperationalError] /\
  Tabular.secrets (Tabular.durable (Tabular.conn_after failed_rotation))
  = Tabular.secrets (Tabular.current conn0) /\
  Tabular.meta (Tabular.durable (Tabular.conn_after failed_rotation))
  = alter (fun _ => str_of_int Tabular.KDF_ITERATIONS) "iterations"
      (alter (fun _ => b64encode salt_new) "salt"
         (Tabular.meta (Tabular.current conn0))) /\
  Tabular.current (Tabular.conn_after failed_rotation)
  = Tabular.durable (Tabular.conn_after failed_rotation).
Proof.
  apply (TabularFacts.change_master_password_write_failure (L := lib)
           conn0 old_key (rotation (Some (Tabular.AtUpdateRow 0)))
           [("github", "ghp_abc123")]).
  - vm_compute. reflexivity.
  - vm_compute. discriminate.
  - vm_compute. reflexivity.
  - vm_compute. reflexivity.
  - left. exists 0%nat. split; [reflexivity | vm_compute; lia].
Defined.

(** After the failed rotation the vault is not as it was: the stored salt
    is the new one while the row still holds the token of the old key. *)
Example failed_rotation_changes_vault :
  Tabular.durable (Tabular.conn_after failed_rotation) <> Tabular.durable conn0 /\
  Tabular.meta (Tabular.durable (Tabular.conn_after failed_rotation)) !! "salt"
  = Some (text_of_bytes salt_new) /\
  Tabular.secrets (Tabular.durable (Tabular.conn_after failed_rotation))
  = Tabular.secrets (Tabular.durable conn0).
Proof.
  split; [| split; vm_compute; reflexivity].
  intros H. apply (f_equal (fun d => Tabular.meta d !! "salt")) in H.
  vm_compute in H. discriminate H.
Qed.

(** On the next start the key comes from the stored parameters: neither
    the old nor the new password then opens the row. *)
Example failed_rotation_locks_vault :
  Tabular.get_params (Tabular.conn_after failed_rotation) = Ok (salt_new, 200000) /\
  Tabular.main_retrieve (Tabular.conn_after failed_rotation)
    (key_of "old" salt_new) "github" = Ok Tabular.MsgWrongPassword /\
  Tabular.main_retrieve (Tabular.conn_after failed_rotation)
    (key_of "new" salt_new) "github" = Ok Tabular.MsgWrongPassword /\
  Tabular.main_retrieve conn0 (key_of "old" salt16) "github"
  = Ok (Tabular.MsgApiKey "ghp_abc123").
Proof. repeat split; vm_compute; reflexivity. Qed.

End ExampleFacts.

(** ** The document form: sessions *)

Module DocumentSessionFacts.
Import Document DocumentMain DocumentFacts.

Section Facts.
Context {L : PyLib}.

#[local] Arguments new_vault_doc : simpl never.
#[local] Arguments vault_json : simpl never.
#[local] Arguments derive_fernet_key : simpl never.
#[local] Arguments write_vault_doc : simpl never.
#[local] Arguments read_vault_doc : simpl never.
#[local] Arguments get_salt_and_iterations : simpl never.
#[local] Arguments decrypt_vault_dict : simpl never.

Lemma encrypt_vault_dict_key (vault : gmap string string) (password : string)
    (salt : bytes) (iterations : Z) (entropy key : bytes) :
  derive_fernet_key password salt iterations = Ok key ->
  encrypt_vault_dict vault password salt iterations entropy
  = Ok (sealed_doc vault key salt iterations entropy).
Proof. intros Hkey. unfold encrypt_vault_dict. rewrite Hkey. reflexivity. Qed.

Lemma open_existing_sealed `{!PyLibLaws L} (vault : gmap string string)
    (password : string) (salt : bytes) (iterations : Z) (entropy key : bytes) :
  derive_fernet_key password salt iterations = Ok key ->
  open_existing (write_vault_doc (sealed_doc vault key salt iterations entropy))
    password
  = Ok (vault_json vault).
Proof.
  intros Hkey. unfold open_existing, sealed_doc.
  rewrite read_write_vault_doc.
  change (decrypt_vault_dict
            (new_vault_doc
               (fernet_encrypt key entropy
                  (str_encode (json_dumps (vault_json vault))))
               salt iterations) password = Ok (vault_json vault)).
  rewrite decrypt_new_vault_doc, Hkey. simpl.
  rewrite fernet_decrypt_encrypt. simpl.
  rewrite decode_encode. simpl.
  unfold vault_json. rewrite json_loads_dumps by apply vault_json_flat.
  reflexivity.
Qed.

Lemma stored_params_sealed `{!PyLibLaws L} (vault : gmap string string)
    (key salt : bytes) (iterations : Z) (entropy : bytes) :
  stored_params (write_vault_doc (sealed_doc vault key salt iterations entropy))
  = Ok (salt, iterations).
Proof.
  unfold stored_params, sealed_doc. rewrite read_write_vault_doc.
  exact (get_salt_and_iterations_new_vault_doc _ salt iterations).
Qed.

(** What a successful open of an existing file has read on its way. *)
Lemma open_existing_ok_inv (fs : filesystem) (password : string) (vault : json) :
  open_existing fs password = Ok vault ->
  exists content salt iterations key,
    fs = Some content /\
    stored_params fs = Ok (salt, iterations) /\
    derive_fernet_key password salt iterations = Ok key.
Proof.
  unfold open_existing, stored_params, decrypt_vault_dict.
  destruct fs as [content|]; [| discriminate].
  destruct (read_vault_doc (Some content)) as [doc|]; simpl; [| discriminate].
  destruct (get_salt_and_iterations doc) as [[salt iterations]|]; simpl;
    [| discriminate].
  destruct (derive_fernet_key password salt iterations) as [key|] eqn:Hkey;
    simpl; [| discriminate].
  intros _. exists content, salt, iterations, key. auto.
Qed.

Lemma load_of_open_existing (fs : filesystem) (password : string)
    (urandom entropy : bytes) (vault : json) :
  open_existing fs password = Ok vault ->
  load_or_init_vault password fs urandom entropy = (Ok vault, fs).
Proof.
  intros Hopen.
  destruct (open_existing_ok_inv fs password vault Hopen) as (c & _ & _ & _ & -> & _).
  unfold load_or_init_vault. rewrite Hopen. reflexivity.
Qed.

(** [save_vault] in a session whose file opened under the password. *)
Lemma save_vault_in_session `{!PyLibLaws L} (vault : gmap string string)
    (password : string) (fs : filesystem) (entropy : bytes) (opened : json) :
  open_existing fs password = Ok opened ->
  exists fs',
    save_vault vault password fs entropy = (Ok tt, fs') /\
    open_existing fs' password = Ok (vault_json vault) /\
    stored_params fs' = stored_params fs.
Proof.
  intros Hopen.
  destruct (open_existing_ok_inv fs password opened Hopen)
    as (content & salt & iterations & key & -> & Hparams & Hkey).
  exists (write_vault_doc (sealed_doc vault key salt iterations entropy)).
  split; [| split].
  - unfold save_vault. unfold stored_params in Hparams.
    destruct (read_vault_doc (Some content)) as [doc|]; simpl in *;
      [| discriminate].
    rewrite Hparams. simpl.
    rewrite (encrypt_vault_dict_key _ _ _ _ _ key Hkey). reflexivity.
  - apply open_existing_sealed, Hkey.
  - rewrite stored_params_sealed. symmetry. exact Hparams.
Qed.

(** X1.  A first open with a non-empty password creates the vault file
    and returns the empty dictionary; the file holds the fresh salt and
    200000 iterations, and a later open with the same password returns
    the empty dictionary again and leaves the file as it is. *)
Theorem first_open_then_reopen `{!PyLibLaws L} (password : string)
    (urandom entropy urandom' entropy' : bytes) :
  let out := load_or_init_vault password None urandom entropy in
  password <> "" ->
  length urandom = SALT_BYTES ->
  out.1 = Ok (vault_json ∅) /\
  is_Some out.2 /\
  stored_params out.2 = Ok (urandom, KDF_ITERATIONS) /\
  load_or_init_vault password out.2 urandom' entropy' = (Ok (vault_json ∅), out.2).
Proof.
  intros out Hpw Hlen. subst out.
  assert (Hsalt : (8 <= length urandom)%nat)
    by (rewrite Hlen; unfold SALT_BYTES; lia).
  destruct (derive_fernet_key_ok password urandom KDF_ITERATIONS Hpw Hsalt eq_refl)
    as [key Hkey].
  assert (Hout : load_or_init_vault password None urandom entropy
                 = (Ok (vault_json ∅),
                    write_vault_doc
                      (sealed_doc ∅ key urandom KDF_ITERATIONS entropy))).
  { unfold load_or_init_vault.
    rewrite (encrypt_vault_dict_key _ _ _ _ _ key Hkey). reflexivity. }
  rewrite Hout. cbn [fst snd].
  split; [reflexivity |]. split; [unfold write_vault_doc; eauto |].
  split; [apply stored_params_sealed |].
  apply load_of_open_existing, open_existing_sealed, Hkey.
Qed.

(** X2.  A first open creates the vault file exactly when the password
    is not empty: with an empty password it raises the [ValueError] of
    the key derivation and no file is written. *)
Theorem first_open_creates_file_iff `{!PyLibLaws L} (password : string)
    (urandom entropy : bytes) :
  let out := load_or_init_vault password None urandom entropy in
  length urandom = SALT_BYTES ->
  (is_Some out.2 <-> password <> "") /\
  (password = "" ->
   out = (Raise (ValueError "Password must be a non-empty string."), None)).
Proof.
  intros out Hlen. subst out.
  destruct (decide (password = "")) as [-> | Hpw].
  - split; [| reflexivity]. split; [| contradiction].
    intros H. apply is_Some_None in H. contradiction.
  - split; [| contradiction]. split; [intros _; exact Hpw |]. intros _.
    assert (Hsalt : (8 <= length urandom)%nat)
      by (rewrite Hlen; unfold SALT_BYTES; lia).
    destruct (derive_fernet_key_ok password urandom KDF_ITERATIONS Hpw Hsalt
                eq_refl) as [key Hkey].
    unfold load_or_init_vault.
    rewrite (encrypt_vault_dict_key _ _ _ _ _ key Hkey). simpl.
    unfold write_vault_doc. eauto.
Qed.

(** X3.  In a session whose file opened under the password, [save_vault]
    succeeds for every dictionary, and the file it writes opens under the
    same password to that dictionary, with the salt and iteration count
    it had. *)
Theorem save_then_load `{!PyLibLaws L} (vault : gmap string string)
    (password : string) (fs : filesystem) (entropy urandom' entropy' : bytes)
    (opened : json) :
  let out := save_vault vault password fs entropy in
  (load_or_init_vault password fs urandom' entropy').1 = Ok opened ->
  is_Some fs ->
  out.1 = Ok tt /\
  load_or_init_vault password out.2 urandom' entropy'
  = (Ok (vault_json vault), out.2) /\
  stored_params out.2 = stored_params fs.
Proof.
  intros out Hload [content ->]. subst out.
  assert (Hopen : open_existing (Some content) password = Ok opened).
  { unfold load_or_init_vault in Hload.
    destruct (open_existing (Some content) password); simpl in Hload;
      [exact Hload | discriminate]. }
  destruct (save_vault_in_session vault password _ entropy opened Hopen)
    as (fs' & -> & Hopen' & Hparams).
  simpl. split; [reflexivity |]. split; [| exact Hparams].
  apply load_of_open_existing, Hopen'.
Qed.

(** X4.  In a session whose file opened under the password to the
    dictionary in memory, no round of the menu fails, and after any
    number of rounds the file opens under the password to the dictionary
    then in memory: the entries stored so far, the last value winning,
    with the salt and iteration count unchanged. *)
Theorem main_loop_keeps_file_in_step `{!PyLibLaws L}
    (vault : gmap string string) (password : string) (fs : filesystem)
    (events : list event) :
  open_existing fs password = Ok (vault_json vault) ->
  exists fs',
    main_loop vault password fs events
    = (Ok (foldl store_event vault events), fs') /\
    open_existing fs' password = Ok (vault_json (foldl store_event vault events)) /\
    stored_params fs' = stored_params fs.
Proof.
  revert vault fs.
  induction events as [|ev events IH]; intros vault fs Hopen; simpl.
  - exists fs. auto.
  - destruct ev as [input getpass entropy | input |]; simpl.
    + unfold main_store.
      destruct (str_strip input =? "")%string.
      * apply IH, Hopen.
      * destruct (save_vault_in_session
                    (<[str_strip input := str_strip getpass]> vault)
                    password fs entropy _ Hopen)
          as (fs1 & -> & Hopen1 & Hparams1).
        destruct (IH _ fs1 Hopen1) as (fs' & Hloop & Hopen' & Hparams').
        exists fs'. rewrite Hloop. split; [reflexivity |].
        split; [exact Hopen' | congruence].
    + apply IH, Hopen.
    + apply IH, Hopen.
Qed.

End Facts.
End DocumentSessionFacts.

(** ** The document form: what an open reports, and the listing *)

Module DocumentEdgeFacts.
Import Document DocumentMain DocumentFacts.

Section Facts.
Context {L : PyLib}.

#[local] Arguments derive_fernet_key : simpl never.
#[local] Arguments read_vault_doc : simpl never.

(** X5.  An open of an existing vault with the empty password is reported
    as a malformed vault file: whenever the salt and iteration count of
    the record can be read, the [ValueError] of the key derivation is
    caught by the clause meant for the file and raised again under that
    heading, whatever the record otherwise holds. *)
Theorem load_existing_empty_password (content urandom entropy salt : bytes)
    (iterations : Z) :
  stored_params (Some content) = Ok (salt, iterations) ->
  load_or_init_vault "" (Some content) urandom entropy
  = (Raise (MalformedVault (ValueError "Password must be a non-empty string.")),
     Some content).
Proof.
  unfold stored_params, load_or_init_vault, open_existing, decrypt_vault_dict.
  destruct (read_vault_doc (Some content)) as [doc|]; simpl; [| discriminate].
  intros ->. reflexivity.
Qed.

(** X6.  A vault file whose JSON text is not an object (a list, a string,
    a number, null) makes the open end in a [TypeError], which neither of
    the two [except] clauses catches: the failure is reported neither as
    a wrong password nor as a malformed vault. *)
Theorem load_existing_not_an_object (password : string)
    (content urandom entropy : bytes) (doc : json) :
  read_vault_doc (Some content) = Ok doc ->
  (forall m, doc <> JDict m) ->
  load_or_init_vault password (Some content) urandom entropy
  = (Raise TypeError, Some content).
Proof.
  intros Hread Hdoc.
  unfold load_or_init_vault, open_existing, decrypt_vault_dict,
    get_salt_and_iterations.
  rewrite Hread. simpl.
  destruct doc; try reflexivity. destruct (Hdoc m eq_refl).
Qed.

(** X7.  A record that is an object without a salt, or with a salt and
    without an iteration count, is reported as a malformed vault with the
    [KeyError] of the missing member, for every password, the empty one
    included: the members are read before the password is looked at. *)
Theorem load_existing_missing_member (password : string)
    (content urandom entropy : bytes) (m : gmap string json) :
  read_vault_doc (Some content) = Ok (JDict m) ->
  (m !! "salt" = None ->
   load_or_init_vault password (Some content) urandom entropy
   = (Raise (MalformedVault (KeyError "salt")), Some content)) /\
  (forall s salt,
     m !! "salt" = Some (JStr s) -> b64decode s = Some salt ->
     m !! "iterations" = None ->
     load_or_init_vault password (Some content) urandom entropy
     = (Raise (MalformedVault (KeyError "iterations")), Some content)).
Proof.
  intros Hread.
  unfold load_or_init_vault, open_existing, decrypt_vault_dict,
    get_salt_and_iterations.
  rewrite Hread. simpl. split.
  - intros ->. reflexivity.
  - intros s salt -> Hsalt ->. simpl. rewrite Hsalt. reflexivity.
Qed.

(** X8.  [decrypt_vault_dict] reads the members salt, iterations and
    ciphertext and no other: setting any other member of the record, the
    version tag and the KDF name among them, to any value changes
    nothing in its result. *)
Theorem decrypt_vault_dict_ignores_other_members (m : gmap string json)
    (key : string) (value : json) (password : string) :
  key <> "salt" -> key <> "iterations" -> key <> "ciphertext" ->
  decrypt_vault_dict (JDict (<[key := value]> m)) password
  = decrypt_vault_dict (JDict m) password.
Proof.
  intros Hs Hi Hc.
  unfold decrypt_vault_dict, get_salt_and_iterations, getitem.
  rewrite !lookup_insert_ne by assumption. reflexivity.
Qed.

End Facts.
End DocumentEdgeFacts.

(** ** Listings *)

Module ListingFacts.
Import Listing.

Section Facts.
Context {L : PyLib}.

#[global] Instance text_le_total : Total text_le.
Proof. intros s1 s2. unfold text_le. apply String.le_total. Qed.

#[global] Instance text_le_trans : Transitive text_le.
Proof.
  intros s1 s2 s3. unfold text_le. intros H12 H23.
  exact (transitivity (R := String.le) H12 H23).
Qed.

Lemma str_encode_inj `{!PyLibLaws L} (s1 s2 : string) :
  str_encode s1 = str_encode s2 -> s1 = s2.
Proof.
  intros H. apply (f_equal bytes_decode) in H.
  rewrite !decode_encode in H. congruence.
Qed.

#[global] Instance text_le_antisymm `{!PyLibLaws L} : AntiSymm (=) text_le.
Proof.
  intros s1 s2 H12 H21. unfold text_le in *.
  pose proof (anti_symm String.le _ _ H12 H21) as H.
  apply (f_equal list_byte_of_string) in H.
  rewrite !list_byte_of_string_of_list_byte in H.
  apply str_encode_inj, H.
Qed.

(** The sorted keys of a map: in ascending order, each key once. *)
Lemma sorted_names_spec {A : Type} (m : gmap string A) :
  StronglySorted text_le (sorted_names m) /\
  NoDup (sorted_names m) /\
  (forall s, s ∈ sorted_names m <-> is_Some (m !! s)).
Proof.
  unfold sorted_names.
  pose proof (merge_sort_Permutation text_le (map_to_list m).*1) as Hperm.
  split; [apply StronglySorted_merge_sort; apply _ |]. split.
  - rewrite Hperm. apply NoDup_fst_map_to_list.
  - intros s. rewrite Hperm, list_elem_of_fmap. split.
    + intros ([k v] & -> & Hin). apply elem_of_map_to_list in Hin. eauto.
    + intros [v Hv]. exists (s, v). split; [reflexivity |].
      apply elem_of_map_to_list, Hv.
Qed.

Lemma sorted_names_nil {A : Type} (m : gmap string A) :
  sorted_names m = [] <-> m = ∅.
Proof.
  unfold sorted_names. split.
  - intros H.
    pose proof (merge_sort_Permutation text_le (map_to_list m).*1) as Hperm.
    rewrite H in Hperm. apply Permutation_nil_l in Hperm.
    symmetry in Hperm. apply fmap_nil_inv in Hperm. apply map_to_list_empty_iff, Hperm.
  - intros ->. rewrite map_to_list_empty. reflexivity.
Qed.

(** Any listing of the keys in ascending order, each key once, is that
    list: the result does not depend on how the sorting is done. *)
Lemma sorted_names_unique `{!PyLibLaws L} {A : Type} (m : gmap string A)
    (names : list string) :
  Sorted text_le names -> NoDup names ->
  (forall s, s ∈ names <-> is_Some (m !! s)) ->
  names = sorted_names m.
Proof.
  intros Hsorted Hnodup Helem.
  destruct (sorted_names_spec m) as (Hs & Hn & He).
  apply (Sorted_unique text_le); [exact Hsorted | | ].
  - apply StronglySorted_Sorted, Hs.
  - apply NoDup_Permutation; [assumption | assumption |].
    intros s. rewrite Helem, He. reflexivity.
Qed.

End Facts.
End ListingFacts.

Module DocumentListFacts.
Import Document DocumentMain Listing ListingFacts.

Section Facts.
Context {L : PyLib}.

(** X9.  Option 3 of the document form prints the notice exactly when the
    dictionary is empty; otherwise it prints the names in ascending
    order, each name once, and a name is printed exactly when the
    dictionary holds it. *)
Theorem main_list_sorted_names (vault : gmap string string) :
  (main_list vault = OutNoServices <-> vault = ∅) /\
  (vault <> ∅ ->
   exists names,
     main_list vault = OutServices names /\
     StronglySorted text_le names /\
     NoDup names /\
     (forall s, s ∈ names <-> is_Some (vault !! s))).
Proof.
  unfold main_list. destruct (decide (vault = ∅)) as [Hempty | Hne].
  - split; [tauto | contradiction].
  - split; [split; [discriminate | contradiction] |].
    intros _. exists (sorted_names vault).
    split; [reflexivity |]. apply sorted_names_spec.
Qed.

End Facts.
End DocumentListFacts.

(** ** The tabular form: start of a session, rows and listing *)

Module TabularSessionFacts.
Import Tabular TabularMain TabularFacts Listing ListingFacts.

Section Facts.
Context {L : PyLib}.

#[local] Arguments derive_fernet_key : simpl never.
#[local] Arguments Document.derive_fernet_key : simpl never.

Lemma open_db_fresh (urandom : bytes) :
  let conn := open_db None urandom in
  durable conn = current conn /\
  secrets (current conn) = ∅ /\
  meta (current conn) !! "salt" = Some (b64encode urandom) /\
  meta (current conn) !! "iterations" = Some (str_of_int KDF_ITERATIONS).
Proof.
  simpl. split; [reflexivity |]. split; [reflexivity |].
  split; [| apply lookup_insert_eq].
  rewrite lookup_insert_ne by discriminate. apply lookup_insert_eq.
Qed.

Lemma get_params_of_meta `{!PyLibLaws L} (conn : connection) (salt : bytes)
    (iterations : Z) :
  meta (current conn) !! "salt" = Some (b64encode salt) ->
  meta (current conn) !! "iterations" = Some (str_of_int iterations) ->
  get_params conn = Ok (salt, iterations).
Proof.
  intros Hs Hi. unfold get_params. rewrite Hs, Hi. simpl.
  rewrite b64decode_b64encode. simpl. rewrite int_of_str_of_int. reflexivity.
Qed.

(** X10.  The first start, on a database file that does not exist, with
    a non-empty master password: the file is created with the fresh salt
    and the iteration count 200000 and no secret, nothing is left
    uncommitted, and the session key is the key of the password under
    those parameters. *)
Theorem main_start_creates_database `{!PyLibLaws L} (master_password : string)
    (urandom : bytes) :
  let out := main_start None master_password urandom in
  master_password <> "" ->
  length urandom = SALT_BYTES ->
  (exists key,
     out.2 = Ok key /\
     derive_fernet_key master_password urandom 200000 = Ok key) /\
  get_params out.1 = Ok (urandom, 200000) /\
  secrets (durable out.1) = ∅ /\
  durable out.1 = current out.1.
Proof.
  intros out Hpw Hlen. subst out. unfold main_start.
  destruct (open_db_fresh urandom) as (Hdur & Hsec & Hs & Hi).
  cbn [fst snd].
  rewrite (get_params_of_meta _ urandom KDF_ITERATIONS Hs Hi).
  assert (Hsalt : (8 <= length urandom)%nat)
    by (rewrite Hlen; unfold SALT_BYTES; lia).
  destruct (DocumentFacts.derive_fernet_key_ok master_password urandom
              KDF_ITERATIONS Hpw Hsalt eq_refl) as [key Hkey].
  split; [| split; [reflexivity | split; [rewrite Hdur; exact Hsec | exact Hdur]]].
  exists key. split; exact Hkey.
Qed.

(** X11.  The first start with an empty master password ends in the
    [ValueError] of the key derivation, but only after [open_db] has
    created the database and committed its salt and iteration count. *)
Theorem main_start_empty_password_leaves_database `{!PyLibLaws L}
    (urandom : bytes) :
  let out := main_start None "" urandom in
  out.2 = Raise (ValueError "Password must be a non-empty string.") /\
  durable out.1 <> empty_database /\
  meta (durable out.1) !! "salt" = Some (b64encode urandom) /\
  meta (durable out.1) !! "iterations" = Some (str_of_int 200000).
Proof.
  intros out. subst out. unfold main_start.
  destruct (open_db_fresh urandom) as (Hdur & Hsec & Hs & Hi).
  cbn [fst snd].
  rewrite (get_params_of_meta _ urandom KDF_ITERATIONS Hs Hi).
  rewrite Hdur. split; [reflexivity |]. split; [| split; assumption].
  intros Hempty. rewrite Hempty in Hs. discriminate Hs.
Qed.

(** X12.  The start on an existing database does not check the master
    password: when the stored parameters can be read, with a salt of at
    least 8 bytes and a positive count, every non-empty password gives a
    session key, and the database is left as it was found. *)
Theorem main_start_accepts_any_password `{!PyLibLaws L} (db : database)
    (master_password : string) (urandom salt : bytes) (iterations : Z) :
  let out := main_start (Some db) master_password urandom in
  get_params (open_db (Some db) urandom) = Ok (salt, iterations) ->
  (8 <= length salt)%nat -> 0 < iterations ->
  master_password <> "" ->
  (exists key, out.2 = Ok key) /\
  out.1 = {| durable := db; current := db |}.
Proof.
  intros out Hparams Hsalt Hit Hpw. subst out. unfold main_start.
  cbn [fst snd]. rewrite Hparams.
  destruct (DocumentFacts.derive_fernet_key_ok master_password salt
              iterations Hpw Hsalt Hit) as [key Hkey].
  split; [exists key; exact Hkey | reflexivity].
Qed.

(** X13.  Storing a key under a non-empty name, the key non-empty and
    typed twice the same: the row is written and committed, a retrieval
    of that name with the same [Fernet] prints the key, whether or not
    the name had a row before, and every other row and the metadata are
    as before. *)
Theorem main_store_then_retrieve `{!PyLibLaws L} (conn : connection)
    (fernet : bytes) (input getpass_a getpass_b : string) (iv : bytes) :
  let service := str_strip input in
  let api_key := str_strip getpass_a in
  let out := main_store conn fernet input getpass_a getpass_b iv in
  service <> "" -> api_key <> "" -> api_key = str_strip getpass_b ->
  out.2 = MsgStored service /\
  main_retrieve out.1 fernet input = Ok (MsgApiKey api_key) /\
  (forall other, other <> service ->
     secrets (current out.1) !! other = secrets (current conn) !! other) /\
  dom (secrets (current out.1)) = {[service]} ∪ dom (secrets (current conn)) /\
  meta (current out.1) = meta (current conn) /\
  durable out.1 = current out.1.
Proof.
  intros service api_key out Hservice Hkey Hsame. subst out.
  unfold main_store. fold service. fold api_key. rewrite <- Hsame.
  destruct (String.eqb_spec service "") as [|_]; [contradiction |].
  destruct (String.eqb_spec api_key "") as [|_]; [contradiction |].
  rewrite String.eqb_refl. cbn [fst snd orb negb].
  unfold main_retrieve. fold service. simpl.
  rewrite lookup_insert_eq, fernet_decrypt_encrypt, decode_encode.
  repeat split.
  - intros other Hne. apply lookup_insert_ne. congruence.
  - apply dom_insert_L.
Qed.

(** X14.  Storing a key under a name that has no row and then deleting
    that name leaves the table of secrets exactly as it was, committed. *)
Theorem main_store_then_delete (conn : connection) (fernet : bytes)
    (input getpass_a getpass_b : string) (iv : bytes) :
  let service := str_strip input in
  let stored := main_store conn fernet input getpass_a getpass_b iv in
  let out := main_delete stored.1 input true in
  stored.2 = MsgStored service ->
  secrets (current conn) !! service = None ->
  out.2 = MsgDeleted /\
  secrets (current out.1) = secrets (current conn) /\
  meta (current out.1) = meta (current conn) /\
  durable out.1 = current out.1.
Proof.
  intros service stored out Hstored Hnone. subst out stored.
  unfold main_store in *. fold service in Hstored |- *.
  destruct (String.eqb_spec service "") as [|Hne]; [discriminate Hstored |].
  destruct (_ || _); [discriminate Hstored |].
  unfold main_delete. cbn [fst snd]. fold service.
  destruct (String.eqb_spec service "") as [|_]; [contradiction |].
  simpl. rewrite lookup_insert_eq. simpl.
  repeat split. apply delete_insert_id, Hnone.
Qed.

(** X15.  Option 3 of the tabular form lists the stored names in
    ascending order, each once, a name being listed exactly when it has a
    row; the list is empty exactly when the table is, and it is the only
    ascending listing of the stored names. *)
Theorem main_list_sorted_services `{!PyLibLaws L} (conn : connection) :
  StronglySorted text_le (main_list conn) /\
  NoDup (main_list conn) /\
  (forall s, s ∈ main_list conn <-> is_Some (secrets (current conn) !! s)) /\
  (main_list conn = [] <-> secrets (current conn) = ∅) /\
  (forall names,
     Sorted text_le names -> NoDup names ->
     (forall s, s ∈ names <-> is_Some (secrets (current conn) !! s)) ->
     names = main_list conn).
Proof.
  unfold main_list.
  destruct (sorted_names_spec (secrets (current conn))) as (Hs & Hn & He).
  split; [exact Hs |]. split; [exact Hn |]. split; [exact He |].
  split; [apply sorted_names_nil |].
  intros names. apply sorted_names_unique.
Qed.

End Facts.
End TabularSessionFacts.

(** ** The tabular form: what a rotation keeps *)

Module RotationFacts.
Import Tabular TabularMain TabularFacts TabularSessionFacts.

Section Facts.
Context {L : PyLib}.

#[local] Arguments derive_fernet_key : simpl never.
#[local] Arguments Document.derive_fernet_key : simpl never.

Lemma collect_plain_spec (fernet_old : bytes) (rows : list (string * bytes))
    (acc secrets_plain : list (string * string)) :
  collect_plain fernet_old rows acc = Collected secrets_plain ->
  exists entries,
    secrets_plain = (acc ++ entries)%list /\
    Forall2 (decrypts_to fernet_old) rows entries.
Proof.
  revert acc. induction rows as [|[service token] rows IH]; intros acc; simpl.
  - intros [= <-]. exists []. split; [symmetry; apply app_nil_r | constructor].
  - destruct (fernet_decrypt fernet_old token) as [data|] eqn:Hdec;
      [| discriminate].
    destruct (bytes_decode data) as [api_key|] eqn:Htext; [| discriminate].
    intros H. apply IH in H as (entries & -> & Hall).
    exists ((service, api_key) :: entries). split.
    + rewrite <- app_assoc. reflexivity.
    + constructor; [| exact Hall]. split; [reflexivity |]. eauto.
Qed.

Lemma decrypts_to_names (fernet_old : bytes) (rows : list (string * bytes))
    (entries : list (string * string)) :
  Forall2 (decrypts_to fernet_old) rows entries -> entries.*1 = rows.*1.
Proof.
  induction 1 as [|row entry rows entries [Hname _] _ IH]; [reflexivity |].
  rewrite !fmap_cons, IH, Hname. reflexivity.
Qed.

Lemma decrypts_to_elem (fernet_old : bytes) (rows : list (string * bytes))
    (entries : list (string * string)) (row : string * bytes) :
  Forall2 (decrypts_to fernet_old) rows entries -> row ∈ rows ->
  exists entry, entry ∈ entries /\ decrypts_to fernet_old row entry.
Proof.
  intros Hall Hin. apply list_elem_of_lookup in Hin as [i Hi].
  destruct (Forall2_lookup_l _ _ _ _ _ Hall Hi) as (entry & Hentry & Hrel).
  exists entry. split; [| exact Hrel].
  apply list_elem_of_lookup. eauto.
Qed.

(** The tokens the row updates leave, when none of them fails. *)
Lemma reencrypt_rows_lookup (inp : rotation_input) (fernet_new : bytes)
    (secrets_plain : list (string * string)) (n : nat)
    (conn conn' : connection) :
  NoDup secrets_plain.*1 ->
  reencrypt_rows inp fernet_new secrets_plain n conn = (Ok tt, conn') ->
  forall service,
    (service ∉ secrets_plain.*1 ->
     secrets (current conn') !! service = secrets (current conn) !! service) /\
    (forall api_key, (service, api_key) ∈ secrets_plain ->
     exists iv,
       secrets (current conn') !! service
       = (fun _ => fernet_encrypt fernet_new iv (str_encode api_key))
           <$> secrets (current conn) !! service).
Proof.
  revert n conn.
  induction secrets_plain as [|[s0 k0] rest IH]; intros n conn Hnodup; simpl.
  - intros [= <-] service. split; [reflexivity |].
    intros api_key Hin. inversion Hin.
  - apply NoDup_cons in Hnodup as [Hfresh Hnodup].
    destruct (execute inp (AtUpdateRow n) _ conn) as [[[]|e] c1] eqn:Hexec;
      [| discriminate].
    apply execute_ok in Hexec. intros Hrest service.
    destruct (IH _ _ Hnodup Hrest service) as [Hout Hin].
    assert (Hother : service <> s0 ->
              secrets (current c1) !! service
              = secrets (current conn) !! service).
    { intros Hne. rewrite Hexec. simpl. apply lookup_alter_ne. congruence. }
    split.
    + intros Hnotin. apply not_elem_of_cons in Hnotin as [Hne Hnotin].
      rewrite (Hout Hnotin). apply Hother, Hne.
    + intros api_key Hmem. apply elem_of_cons in Hmem as [[= -> ->] | Hmem].
      * exists (entropy inp n). rewrite (Hout Hfresh), Hexec. simpl.
        apply lookup_alter_eq.
      * assert (Hne : service <> s0).
        { intros ->. apply Hfresh. apply list_elem_of_fmap.
          exists (s0, api_key). split; [reflexivity | exact Hmem]. }
        destruct (Hin api_key Hmem) as [iv Hiv].
        exists iv. rewrite Hiv, (Hother Hne). reflexivity.
Qed.

(** The row updates neither add nor remove a row. *)
Lemma reencrypt_rows_dom (inp : rotation_input) (fernet_new : bytes)
    (secrets_plain : list (string * string)) (n : nat)
    (conn conn' : connection) (r : result unit) :
  reencrypt_rows inp fernet_new secrets_plain n conn = (r, conn') ->
  dom (secrets (current conn')) = dom (secrets (current conn)).
Proof.
  revert n conn.
  induction secrets_plain as [|[service api_key] rest IH]; intros n conn; simpl.
  - intros [= _ <-]. reflexivity.
  - destruct (execute inp (AtUpdateRow n) _ conn) as [[[]|e] c1] eqn:Hexec.
    + intros Hrest. rewrite (IH _ _ Hrest).
      apply execute_ok in Hexec as ->. simpl. apply dom_alter_L.
    + intros [= _ <-]. apply execute_raise in Hexec as ->. reflexivity.
Qed.

(** The statements on the parameters leave the rows alone, and commit
    nothing unless all three succeed. *)
Lemma write_params_frame (inp : rotation_input) (new_salt : bytes)
    (conn conn' : connection) (r : result unit) :
  write_params inp new_salt conn = (r, conn') ->
  secrets (current conn') = secrets (current conn) /\
  dom (meta (current conn')) = dom (meta (current conn)) /\
  (forall e, r = Raise e -> durable conn' = durable conn).
Proof.
  unfold write_params, execute.
  repeat case_decide; intros [= <- <-]; simpl;
    rewrite ?dom_alter_L; repeat split; intros; congruence.
Qed.

Lemma main_retrieve_ext (conn conn' : connection) (fernet : bytes)
    (input : string) :
  secrets (current conn') = secrets (current conn) ->
  main_retrieve conn' fernet input = main_retrieve conn fernet input.
Proof. intros H. unfold main_retrieve. rewrite H. reflexivity. Qed.

(** A rotation whose row updates run to their end reads, under the new
    key, what the old key read. *)
Lemma main_retrieve_reencrypted `{!PyLibLaws L} (inp : rotation_input)
    (fernet_old fernet_new : bytes) (secrets_plain : list (string * string))
    (conn conn1 conn2 : connection) (input : string) :
  collect_plain fernet_old (select_secrets inp (secrets (current conn))) []
    = Collected secrets_plain ->
  secrets (current conn1) = secrets (current conn) ->
  reencrypt_rows inp fernet_new secrets_plain 0 conn1 = (Ok tt, conn2) ->
  main_retrieve conn2 fernet_new input = main_retrieve conn fernet_old input.
Proof.
  intros Hcollect Hsame Hrows.
  apply collect_plain_spec in Hcollect as (entries & -> & Hall).
  simpl in Hrows.
  assert (Hnames : entries.*1 = (select_secrets inp (secrets (current conn))).*1)
    by (eapply decrypts_to_names, Hall).
  assert (Hnodup : NoDup entries.*1).
  { rewrite Hnames, select_secrets_Permutation. apply NoDup_fst_map_to_list. }
  unfold main_retrieve.
  destruct (reencrypt_rows_lookup _ _ _ _ _ _ Hnodup Hrows (str_strip input))
    as [Hout Hin].
  rewrite Hsame in Hout, Hin.
  destruct (secrets (current conn) !! str_strip input) as [token|] eqn:Hrow.
  - apply (elem_of_select_secrets inp) in Hrow.
    destruct (decrypts_to_elem _ _ _ _ Hall Hrow)
      as ([service api_key] & Hentry & Hname & data & Hdec & Htext).
    simpl in Hname, Hdec, Htext. subst service.
    destruct (Hin api_key Hentry) as [iv ->]. simpl.
    rewrite fernet_decrypt_encrypt, decode_encode, Hdec. simpl.
    rewrite Htext. reflexivity.
  - rewrite Hout; [reflexivity |].
    rewrite Hnames. intros Hmem. apply list_elem_of_fmap in Hmem
      as ([service token] & Hname & Hmem).
    apply elem_of_select_secrets in Hmem. simpl in Hname. subst service.
    congruence.
Qed.

(** X16.  Whenever [change_master_password] returns, the [Fernet] it
    returns reads the rows it leaves exactly as the old [Fernet] read the
    rows before: every retrieval prints the same key, the same notice or
    the same error, whether the rotation succeeded, was refused, or met a
    storage error at the row updates or their commit. *)
Theorem change_master_password_returns_working_fernet `{!PyLibLaws L}
    (conn : connection) (fernet_old : bytes) (inp : rotation_input)
    (fernet : bytes) (input : string) :
  let out := change_master_password conn fernet_old inp in
  returned out = Ok fernet ->
  main_retrieve (conn_after out) fernet input
  = main_retrieve conn fernet_old input.
Proof.
  intros out. subst out. unfold change_master_password.
  destruct (execute inp AtSelect _ conn) as [[[]|e0] conn0] eqn:Hselect;
    [| discriminate].
  apply execute_ok in Hselect as ->.
  destruct (collect_plain _ _ _) as [secrets_plain | service | e] eqn:Hcollect;
    [| intros [= <-]; reflexivity | discriminate].
  destruct (_ || _); [intros [= <-]; reflexivity |].
  destruct (write_params inp (urandom inp) conn) as [[[]|e1] conn1] eqn:Hwrite;
    [| discriminate].
  pose proof (write_params_frame _ _ _ _ _ Hwrite) as (Hsecrets & _ & _).
  apply write_params_ok in Hwrite.
  destruct (derive_fernet_key _ _ _) as [new_key|e]; [| discriminate].
  destruct (reencrypt_rows _ _ _ _ _) as [r conn2] eqn:Hrows.
  pose proof (reencrypt_rows_frame _ _ _ _ _ _ _ Hrows) as [Hdur _].
  assert (Hback : secrets (current (rollback conn2)) = secrets (current conn)).
  { simpl. rewrite Hdur, Hwrite. reflexivity. }
  unfold with_transaction.
  destruct r as [[]|e].
  - destruct (execute inp AtCommitRows commit conn2) as [[[]|e] conn3]
      eqn:Hcommit.
    + apply execute_ok in Hcommit as ->. intros [= <-].
      rewrite <- (main_retrieve_reencrypted inp fernet_old new_key
                    secrets_plain conn conn1 conn2 input Hcollect Hsecrets Hrows).
      apply main_retrieve_ext. reflexivity.
    + apply execute_raise in Hcommit as ->. intros [= <-].
      apply main_retrieve_ext, Hback.
  - intros [= <-]. apply main_retrieve_ext, Hback.
Qed.

(** X17.  When the storage raises no error, a rotation is all or
    nothing: it either reports success, with everything committed, or
    leaves the connection exactly as it was. *)
Theorem change_master_password_all_or_nothing_without_fault `{!PyLibLaws L}
    (conn : connection) (fernet_old : bytes) (inp : rotation_input) :
  let out := change_master_password conn fernet_old inp in
  fault inp = None ->
  length (urandom inp) = SALT_BYTES ->
  (printed out = [MsgPasswordUpdated] /\
   durable (conn_after out) = current (conn_after out)) \/
  conn_after out = conn.
Proof.
  intros out Hfault Hlen. subst out. unfold change_master_password.
  rewrite execute_no_fault by (rewrite Hfault; discriminate).
  destruct (collect_plain _ _ _) as [secrets_plain | service | e];
    [| right; reflexivity | right; reflexivity].
  destruct (String.eqb_spec (str_strip (getpass_1 inp)) "") as [|Hpw];
    [right; reflexivity |].
  destruct (negb _); [right; reflexivity |]. simpl.
  unfold write_params.
  rewrite !execute_no_fault by (rewrite Hfault; discriminate).
  assert (Hsalt : (8 <= length (urandom inp))%nat)
    by (rewrite Hlen; unfold SALT_BYTES; lia).
  destruct (DocumentFacts.derive_fernet_key_ok (str_strip (getpass_1 inp))
              (urandom inp) KDF_ITERATIONS Hpw Hsalt eq_refl) as [new_key Hkey].
  unfold derive_fernet_key. rewrite Hkey.
  match goal with
  | |- context [reencrypt_rows inp new_key secrets_plain 0 ?c] =>
      destruct (reencrypt_rows_no_fault inp new_key secrets_plain 0 c)
        as [conn2 Hrows]; [intros k; rewrite Hfault; discriminate |];
      rewrite Hrows
  end.
  unfold with_transaction.
  rewrite execute_no_fault by (rewrite Hfault; discriminate).
  left. split; reflexivity.
Qed.

Lemma write_params_fault (inp : rotation_input) (new_salt : bytes)
    (conn : connection) (here : fault_point) :
  fault inp = Some here ->
  here = AtUpdateSalt \/ here = AtUpdateIterations \/ here = AtCommitMeta ->
  exists conn', write_params inp new_salt conn = (Raise OperationalError, conn').
Proof.
  intros Hfault Hhere. unfold write_params, execute. rewrite Hfault.
  destruct Hhere as [-> | [-> | ->]];
    repeat (case_decide; try congruence); eauto.
Qed.

(** X18.  A storage error at the first query, at one of the two updates
    of the parameters or at their commit leaves the committed database
    and the rows as they were, and the rotation does not hand out a new
    [Fernet]. *)
Theorem change_master_password_early_fault (conn : connection)
    (fernet_old : bytes) (inp : rotation_input) (here : fault_point) :
  let out := change_master_password conn fernet_old inp in
  fault inp = Some here ->
  here = AtSelect \/ here = AtUpdateSalt \/ here = AtUpdateIterations \/
  here = AtCommitMeta ->
  durable (conn_after out) = durable conn /\
  secrets (current (conn_after out)) = secrets (current conn) /\
  (forall fernet, returned out = Ok fernet -> fernet = fernet_old) /\
  printed out <> [MsgPasswordUpdated].
Proof.
  intros out Hfault Hhere. subst out. unfold change_master_password.
  destruct Hhere as [-> | Hhere].
  { unfold execute. rewrite decide_True by exact Hfault. simpl.
    repeat split; discriminate. }
  rewrite execute_no_fault
    by (rewrite Hfault; destruct Hhere as [-> | [-> | ->]]; discriminate).
  destruct (collect_plain _ _ _) as [secrets_plain | service | e]; simpl;
    [| repeat split; [congruence | discriminate]
     | repeat split; discriminate].
  destruct (_ || _); simpl; [repeat split; [congruence | discriminate] |].
  destruct (write_params_fault inp (urandom inp) conn here Hfault Hhere)
    as [conn1 Hwrite].
  rewrite Hwrite.
  destruct (write_params_frame _ _ _ _ _ Hwrite) as (Hsecrets & _ & Hdur).
  simpl. repeat split; [eauto | assumption | discriminate | discriminate].
Qed.

#[local] Instance rowid_le_total (inp : rotation_input) : Total (rowid_le inp).
Proof. intros row1 row2. unfold rowid_le. lia. Qed.

#[local] Instance rowid_le_trans (inp : rotation_input) :
  Transitive (rowid_le inp).
Proof. intros row1 row2 row3. unfold rowid_le. lia. Qed.

(** The first loop names the first row it cannot decrypt and looks at no
    row after it. *)
Lemma collect_plain_stops (fernet_old : bytes)
    (before after : list (string * bytes)) (service : string) (token : bytes)
    (acc : list (string * string)) :
  Forall (fun row => exists data api_key,
            fernet_decrypt fernet_old row.2 = Some data /\
            bytes_decode data = Some api_key) before ->
  fernet_decrypt fernet_old token = None ->
  collect_plain fernet_old (before ++ (service, token) :: after) acc
  = CouldNotDecrypt service.
Proof.
  intros Hbefore Hnone. revert acc.
  induction Hbefore as [|[s t] before (data & api_key & Hdec & Htext) _ IH];
    intros acc; simpl in *.
  - rewrite Hnone. reflexivity.
  - rewrite Hdec, Htext. apply IH.
Qed.

(** X28.  The rows are examined by ascending rowid, the order in which
    the table returns them, not by service name: when a token is rejected
    under the old key and every row of a smaller or equal rowid decrypts
    to text, the rotation names that service and stops, whatever the rows
    of greater rowid hold. *)
Theorem change_master_password_names_least_rowid (conn : connection)
    (fernet_old : bytes) (inp : rotation_input) (service : string)
    (token : bytes) :
  fault inp <> Some AtSelect ->
  secrets (current conn) !! service = Some token ->
  fernet_decrypt fernet_old token = None ->
  (forall other token',
     other <> service ->
     secrets (current conn) !! other = Some token' ->
     (rowid inp other <= rowid inp service)%nat ->
     exists data api_key,
       fernet_decrypt fernet_old token' = Some data /\
       bytes_decode data = Some api_key) ->
  change_master_password conn fernet_old inp
  = {| conn_after := conn;
       returned := Ok fernet_old;
       printed := [MsgCouldNotDecrypt service] |}.
Proof.
  intros Hfault Hrow Hnone Hsmaller.
  unfold change_master_password.
  rewrite execute_no_fault by exact Hfault.
  pose proof (select_secrets_Permutation inp (secrets (current conn))) as Hperm.
  assert (Hsorted : StronglySorted (rowid_le inp)
                      (select_secrets inp (secrets (current conn))))
    by (apply StronglySorted_merge_sort; apply _).
  assert (Hnodup : NoDup (select_secrets inp (secrets (current conn))).*1)
    by (rewrite Hperm; apply NoDup_fst_map_to_list).
  assert (Hrows : forall s t,
            (s, t) ∈ select_secrets inp (secrets (current conn)) ->
            secrets (current conn) !! s = Some t)
    by (intros s t; apply elem_of_select_secrets).
  apply (elem_of_select_secrets inp) in Hrow.
  apply list_elem_of_split in Hrow as (before & after & Hsplit).
  rewrite Hsplit in Hsorted, Hnodup, Hrows |- *.
  rewrite collect_plain_stops; [reflexivity | | exact Hnone].
  apply Forall_forall. intros [s t] Hin. simpl.
  apply (Hsmaller s t).
  - intros ->. rewrite fmap_app, fmap_cons in Hnodup.
    apply NoDup_app in Hnodup as (_ & Hdisjoint & _).
    apply (Hdisjoint service).
    + apply list_elem_of_fmap. exists (service, t). auto.
    + apply list_elem_of_here.
  - apply Hrows. apply elem_of_app. left. exact Hin.
  - apply (StronglySorted_app_1_elem_of _ _ _ (s, t) (service, token) Hsorted);
      [exact Hin | apply list_elem_of_here].
Qed.

End Facts.
End RotationFacts.

(** ** The tabular form: invariants of a rotation and of the menu loop *)

Module TabularLoopFacts.
Import Tabular TabularMain TabularFacts TabularSessionFacts RotationFacts.

Section Facts.
Context {L : PyLib}.

#[local] Arguments derive_fernet_key : simpl never.
#[local] Arguments Document.derive_fernet_key : simpl never.

Lemma with_transaction_cases (inp : rotation_input) (r : result unit)
    (conn2 : connection) :
  with_transaction inp (r, conn2) = (Ok tt, commit conn2) \/
  exists e, with_transaction inp (r, conn2) = (Raise e, rollback conn2).
Proof.
  unfold with_transaction, execute. destruct r as [[]|e]; [| eauto].
  case_decide; eauto.
Qed.

(** X19.  A rotation neither adds nor removes a row or a parameter: for
    every input and every storage error, the services with a row and the
    keys of the metadata are the same after as before. *)
Theorem change_master_password_keeps_names (conn : connection)
    (fernet_old : bytes) (inp : rotation_input) :
  let out := change_master_password conn fernet_old inp in
  dom (secrets (current (conn_after out))) = dom (secrets (current conn)) /\
  dom (meta (current (conn_after out))) = dom (meta (current conn)).
Proof.
  intros out. subst out. unfold change_master_password.
  destruct (execute inp AtSelect _ conn) as [[[]|e0] conn0] eqn:Hselect.
  2:{ apply execute_raise in Hselect as ->. split; reflexivity. }
  apply execute_ok in Hselect as ->.
  destruct (collect_plain _ _ _) as [secrets_plain | service | e];
    [| split; reflexivity | split; reflexivity].
  destruct (_ || _); [split; reflexivity |].
  destruct (write_params inp (urandom inp) conn) as [r1 conn1] eqn:Hwrite.
  pose proof (write_params_frame _ _ _ _ _ Hwrite) as (Hsecrets & Hmeta & _).
  destruct r1 as [[]|e1]; [| simpl; rewrite Hsecrets, Hmeta; split; reflexivity].
  apply write_params_ok in Hwrite.
  destruct (derive_fernet_key _ _ _) as [new_key|e];
    [| simpl; rewrite Hsecrets, Hmeta; split; reflexivity].
  destruct (reencrypt_rows _ _ _ _ _) as [r conn2] eqn:Hrows.
  pose proof (reencrypt_rows_dom _ _ _ _ _ _ _ Hrows) as Hdom.
  pose proof (reencrypt_rows_frame _ _ _ _ _ _ _ Hrows) as [Hdur Hkeep].
  destruct (with_transaction_cases inp r conn2) as [-> | [e ->]]; simpl.
  - rewrite Hdom, Hkeep, Hsecrets, Hmeta. split; reflexivity.
  - rewrite Hdur, Hwrite. simpl. rewrite !dom_alter_L. split; reflexivity.
Qed.

(** The run of a rotation that meets no obstacle. *)
Lemma change_master_password_run `{!PyLibLaws L} (conn : connection)
    (fernet_old : bytes) (inp : rotation_input)
    (secrets_plain : list (string * string)) :
  collect_plain fernet_old (map_to_list (secrets (current conn))) []
    = Collected secrets_plain ->
  str_strip (getpass_1 inp) <> "" ->
  str_strip (getpass_1 inp) = str_strip (getpass_2 inp) ->
  length (urandom inp) = SALT_BYTES ->
  fault inp = None ->
  exists new_key conn2,
    derive_fernet_key (str_strip (getpass_1 inp)) (urandom inp) KDF_ITERATIONS
    = Ok new_key /\
    meta (current conn2)
    = alter (fun _ => str_of_int KDF_ITERATIONS) "iterations"
        (alter (fun _ => b64encode (urandom inp)) "salt" (meta (current conn))) /\
    change_master_password conn fernet_old inp
    = {| conn_after := commit conn2;
         returned := Ok new_key;
         printed := [MsgPasswordUpdated] |}.
Proof.
  intros Hcollect Hpw Hsame Hlen Hfault.
  destruct (collect_plain_Permutation fernet_old
              (map_to_list (secrets (current conn)))
              (select_secrets inp (secrets (current conn))) [] secrets_plain)
    as (scanned & Hscan & _);
    [symmetry; apply select_secrets_Permutation | exact Hcollect |].
  unfold change_master_password.
  rewrite execute_no_fault by (rewrite Hfault; discriminate).
  rewrite Hscan, <- Hsame.
  destruct (String.eqb_spec (str_strip (getpass_1 inp)) "") as [|_];
    [contradiction |].
  rewrite String.eqb_refl. simpl.
  unfold write_params.
  rewrite !execute_no_fault by (rewrite Hfault; discriminate).
  assert (Hsalt : (8 <= length (urandom inp))%nat)
    by (rewrite Hlen; unfold SALT_BYTES; lia).
  destruct (DocumentFacts.derive_fernet_key_ok (str_strip (getpass_1 inp))
              (urandom inp) KDF_ITERATIONS Hpw Hsalt eq_refl) as [new_key Hkey].
  unfold derive_fernet_key. rewrite Hkey.
  match goal with
  | |- context [reencrypt_rows inp new_key scanned 0 ?c] =>
      destruct (reencrypt_rows_no_fault inp new_key scanned 0 c)
        as [conn2 Hrows]; [intros k; rewrite Hfault; discriminate |];
      rewrite Hrows;
      apply reencrypt_rows_frame in Hrows as [_ Hmeta]
  end.
  unfold with_transaction.
  rewrite execute_no_fault by (rewrite Hfault; discriminate).
  exists new_key, conn2. split; [reflexivity |]. split; [exact Hmeta |].
  reflexivity.
Qed.

(** X20.  A rotation whose rows all decrypt, with a non-empty new
    password typed twice the same and no storage error, succeeds: it
    returns the key of the new password under the fresh salt and 200000
    iterations, and a later start on the database it committed, with the
    new password, derives that same key. *)
Theorem change_master_password_succeeds `{!PyLibLaws L} (conn : connection)
    (fernet_old : bytes) (inp : rotation_input)
    (secrets_plain : list (string * string)) (salt0 : bytes) (iterations0 : Z)
    (urandom' : bytes) :
  let out := change_master_password conn fernet_old inp in
  let new_password := str_strip (getpass_1 inp) in
  get_params conn = Ok (salt0, iterations0) ->
  collect_plain fernet_old (map_to_list (secrets (current conn))) []
    = Collected secrets_plain ->
  new_password <> "" ->
  new_password = str_strip (getpass_2 inp) ->
  length (urandom inp) = SALT_BYTES ->
  fault inp = None ->
  printed out = [MsgPasswordUpdated] /\
  (exists new_key, returned out = Ok new_key) /\
  returned out = derive_fernet_key new_password (urandom inp) 200000 /\
  main_start (Some (durable (conn_after out))) new_password urandom'
  = (conn_after out, returned out).
Proof.
  intros out new_password Hparams Hcollect Hpw Hsame Hlen Hfault.
  subst out new_password.
  destruct (change_master_password_run conn fernet_old inp secrets_plain
              Hcollect Hpw Hsame Hlen Hfault)
    as (new_key & conn2 & Hkey & Hmeta & ->).
  simpl. split; [reflexivity |]. split; [eauto |].
  split; [symmetry; exact Hkey |].
  unfold main_start, open_db. f_equal.
  unfold get_params in Hparams |- *. simpl. rewrite Hmeta.
  destruct (meta (current conn) !! "salt") as [v1|] eqn:Hs; [| discriminate].
  simpl in Hparams.
  destruct (b64decode v1); [| discriminate]. simpl in Hparams.
  destruct (meta (current conn) !! "iterations") as [v2|] eqn:Hi;
    [| discriminate].
  rewrite lookup_alter_eq, lookup_alter_ne, Hi by discriminate.
  rewrite lookup_alter_ne, lookup_alter_eq, Hs by discriminate.
  simpl. rewrite b64decode_b64encode. simpl.
  rewrite int_of_str_of_int. simpl. exact Hkey.
Qed.

(** X23.  Without a storage error, a rotation reports success exactly
    when every row decrypts under the old key to utf-8 text and the new
    password is not empty and was typed twice the same. *)
Theorem change_master_password_succeeds_iff `{!PyLibLaws L} (conn : connection)
    (fernet_old : bytes) (inp : rotation_input) :
  let out := change_master_password conn fernet_old inp in
  fault inp = None ->
  length (urandom inp) = SALT_BYTES ->
  printed out = [MsgPasswordUpdated] <->
  (exists secrets_plain,
     collect_plain fernet_old (map_to_list (secrets (current conn))) []
     = Collected secrets_plain) /\
  str_strip (getpass_1 inp) <> "" /\
  str_strip (getpass_1 inp) = str_strip (getpass_2 inp).
Proof.
  intros out Hfault Hlen. subst out. split.
  - unfold change_master_password.
    rewrite execute_no_fault by (rewrite Hfault; discriminate).
    destruct (collect_plain _ _ _) as [scanned | service | e] eqn:Hscan;
      [| discriminate | discriminate].
    destruct (String.eqb_spec (str_strip (getpass_1 inp)) "") as [|Hpw];
      [discriminate |].
    destruct (String.eqb_spec (str_strip (getpass_1 inp))
                (str_strip (getpass_2 inp))) as [Hsame|]; [| discriminate].
    intros _.
    destruct (collect_plain_Permutation fernet_old _
                (map_to_list (secrets (current conn))) [] scanned
                (select_secrets_Permutation inp _) Hscan)
      as (secrets_plain & Hcollect & _).
    eauto.
  - intros ([secrets_plain Hcollect] & Hpw & Hsame).
    destruct (change_master_password_run conn fernet_old inp secrets_plain
                Hcollect Hpw Hsame Hlen Hfault) as (new_key & conn2 & _ & _ & ->).
    reflexivity.
Qed.

Lemma program_params_update_salt (db : database) (salt : bytes) :
  program_params db ->
  program_params
    {| meta := alter (fun _ => b64encode salt) "salt" (meta db);
       secrets := secrets db |}.
Proof.
  intros (salt0 & Hs & Hi). exists salt. simpl. split.
  - rewrite lookup_alter_eq, Hs. reflexivity.
  - rewrite lookup_alter_ne by discriminate. exact Hi.
Qed.

Lemma program_params_update_iterations (db : database) :
  program_params db ->
  program_params
    {| meta := alter (fun _ => str_of_int KDF_ITERATIONS) "iterations" (meta db);
       secrets := secrets db |}.
Proof.
  intros (salt0 & Hs & Hi). exists salt0. simpl. split.
  - rewrite lookup_alter_ne by discriminate. exact Hs.
  - rewrite lookup_alter_eq, Hi. reflexivity.
Qed.

Lemma program_params_meta (db db' : database) :
  meta db' = meta db -> program_params db -> program_params db'.
Proof. intros H (salt & Hs & Hi). exists salt. rewrite H. auto. Qed.

Lemma write_params_keeps_params (inp : rotation_input) (new_salt : bytes)
    (conn conn' : connection) (r : result unit) :
  conn_params conn ->
  write_params inp new_salt conn = (r, conn') -> conn_params conn'.
Proof.
  intros [Hdur Hcur].
  pose proof (program_params_update_salt _ new_salt Hcur) as H1.
  pose proof (program_params_update_iterations _ H1) as H2.
  unfold write_params, execute.
  repeat case_decide; intros [= <- <-]; split; simpl; assumption.
Qed.

Lemma change_master_password_keeps_params (conn : connection)
    (fernet_old : bytes) (inp : rotation_input) :
  conn_params conn ->
  conn_params (conn_after (change_master_password conn fernet_old inp)).
Proof.
  intros Hconn. unfold change_master_password.
  destruct (execute inp AtSelect _ conn) as [[[]|e0] conn0] eqn:Hselect.
  2:{ apply execute_raise in Hselect as ->. exact Hconn. }
  apply execute_ok in Hselect as ->.
  destruct (collect_plain _ _ _) as [secrets_plain | service | e];
    [| exact Hconn | exact Hconn].
  destruct (_ || _); [exact Hconn |].
  destruct (write_params inp (urandom inp) conn) as [r1 conn1] eqn:Hwrite.
  pose proof (write_params_keeps_params _ _ _ _ _ Hconn Hwrite) as Hconn1.
  destruct r1 as [[]|e1]; [| exact Hconn1].
  destruct (derive_fernet_key _ _ _) as [new_key|e]; [| exact Hconn1].
  destruct (reencrypt_rows _ _ _ _ _) as [r conn2] eqn:Hrows.
  pose proof (reencrypt_rows_frame _ _ _ _ _ _ _ Hrows) as [Hdur Hmeta].
  destruct Hconn1 as [Hd1 Hc1].
  assert (Hd2 : program_params (durable conn2)) by (rewrite Hdur; exact Hd1).
  assert (Hc2 : program_params (current conn2))
    by (eapply program_params_meta; [exact Hmeta | exact Hc1]).
  destruct (with_transaction_cases inp r conn2) as [-> | [e ->]]; simpl;
    split; assumption.
Qed.

Lemma main_step_keeps_params (conn : connection) (fernet : bytes) (ev : event) :
  conn_params conn -> conn_params (main_step conn fernet ev).1.
Proof.
  intros [Hdur Hcur].
  destruct ev as [input a b iv | input | | input confirmed | inp]; simpl;
    try (split; assumption).
  - unfold main_store. destruct (_ =? _)%string; [split; assumption |].
    destruct (_ || _); split; assumption.
  - unfold main_delete. destruct (_ =? _)%string; [split; assumption |].
    destruct confirmed; [| split; assumption]. simpl.
    destruct (_ =? _)%nat; split; assumption.
  - apply change_master_password_keeps_params. split; assumption.
Qed.

(** X21.  On a database that holds a base64 salt and the iteration count
    200000, as [open_db] creates it, the connection after every round of
    the menu holds such parameters again, committed and current, whatever
    is stored, deleted or rotated and whatever storage error a rotation
    meets; with them [get_params] succeeds and returns 200000. *)
Theorem main_loop_keeps_program_params `{!PyLibLaws L}
    (file : option database) (urandom fernet : bytes) (events : list event) :
  let conn := open_db file urandom in
  (forall db, file = Some db -> program_params db) ->
  Forall (fun conn' =>
            conn_params conn' /\
            exists salt, get_params conn' = Ok (salt, 200000))
         (conn :: main_loop conn fernet events).
Proof.
  intros conn Hfile.
  assert (Hstart : conn_params conn).
  { subst conn. destruct file as [db|].
    - split; apply Hfile; reflexivity.
    - destruct (open_db_fresh urandom) as (Hdur & _ & Hs & Hi).
      assert (Hcur : program_params (current (open_db None urandom)))
        by (exists urandom; auto).
      split; [rewrite Hdur |]; exact Hcur. }
  assert (Hread : forall c, conn_params c ->
            conn_params c /\ exists salt, get_params c = Ok (salt, 200000)).
  { intros c Hc. split; [exact Hc |].
    destruct Hc as [_ (salt & Hs & Hi)]. exists salt.
    apply get_params_of_meta; assumption. }
  clearbody conn. constructor; [apply Hread, Hstart |].
  revert conn fernet Hstart.
  induction events as [|ev events IH]; intros conn fernet Hstart; simpl;
    [constructor |].
  pose proof (main_step_keeps_params conn fernet ev Hstart) as Hstep.
  destruct (main_step conn fernet ev) as [conn' [fernet'|e]]; simpl in Hstep.
  - constructor; [apply Hread, Hstep | apply IH, Hstep].
  - constructor; [apply Hread, Hstep | constructor].
Qed.

(** X22.  A round of the menu that returns leaves nothing uncommitted:
    from a connection without pending changes, every round that does not
    end in an escaping exception leaves the committed database equal to
    the current one, a rotation that failed at its row updates included. *)
Theorem main_step_commits (conn : connection) (fernet fernet' : bytes)
    (ev : event) :
  let out := main_step conn fernet ev in
  durable conn = current conn ->
  out.2 = Ok fernet' ->
  durable out.1 = current out.1.
Proof.
  intros out Hclean. subst out.
  destruct ev as [input a b iv | input | | input confirmed | inp]; simpl;
    try (intros _; exact Hclean).
  - intros _. unfold main_store. destruct (_ =? _)%string; [exact Hclean |].
    destruct (_ || _); [exact Hclean | reflexivity].
  - intros _. unfold main_delete. destruct (_ =? _)%string; [exact Hclean |].
    destruct confirmed; [| exact Hclean]. simpl.
    destruct (_ =? _)%nat; reflexivity.
  - unfold change_master_password.
    destruct (execute inp AtSelect _ conn) as [[[]|e0] conn0] eqn:Hselect;
      [| discriminate].
    apply execute_ok in Hselect as ->.
    destruct (collect_plain _ _ _) as [secrets_plain | service | e];
      [| intros _; exact Hclean | discriminate].
    destruct (_ || _); [intros _; exact Hclean |].
    destruct (write_params inp (urandom inp) conn) as [[[]|e1] conn1];
      [| discriminate].
    destruct (derive_fernet_key _ _ _) as [new_key|e]; [| discriminate].
    destruct (reencrypt_rows _ _ _ _ _) as [r conn2].
    destruct (with_transaction_cases inp r conn2) as [-> | [e ->]];
      intros _; reflexivity.
Qed.

(** X24.  A key stored in a session survives a restart: when the
    session key is the key of the master password under the stored
    parameters, a later start on the committed database with the same
    password derives the same key, and a retrieval of the name prints the
    key that was stored. *)
Theorem main_store_survives_restart `{!PyLibLaws L} (conn : connection)
    (master_password : string) (salt fernet : bytes) (iterations : Z)
    (input getpass_a getpass_b : string) (iv urandom' : bytes) :
  let service := str_strip input in
  let api_key := str_strip getpass_a in
  let stored := main_store conn fernet input getpass_a getpass_b iv in
  let restart := main_start (Some (durable stored.1)) master_password urandom' in
  get_params conn = Ok (salt, iterations) ->
  derive_fernet_key master_password salt iterations = Ok fernet ->
  service <> "" -> api_key <> "" -> api_key = str_strip getpass_b ->
  restart.2 = Ok fernet /\
  main_retrieve restart.1 fernet input = Ok (MsgApiKey api_key).
Proof.
  intros service api_key stored restart Hparams Hkey Hservice Hapi Hsame.
  subst restart stored.
  unfold main_store. fold service. fold api_key. rewrite <- Hsame.
  destruct (String.eqb_spec service "") as [|_]; [contradiction |].
  destruct (String.eqb_spec api_key "") as [|_]; [contradiction |].
  rewrite String.eqb_refl. cbn [fst snd orb negb].
  unfold main_start, open_db, main_retrieve. cbn [fst snd]. fold service.
  split.
  - unfold get_params in *. simpl. 
    destruct (meta (current conn) !! "salt") as [v1|]; [| discriminate].
    simpl in *. destruct (b64decode v1); [| discriminate]. simpl in *.
    destruct (meta (current conn) !! "iterations") as [v2|]; [| discriminate].
    simpl in *. destruct (int_of_str v2); [| discriminate]. simpl in *.
    injection Hparams as -> ->. exact Hkey.
  - simpl. rewrite lookup_insert_eq, fernet_decrypt_encrypt, decode_encode.
    reflexivity.
Qed.

End Facts.
End TabularLoopFacts.

(** ** The session theorems on concrete vaults *)

Module SessionExampleFacts.
Import Reference ReferenceFacts Examples SessionExamples.

Lemma first_open_then_reopen_witness :
  (Document.load_or_init_vault "hunter2" None salt16 iv).1
  = Ok (vault_json ∅) /\
  Document.load_or_init_vault "hunter2" fresh_file salt_new iv
  = (Ok (vault_json ∅), fresh_file).
Proof.
  destruct (DocumentSessionFacts.first_open_then_reopen (L := lib)
              "hunter2" salt16 iv salt_new iv) as (H1 & _ & _ & H4).
  - discriminate.
  - vm_compute. reflexivity.
  - split; [exact H1 | exact H4].
Defined.

Lemma first_open_creates_file_iff_witness :
  is_Some (Document.load_or_init_vault "hunter2" None salt16 iv).2
  <-> "hunter2" <> "".
Proof.
  apply (DocumentSessionFacts.first_open_creates_file_iff (L := lib)
           "hunter2" salt16 iv).
  vm_compute. reflexivity.
Defined.

Lemma save_then_load_witness :
  (Document.save_vault vault1 "hunter2" fresh_file iv).1 = Ok tt /\
  Document.load_or_init_vault "hunter2"
    (Document.save_vault vault1 "hunter2" fresh_file iv).2 salt_new iv
  = (Ok (vault_json vault1),
     (Document.save_vault vault1 "hunter2" fresh_file iv).2).
Proof.
  destruct (DocumentSessionFacts.save_then_load (L := lib) vault1 "hunter2"
              fresh_file iv salt_new iv (vault_json ∅)) as (H1 & H2 & _).
  - vm_compute. reflexivity.
  - vm_compute. eexists. reflexivity.
  - split; [exact H1 | exact H2].
Defined.

Lemma main_loop_keeps_file_in_step_witness :
  exists fs',
    DocumentMain.main_loop ∅ "hunter2" fresh_file document_rounds
    = (Ok (foldl DocumentMain.store_event ∅ document_rounds), fs') /\
    Document.open_existing fs' "hunter2"
    = Ok (vault_json (foldl DocumentMain.store_event ∅ document_rounds)) /\
    Document.stored_params fs' = Document.stored_params fresh_file.
Proof.
  apply (DocumentSessionFacts.main_loop_keeps_file_in_step (L := lib)).
  vm_compute. reflexivity.
Defined.

Lemma load_existing_empty_password_witness :
  Document.load_or_init_vault "" (Some fresh_content) [] []
  = (Raise (MalformedVault (ValueError "Password must be a non-empty string.")),
     Some fresh_content).
Proof.
  apply (DocumentEdgeFacts.load_existing_empty_password (L := lib)
           fresh_content [] [] salt16 200000).
  vm_compute. reflexivity.
Defined.

Lemma load_existing_not_an_object_witness :
  Document.load_or_init_vault (L := lib_with_list) "hunter2"
    (Some list_content) [] []
  = (Raise TypeError, Some list_content).
Proof.
  apply (DocumentEdgeFacts.load_existing_not_an_object (L := lib_with_list)
           "hunter2" list_content [] [] (JList [])).
  - vm_compute. reflexivity.
  - discriminate.
Defined.

Lemma load_existing_missing_member_witness :
  Document.load_or_init_vault "" (Some headless_content) [] []
  = (Raise (MalformedVault (KeyError "salt")), Some headless_content).
Proof.
  apply (DocumentEdgeFacts.load_existing_missing_member (L := lib)
           "" headless_content [] [] headless_record).
  - vm_compute. reflexivity.
  - vm_compute. reflexivity.
Defined.

Lemma decrypt_vault_dict_ignores_other_members_witness :
  Document.decrypt_vault_dict
    (JDict (<["version" := JInt 2]> headless_record)) "hunter2"
  = Document.decrypt_vault_dict (JDict headless_record) "hunter2".
Proof.
  apply (DocumentEdgeFacts.decrypt_vault_dict_ignores_other_members (L := lib));
    discriminate.
Defined.

Lemma main_start_creates_database_witness :
  (exists key,
     (TabularMain.main_start None "hunter2" salt16).2 = Ok key /\
     Tabular.derive_fernet_key "hunter2" salt16 200000 = Ok key) /\
  Tabular.get_params (TabularMain.main_start None "hunter2" salt16).1
  = Ok (salt16, 200000).
Proof.
  destruct (TabularSessionFacts.main_start_creates_database (L := lib)
              "hunter2" salt16) as (H1 & H2 & _).
  - discriminate.
  - vm_compute. reflexivity.
  - split; [exact H1 | exact H2].
Defined.

Lemma main_start_empty_password_leaves_database_witness :
  (TabularMain.main_start None "" salt16).2
  = Raise (ValueError "Password must be a non-empty string.") /\
  Tabular.durable (TabularMain.main_start None "" salt16).1
  <> TabularMain.empty_database.
Proof.
  destruct (TabularSessionFacts.main_start_empty_password_leaves_database
              (L := lib) salt16) as (H1 & H2 & _).
  split; [exact H1 | exact H2].
Defined.

Lemma main_start_accepts_any_password_witness :
  exists key, (TabularMain.main_start (Some db0) "not the password" salt_new).2
              = Ok key.
Proof.
  apply (TabularSessionFacts.main_start_accepts_any_password (L := lib)
           db0 "not the password" salt_new salt16 200000).
  - vm_compute. reflexivity.
  - vm_compute. lia.
  - lia.
  - discriminate.
Defined.

Lemma main_store_then_retrieve_witness :
  Tabular.main_retrieve
    (Tabular.main_store conn0 old_key " aws " "AKIA" "AKIA" iv).1 old_key " aws "
  = Ok (Tabular.MsgApiKey (str_strip "AKIA")).
Proof.
  apply (TabularSessionFacts.main_store_then_retrieve (L := lib)
           conn0 old_key " aws " "AKIA" "AKIA" iv).
  - vm_compute. discriminate.
  - vm_compute. discriminate.
  - reflexivity.
Defined.

Lemma main_store_then_delete_witness :
  Tabular.secrets
    (Tabular.current
       (Tabular.main_delete
          (Tabular.main_store conn0 old_key "aws" "AKIA" "AKIA" iv).1
          "aws" true).1)
  = Tabular.secrets (Tabular.current conn0).
Proof.
  apply (TabularSessionFacts.main_store_then_delete (L := lib)
           conn0 old_key "aws" "AKIA" "AKIA" iv).
  - vm_compute. reflexivity.
  - vm_compute. reflexivity.
Defined.

Lemma main_list_sorted_services_witness :
  StronglySorted Listing.text_le (TabularMain.main_list conn_bad) /\
  NoDup (TabularMain.main_list conn_bad).
Proof.
  destruct (TabularSessionFacts.main_list_sorted_services (L := lib) conn_bad)
    as (H1 & H2 & _).
  split; [exact H1 | exact H2].
Defined.

Lemma change_master_password_returns_working_fernet_witness :
  Tabular.main_retrieve
    (Tabular.conn_after
       (Tabular.change_master_password conn0 old_key (rotation None)))
    (key_of "new" salt_new) "github"
  = Tabular.main_retrieve conn0 old_key "github".
Proof.
  apply (RotationFacts.change_master_password_returns_working_fernet
           (L := lib) conn0 old_key (rotation None)).
  vm_compute. reflexivity.
Defined.

Lemma change_master_password_all_or_nothing_without_fault_witness :
  (Tabular.printed (Tabular.change_master_password conn_bad old_key (rotation None))
   = [Tabular.MsgPasswordUpdated] /\
   Tabular.durable
     (Tabular.conn_after
        (Tabular.change_master_password conn_bad old_key (rotation None)))
   = Tabular.current
       (Tabular.conn_after
          (Tabular.change_master_password conn_bad old_key (rotation None)))) \/
  Tabular.conn_after
    (Tabular.change_master_password conn_bad old_key (rotation None))
  = conn_bad.
Proof.
  apply (RotationFacts.change_master_password_all_or_nothing_without_fault
           (L := lib) conn_bad old_key (rotation None)).
  - reflexivity.
  - vm_compute. reflexivity.
Defined.

Lemma change_master_password_early_fault_witness :
  Tabular.durable
    (Tabular.conn_after
       (Tabular.change_master_password conn0 old_key
          (rotation (Some Tabular.AtUpdateIterations))))
  = Tabular.durable conn0.
Proof.
  apply (RotationFacts.change_master_password_early_fault (L := lib)
           conn0 old_key (rotation (Some Tabular.AtUpdateIterations))
           Tabular.AtUpdateIterations).
  - reflexivity.
  - right. right. left. reflexivity.
Defined.

Lemma change_master_password_succeeds_witness :
  Tabular.printed (Tabular.change_master_password conn0 old_key (rotation None))
  = [Tabular.MsgPasswordUpdated] /\
  TabularMain.main_start
    (Some (Tabular.durable
             (Tabular.conn_after
                (Tabular.change_master_password conn0 old_key (rotation None)))))
    (str_strip "new") salt16
  = (Tabular.conn_after
       (Tabular.change_master_password conn0 old_key (rotation None)),
     Tabular.returned
       (Tabular.change_master_password conn0 old_key (rotation None))).
Proof.
  destruct (TabularLoopFacts.change_master_password_succeeds (L := lib)
              conn0 old_key (rotation None) [("github", "ghp_abc123")]
              salt16 200000 salt16) as (H1 & _ & _ & H4).
  - vm_compute. reflexivity.
  - vm_compute. reflexivity.
  - vm_compute. discriminate.
  - reflexivity.
  - vm_compute. reflexivity.
  - reflexivity.
  - split; [exact H1 | exact H4].
Defined.

Lemma change_master_password_succeeds_iff_witness :
  Tabular.printed (Tabular.change_master_password conn_bad old_key (rotation None))
  = [Tabular.MsgPasswordUpdated] <->
  (exists secrets_plain,
     Tabular.collect_plain old_key
       (map_to_list (Tabular.secrets (Tabular.current conn_bad))) []
     = Tabular.Collected secrets_plain) /\
  str_strip "new" <> "" /\ str_strip "new" = str_strip "new".
Proof.
  apply (TabularLoopFacts.change_master_password_succeeds_iff (L := lib)
           conn_bad old_key (rotation None)).
  - reflexivity.
  - vm_compute. reflexivity.
Defined.

Lemma main_loop_keeps_program_params_witness :
  Forall (fun conn' =>
            TabularMain.conn_params conn' /\
            exists salt, Tabular.get_params conn' = Ok (salt, 200000))
         (TabularMain.open_db None salt16
          :: TabularMain.main_loop (TabularMain.open_db None salt16)
               (key_of "hunter2" salt16) tabular_rounds).
Proof.
  apply (TabularLoopFacts.main_loop_keeps_program_params (L := lib)
           None salt16 (key_of "hunter2" salt16) tabular_rounds).
  intros db Hdb. discriminate Hdb.
Defined.

Lemma main_step_commits_witness :
  Tabular.durable
    (TabularMain.main_step conn0 old_key
       (TabularMain.EvRotate (rotation (Some (Tabular.AtUpdateRow 0))))).1
  = Tabular.current
      (TabularMain.main_step conn0 old_key
         (TabularMain.EvRotate (rotation (Some (Tabular.AtUpdateRow 0))))).1.
Proof.
  apply (TabularLoopFacts.main_step_commits (L := lib) conn0 old_key old_key
           (TabularMain.EvRotate (rotation (Some (Tabular.AtUpdateRow 0))))).
  - reflexivity.
  - vm_compute. reflexivity.
Defined.

Lemma main_store_survives_restart_witness :
  (TabularMain.main_start
     (Some (Tabular.durable
              (Tabular.main_store conn0 old_key "aws" "AKIA" "AKIA" iv).1))
     "old" salt_new).2 = Ok old_key /\
  Tabular.main_retrieve
    (TabularMain.main_start
       (Some (Tabular.durable
                (Tabular.main_store conn0 old_key "aws" "AKIA" "AKIA" iv).1))
       "old" salt_new).1 old_key "aws"
  = Ok (Tabular.MsgApiKey (str_strip "AKIA")).
Proof.
  apply (TabularLoopFacts.main_store_survives_restart (L := lib)
           conn0 "old" salt16 old_key 200000 "aws" "AKIA" "AKIA" iv salt_new).
  - vm_compute. reflexivity.
  - vm_compute. reflexivity.
  - vm_compute. discriminate.
  - vm_compute. discriminate.
  - reflexivity.
Defined.

Lemma load_or_init_vault_existing_reads_only_witness :
  let call1 := Effects.load_or_init_vault "hunter2" EffectExamples.world_a in
  let call2 := Effects.load_or_init_vault "hunter2" EffectExamples.world_b in
  call1.1 = call2.1 /\
  call1.2 = EffectExamples.world_a /\ call2.2 = EffectExamples.world_b /\
  forall urandom entropy,
    call1.1
    = (Document.load_or_init_vault "hunter2"
         (Effects.disk EffectExamples.world_a) urandom entropy).1.
Proof.
  apply (EffectFacts.load_or_init_vault_existing_reads_only (L := lib)).
  - vm_compute. eexists. reflexivity.
  - reflexivity.
Defined.

Lemma load_or_init_vault_first_open_effects_witness :
  let out := Effects.load_or_init_vault "hunter2" EffectExamples.world_new in
  out.1 = Ok (vault_json ∅) /\
  Effects.disk out.2 = fresh_file /\
  Effects.drawn out.2 = 2%nat /\
  Effects.console out.2
  = ["[init] Created new encrypted vault at vault.enc.json."].
Proof.
  destruct (EffectFacts.load_or_init_vault_first_open_effects (L := lib)
              "hunter2" EffectExamples.world_new eq_refl)
    as (_ & Hfirst & _).
  destruct Hfirst as (Hreturned & Hdisk & _ & Hdrawn & Hconsole);
    [discriminate |].
  split; [exact Hreturned |].
  split; [rewrite Hdisk; vm_compute; reflexivity |].
  split; [exact Hdrawn | exact Hconsole].
Defined.

(** Of two undecryptable rows the rotation names zz, the one inserted
    first, not a, the first by name. *)
Lemma change_master_password_names_least_rowid_witness :
  Tabular.change_master_password conn_two_bad old_key rotation_zz_first
  = {| Tabular.conn_after := conn_two_bad;
       Tabular.returned := Ok old_key;
       Tabular.printed := [Tabular.MsgCouldNotDecrypt "zz"] |}.
Proof.
  apply (RotationFacts.change_master_password_names_least_rowid (L := lib)
           conn_two_bad old_key rotation_zz_first "zz"
           (list_byte_of_string "garbage")).
  - discriminate.
  - vm_compute. reflexivity.
  - vm_compute. reflexivity.
  - intros other token' Hother _ Hrowid. exfalso. revert Hrowid.
    change (Tabular.rowid rotation_zz_first other)
      with (if (other =? "zz")%string then 1%nat else 2%nat).
    change (Tabular.rowid rotation_zz_first "zz") with 1%nat.
    destruct (String.eqb_spec other "zz"); [contradiction | lia].
Defined.

End SessionExampleFacts.
